(* ===== verification/_CoqProject ===== *)
-Q . S2P
Prelude.v
JsDate.v
HebrewOracle.v
MonthGrid.v
Gematria.v
Events.v
CalendarCard.v
CalendarView.v
Dashboard.v
Personal.v
Weather.v
Tools.v
Shell.v
Panels.v
Views.v
