(* ===== verification/Prelude.v ===== *)
(** * A verification library for the Home-Page-1 dashboard

    The repository is a browser dashboard written in React/TypeScript
    (src/App.tsx, src/components/HomePanel.tsx, OtherPanels.tsx,
    Shared.tsx, src/types.ts, src/constants.ts).  Most of it keeps lists
    in browser storage and renders them; the algorithmic part is the
    Hebrew calendar card, [HebrewCalendar] in HomePanel.tsx (lines
    40-209), built on a calendar oracle of the host platform
    ([Intl.DateTimeFormat] with the [he-u-ca-hebrew] locale).

    ** How the program is put together

    - The host calendar oracle answers, for a civil day, the Hebrew day
      of month, month name, year and weekday ([getHebParts]).
    - [findHebMonthStart] walks backward one civil day at a time until
      the oracle says day 1; [buildHebMonthDays] walks forward from a
      month start and collects days until the next month's day 1;
      [shiftHebMonth] moves the view anchor by whole Hebrew months by
      composing the two.  [hebrewDayGematria] and [hebrewYearGematria]
      print numbers as Hebrew letter numerals.
    - The card keeps user events in storage; the month's events are those
      whose ISO date string is [toISO] of one of the month's days, sorted
      by [localeCompare] of date and time.  Every date is a JavaScript
      [Date] read in the local time zone, except [toISO], which reads UTC.
    - Around the card: the search box and its history, the shortcut grid
      and its editors, and the history panel share two storage keys; the
      weather card fetches and caches a forecast; the personal panel
      keeps notes, a to-do list and important dates; the tools panel has
      a calculator, a stopwatch/countdown timer and a translate box; the
      shell selects the visible panel, greets by the hour, picks the
      quote of the day and applies the chosen background.

    ** Files (in dependency order), and what each models

    - [Prelude] (this file): the scope [dash_scope], the hint databases
      [dash] and [dash_rw], the tactics [zdiv] and [bool_prop], integer
      ranges, [String.prototype.trim] ([trim], idempotent), JavaScript's
      [||] on strings and the index-aware [filter] and [map] of arrays,
      proved equal to stdpp's [delete] and [alter].
    - [JsDate]: the platform [Date]: a millisecond time value, a fixed
      local offset (type class [TimeZone]), local days, [setDate],
      [getDay], the proleptic Gregorian date of a day number, and [toISO]
      (HomePanel.tsx:106).
    - [HebrewOracle]: the oracle as a type class [HebrewCalendar] with
      its laws [HebrewCalendarLaws] (days 1..30, consecutive within a
      month, a new month after day 29 or 30 with another name), the
      abstract month derived from the laws, and a lawful instance used
      by the witnesses.
    - [MonthGrid]: [findHebMonthStart], [buildHebMonthDays],
      [monthLength] and [shiftHebMonth] (HomePanel.tsx:82-105) with their
      guarded loops, refining the abstract month.
    - [Gematria]: the two numeral functions (HomePanel.tsx:57-77) over
      JavaScript strings as lists of UTF-16 code units.
    - [Events]: the event record and the list operations of the card.
    - [CalendarCard]: the card's state and handlers as one step function
      [cal_step], the month list, the day cells and the today mark.
    - [CalendarView]: what the card renders (HomePanel.tsx:110-203) as
      data: the message of a host without the Hebrew calendar ([render]
      on [None]), the header, the today line [formatFullHebrew], and the
      week table as rows of [Cell]s indexed like the source
      ([weekIndex * 7 + dayIndex - firstWeekday]); the event items carry
      the [DeleteEvent] action their button sends to [cal_step].
    - [Dashboard]: the search history, shortcuts and history panel as a
      shared store and one step function [home_step] with its effects
      (navigation, alerts, download); [encodeURIComponent] on UTF-8 bytes
      and its inverse.
    - [Personal]: notes, the to-do list and the important dates
      ([personal_step]).
    - [Weather]: the weather-code table, the formatting of the forecast,
      the fetch with its error paths as callbacks carrying a
      [FetchOutcome], the 30-minute refresh rule and the view choice.
    - [Tools]: the calculator (input filter, [%] rewrite, history, re-use
      of an entry, every input handler as [calc_step]) with the evaluator as a parameter; the timer as a
      state machine whose effect re-installs the interval on every change
      of its dependencies; [formatHMS]; the translate guard.
    - [Shell]: tabs and panels, the greeting, the quotes and the quote
      of the day, the App state with its two effects on [document.body],
      the background handlers and the map search.  Shared.tsx holds its
      Hebrew double-encoded, and the model keeps its texts as the file
      holds them ([shared_texts_garbled]: none contains a Hebrew letter).
    - [Panels]: the news and music panels: the frames of both panels,
      mounted together, [document.getElementById] and the refresh
      buttons that re-assign a frame's [src].
    - [Views]: what the frame and the list panels render, as data whose
      buttons are the actions they send to [app_step], [home_step] and
      [personal_step]: the sidebar, the header with its one-second clock
      and the quote chosen at mount, the App's panels, the home page's
      controls and shortcut grid, the history panel, the shortcut
      manager, the notes and to-do list, the timer's face and the
      translate box with its language select.

    ** What the theorems show (claims C1-C40)

    - Calendar (C1-C6, C8, C9): for a lawful oracle the boundary search returns
      the month's first day, and the grid built from it contains the
      anchor; the grid is exactly the 29 or 30 days of the month,
      labelled 1..n; one month forward then back (or back then forward)
      returns the anchor's month start, and shifts by k months refine k
      abstract steps; termination (C8): the backward search is a
      well-founded walk ([Acc] of its step relation [back_step], the
      Hebrew day number decreasing) and both loops give the same result
      for every guard of at least 30; the guard's fallback is a silent
      wrong boundary, against the spec.  A zero shift returns the raw
      anchor ([shiftHebMonth_zero], also against the spec).
    - Render (C10, C11, C25): the week table has seven cells a row and the
      least number of rows, shows each grid day once and in order, and
      puts each day under its weekday letter with its Hebrew day number;
      a click on a cell, a title and the add button put the new event in
      that cell's dot and in the month's list, in every time zone; a
      confirmed clear-all re-renders the same card with no dot and no
      item.
    - Gematria (C12-C16): the greedy loops equal their division-based
      reference; letter values add up to 5 plus the year modulo 1000; no
      year numeral spells yod-he or yod-vav; years ending in 15 or 16 get
      two quote marks (a code bug); day numerals are right and injective.
    - Panels (C17): the eight frame ids are distinct, so every refresh
      button reloads its own frame and no other, whatever the clicks.
    - Time zones and keys (C18, C19, C27, C28): an event key is always
      ten characters, the [YYYY-MM-DD] digits of a UTC date (C19, the
      type of [CalendarEvent.date]); east of UTC [toISO] of a grid day
      is the previous civil date, so event dots and the today mark move
      one cell.
    - Events (C20, C21, C23, C24): when every event holds the values of
      its date and time inputs, [localeCompare] on the keys is the
      chronological order of the moments they name, so the month list is
      in chronological order (an all-day event first on its day), keeps
      events at one moment in stored order, loses and invents nothing
      and stays inside the grid; add and add-then-delete do what they
      say on every branch.
    - Views (C7, C22): a click on any sidebar button makes it the only
      selected one and its panel the only one shown; each row of the
      history panel acts on its own entry (search again, delete that row
      and no other, the empty message after the last one).
    - Dashboard and personal lists (C29-C33): the search history stays
      duplicate-free and at most 50 long under every handler; a search
      navigates to Google's search page whose [q] parameter, read as the
      browser's [URLSearchParams] reads it (fragment, [&] separators,
      [+] as a space, percent escapes), is the trimmed query; adding a
      shortcut alerts or appends the last grid card; stored to-dos and
      dates stay trimmed and non-empty; the index handlers are stdpp's
      [alter] and [delete].
    - Weather (C34-C36): a success stores the data and does not fetch
      again for 30 minutes (no fetch loop); a failure keeps the old data
      and shows the error; forecast entry i reads index i+1 of every
      daily array, each temperature within half a degree.
    - Tools (C26, C37-C40): every calculator handler keeps at most 50
      history entries, each restoring an expression that passes the
      filter; the evaluator only ever sees digits, operators,
      parentheses, points and spaces; a history entry restores its
      expression; a countdown never alerts early and does alert after its
      time; [formatHMS] round-trips below 100 hours.

    ** Bounds and fuel

    Both calendar loops carry the source's guard 40 as structural fuel;
    a Hebrew month has at most 30 days, so under the oracle laws both
    stop within 30 steps, which the theorems prove rather than assume.
    The greedy loops of [hebrewYearGematria] run on fuel [rest + 1],
    proved enough.  JavaScript numbers are [Z] (or [Q] for temperatures
    and [Math.random()]): the values in play (days since the epoch,
    milliseconds below 2^53, seconds, years) are integers well inside the
    exact range of doubles.  Exhaustive checks by [vm_compute] cover the
    finite domains: years modulo 1000, days 1..30, two-digit fields
    0..99, and the day numbers of the years 1970-2199 for the quote index.

    ** What is not modelled

    The CSS classes and styling of the components, the content of the
    sites the news and music frames show, the network and geolocation (their answers are
    inputs), the [Function]-based evaluator of the calculator (a
    parameter), the JSON text of the shortcut export, the texts of the
    quotes, daylight-saving changes of the local offset, the he-IL
    [toLocaleDateString] text of an event item (its key is kept), the
    he-IL date and time strings of the page header (the clock is kept
    as the instant it shows), the favicons of the shortcut grid, and
    the host's Hebrew calendar itself, an oracle given by its laws.  [useLocalStorage] (src/hooks, not in the repository) is a
    shared store whose writes are visible at once. *)

From Stdlib Require Export ZArith Lia String Ascii.
From stdpp Require Export base list decidable.

Declare Scope dash_scope.
Delimit Scope dash_scope with dash.
Open Scope Z_scope.

Create HintDb dash discriminated.
Create Rewrite HintDb dash_rw.

(** ** Integer ranges: the list [a, a+1, ..., a+n-1]. *)

Fixpoint zrange (a : Z) (n : nat) : list Z :=
  match n with
  | O => []
  | S k => a :: zrange (a + 1) k
  end.

Notation "⟨ a ⋯+ n ⟩" := (zrange a n) (at level 0, a at level 50, n at level 50) : dash_scope.
Open Scope dash_scope.

Lemma zrange_length a n : length ⟨a ⋯+ n⟩ = n.
Proof. revert a. induction n; simpl; auto. Qed.

Lemma zrange_In a n x : In x ⟨a ⋯+ n⟩ <-> a <= x < a + Z.of_nat n.
Proof.
  revert a. induction n as [|n IH]; intros a; simpl; [lia|].
  rewrite IH. lia.
Qed.

Lemma zrange_S_r a n : ⟨a ⋯+ S n⟩ = ⟨a ⋯+ n⟩ ++ [a + Z.of_nat n].
Proof.
  revert a. induction n as [|n IH]; intros a; [simpl; f_equal; lia|].
  change ⟨a ⋯+ S (S n)⟩ with (a :: ⟨a + 1 ⋯+ S n⟩).
  rewrite IH. simpl. do 3 f_equal. lia.
Qed.

Lemma zrange_nth a n i : (i < n)%nat -> nth_error ⟨a ⋯+ n⟩ i = Some (a + Z.of_nat i).
Proof.
  revert a i. induction n as [|n IH]; intros a [|i] Hi; simpl; try lia.
  - f_equal; lia.
  - rewrite IH by lia. f_equal; lia.
Qed.

(** A function that counts along a range maps it onto another range. *)
Lemma zrange_map_shift (f : Z -> Z) a b n :
  (forall j, 0 <= j < Z.of_nat n -> f (a + j) = b + j) -> map f ⟨a ⋯+ n⟩ = ⟨b ⋯+ n⟩.
Proof.
  revert a b. induction n as [|n IH]; intros a b Hf; [done|].
  change (f a :: map f ⟨a + 1 ⋯+ n⟩ = b :: ⟨b + 1 ⋯+ n⟩).
  f_equal; [rewrite <- (Z.add_0_r a), Hf; lia|].
  apply IH. intros j Hj. replace (a + 1 + j) with (a + (j + 1)) by lia.
  rewrite Hf; lia.
Qed.

#[export] Hint Rewrite zrange_length : dash_rw.

(** ** Euclidean division: the facts the day arithmetic needs. *)

(** Arithmetic goals with [/] and [mod] by a positive constant. *)
Ltac zdiv := Z.div_mod_to_equations; lia.

(** Flooring an offset inside one divisor step. *)
Lemma div_shift_small (k d r : Z) : 0 < d -> 0 <= r < d -> (k * d + r) / d = k.
Proof. intros. rewrite Z.div_add_l, Z.div_small by lia. lia. Qed.

Lemma div_shift_neg (k d r : Z) : 0 < d -> 0 < r <= d -> (k * d - r) / d = k - 1.
Proof.
  intros. replace (k * d - r) with ((k - 1) * d + (d - r)) by lia.
  apply div_shift_small; lia.
Qed.

(** ** Booleans of the source as propositions. *)

Lemma Z_eqb_false_iff (a b : Z) : (a =? b) = false <-> a <> b.
Proof. apply Z.eqb_neq. Qed.

#[export] Hint Rewrite Z.eqb_eq Z_eqb_false_iff Z.leb_le Z.ltb_lt andb_true_iff
  orb_true_iff negb_true_iff String.eqb_eq : dash_rw.

(** Turn the boolean tests of a hypothesis or goal into propositions. *)
Ltac bool_prop := autorewrite with dash_rw in *.

(** ** Lists. *)

Lemma filter_all {A} (p : A -> bool) (l : list A) :
  Forall (fun x => p x = true) l -> List.filter p l = l.
Proof. induction 1; simpl; [done|]. by rewrite H, IHForall. Qed.

Lemma filter_none {A} (p : A -> bool) (l : list A) :
  Forall (fun x => p x = false) l -> List.filter p l = [].
Proof. induction 1; simpl; [done|]. by rewrite H. Qed.

Lemma filter_In_iff {A} (p : A -> bool) (l : list A) x :
  In x (List.filter p l) <-> In x l /\ p x = true.
Proof. apply filter_In. Qed.

#[export] Hint Resolve filter_all filter_none : dash.

(** ** Strings. *)

Lemma str_length_app (s1 s2 : string) :
  String.length (s1 ++ s2) = (String.length s1 + String.length s2)%nat.
Proof. induction s1; simpl; auto. Qed.

#[export] Hint Rewrite str_length_app : dash_rw.

(** ** Executable list tests and their meaning. *)

Fixpoint is_prefix `{EqDecision A} (p l : list A) : bool :=
  match p, l with
  | [], _ => true
  | x :: p', y :: l' => bool_decide (x = y) && is_prefix p' l'
  | _, _ => false
  end.

(** [p] occurs in [l] as a contiguous block. *)
Fixpoint is_infix `{EqDecision A} (p l : list A) : bool :=
  is_prefix p l || match l with [] => false | _ :: l' => is_infix p l' end.

Lemma is_prefix_spec `{EqDecision A} (p l : list A) :
  is_prefix p l = true <-> exists post, l = p ++ post.
Proof.
  revert l. induction p as [|x p IH]; intros [|y l]; simpl.
  - split; eauto.
  - split; eauto.
  - split; [done|]. by intros [? ?].
  - rewrite andb_true_iff, bool_decide_eq_true, IH. split.
    + intros [-> [post ->]]. by exists post.
    + intros [post Heq]. injection Heq as -> ->. split; [done|]. by exists post.
Qed.

Lemma is_infix_spec `{EqDecision A} (p l : list A) :
  is_infix p l = true <-> exists pre post, l = pre ++ p ++ post.
Proof.
  induction l as [|y l IH]; simpl; rewrite orb_true_iff, is_prefix_spec.
  - split.
    + intros [[post Hp] | Hf]; [|discriminate]. by exists [], post.
    + intros ([|z pre] & post & Heq); [left; by exists post | by destruct p].
  - rewrite IH. split.
    + intros [[post Hp] | (pre & post & ->)]; [by exists [], post|].
      by exists (y :: pre), post.
    + intros ([|z pre] & post & Heq); [left; by exists post|].
      injection Heq as -> ->. right. by exists pre, post.
Qed.

(** Exhaustive check of a decidable property over a finite integer range. *)
Lemma forallb_zrange (P : Z -> Prop) (f : Z -> bool) a n :
  (forall x, f x = true -> P x) -> forallb f ⟨a ⋯+ n⟩ = true ->
  forall x, a <= x < a + Z.of_nat n -> P x.
Proof.
  intros Hf Hall x Hx. apply Hf.
  apply (proj1 (forallb_forall f _) Hall), zrange_In, Hx.
Qed.

(** ** JavaScript strings and arrays.

    [String.prototype.trim] removes the ASCII white space and line
    terminators modelled by [is_ws] (the Unicode spaces it also removes
    are not modelled). *)

Definition is_ws (c : ascii) : bool :=
  existsb (Ascii.eqb c) [" "; "009"; "010"; "011"; "012"; "013"]%char.

Fixpoint drop_ws (l : list ascii) : list ascii :=
  match l with
  | c :: l' => if is_ws c then drop_ws l' else l
  | [] => []
  end.

Definition trim (s : string) : string :=
  string_of_list_ascii (rev (drop_ws (rev (drop_ws (list_ascii_of_string s))))).

(** A list starts with a non-space, or is empty. *)
Definition ws_free_head (l : list ascii) : Prop :=
  match l with [] => True | c :: _ => is_ws c = false end.

Lemma drop_ws_head l : ws_free_head (drop_ws l).
Proof. induction l as [|c l IH]; simpl; [done|]. destruct (is_ws c) eqn:E; simpl; auto. Qed.

Lemma drop_ws_id l : ws_free_head l -> drop_ws l = l.
Proof. destruct l as [|c l]; simpl; [done|]. by intros ->. Qed.

Lemma drop_ws_suffix l : exists p, l = p ++ drop_ws l.
Proof.
  induction l as [|c l [p Hp]]; simpl; [by exists []|].
  destruct (is_ws c); [exists (c :: p); simpl; by rewrite <- Hp | by exists []].
Qed.

(** Dropping the trailing spaces of a list with a clean head keeps the head clean. *)
Lemma trim_core_head m : ws_free_head m -> ws_free_head (rev (drop_ws (rev m))).
Proof.
  intros Hm. destruct (drop_ws_suffix (rev m)) as [p Hp].
  assert (Hm' : m = rev (drop_ws (rev m)) ++ rev p).
  { rewrite <- rev_app_distr, <- Hp. by rewrite rev_involutive. }
  destruct (rev (drop_ws (rev m))) as [|c r]; simpl; [done|]. by rewrite Hm' in Hm.
Qed.

Lemma trim_idem s : trim (trim s) = trim s.
Proof.
  unfold trim. rewrite list_ascii_of_string_of_list_ascii.
  set (m := drop_ws (list_ascii_of_string s)).
  pose proof (trim_core_head m (drop_ws_head _)) as Hh.
  rewrite (drop_ws_id (rev (drop_ws (rev m))) Hh), rev_involutive.
  rewrite (drop_ws_id _ (drop_ws_head _)). done.
Qed.

#[export] Hint Rewrite trim_idem : dash_rw.

(** The falsy test of a string: [!s] holds of the empty string only, so
    [s || d] is [d] exactly when [s] is empty. *)
Definition js_or (s d : string) : string := if String.eqb s "" then d else s.

(** [arr.filter((x, i) => p i x)] and [arr.map((x, i) => f i x)]: the
    callbacks see the index, counted from [i]. *)
Fixpoint filteri_from {A} (p : nat -> A -> bool) (i : nat) (l : list A) : list A :=
  match l with
  | [] => []
  | x :: l' => if p i x then x :: filteri_from p (S i) l' else filteri_from p (S i) l'
  end.
Definition filteri {A} (p : nat -> A -> bool) (l : list A) : list A := filteri_from p 0 l.

Fixpoint mapi_from {A B} (f : nat -> A -> B) (i : nat) (l : list A) : list B :=
  match l with
  | [] => []
  | x :: l' => f i x :: mapi_from f (S i) l'
  end.
Definition mapi {A B} (f : nat -> A -> B) (l : list A) : list B := mapi_from f 0 l.

(** Below the start index the callbacks never match [k]. *)
Lemma filteri_from_past {A} (k i : nat) (l : list A) :
  (k < i)%nat -> filteri_from (fun j _ => negb (j =? k)%nat) i l = l.
Proof.
  revert i. induction l as [|x l IH]; intros i Hi; simpl; [done|].
  destruct (Nat.eqb_spec i k); [lia|]. simpl. by rewrite IH by lia.
Qed.

Lemma filteri_from_delete {A} (k i : nat) (l : list A) :
  (i <= k)%nat -> filteri_from (fun j _ => negb (j =? k)%nat) i l = delete (k - i)%nat l.
Proof.
  revert i. induction l as [|x l IH]; intros i Hi; [done|]. simpl.
  destruct (Nat.eqb_spec i k) as [->|Hne]; simpl.
  - rewrite Nat.sub_diag. apply filteri_from_past. lia.
  - replace (k - i)%nat with (S (k - S i)) by lia. simpl. rewrite IH by lia. done.
Qed.

(** Filtering out index [k] is stdpp's [delete]: an index past the end
    deletes nothing. *)
Lemma filteri_delete {A} (k : nat) (l : list A) :
  filteri (fun j _ => negb (j =? k)%nat) l = delete k l.
Proof. unfold filteri. rewrite filteri_from_delete by lia. by rewrite Nat.sub_0_r. Qed.

Lemma mapi_from_past {A} (f : A -> A) (k i : nat) (l : list A) :
  (k < i)%nat -> mapi_from (fun j x => if (j =? k)%nat then f x else x) i l = l.
Proof.
  revert i. induction l as [|x l IH]; intros i Hi; simpl; [done|].
  destruct (Nat.eqb_spec i k); [lia|]. by rewrite IH by lia.
Qed.

Lemma mapi_from_alter {A} (f : A -> A) (k i : nat) (l : list A) :
  (i <= k)%nat -> mapi_from (fun j x => if (j =? k)%nat then f x else x) i l = alter f (k - i)%nat l.
Proof.
  revert i. induction l as [|x l IH]; intros i Hi; [done|]. simpl.
  destruct (Nat.eqb_spec i k) as [->|Hne].
  - rewrite Nat.sub_diag, mapi_from_past by lia. done.
  - replace (k - i)%nat with (S (k - S i)) by lia. simpl. rewrite IH by lia. done.
Qed.

(** Mapping [f] over index [k] only is stdpp's [alter]. *)
Lemma mapi_alter {A} (f : A -> A) (k : nat) (l : list A) :
  mapi (fun j x => if (j =? k)%nat then f x else x) l = alter f k l.
Proof. unfold mapi. rewrite mapi_from_alter by lia. by rewrite Nat.sub_0_r. Qed.

Lemma length_mapi_from {A B} (f : nat -> A -> B) i l : length (mapi_from f i l) = length l.
Proof. revert i. induction l; intros i; simpl; auto. Qed.

Lemma lookup_mapi_from {A B} (f : nat -> A -> B) i l j :
  mapi_from f i l !! j = f (i + j)%nat <$> l !! j.
Proof.
  revert i j. induction l as [|x l IH]; intros i [|j]; simpl; auto.
  - by rewrite Nat.add_0_r.
  - rewrite IH. by replace (S i + j)%nat with (i + S j)%nat by lia.
Qed.

(** Stdlib's [map] is stdpp's [fmap] on lists, and commutes with [delete]. *)
Lemma map_fmap {A B} (f : A -> B) (l : list A) : map f l = f <$> l.
Proof. induction l as [|x l IH]; [done|]. cbn. by rewrite IH. Qed.

Lemma map_delete {A B} (f : A -> B) (l : list A) k : map f (delete k l) = delete k (map f l).
Proof. revert k. induction l as [|x l IH]; intros [|k]; [done..|]. cbn. by rewrite IH. Qed.

#[export] Hint Rewrite @filteri_delete @mapi_alter : dash_rw.
#[export] Hint Rewrite @length_mapi_from @lookup_mapi_from : dash_rw.
