(* ===== verification/JsDate.v ===== *)
(** * JsDate: the JavaScript [Date] the calendar card computes with

    A [Date] is its time value, milliseconds since 1970-01-01T00:00Z.
    The browser reads it in local time with the offset [tz_offset]
    (local = UTC + offset), taken fixed: daylight-saving changes are not
    modelled.  This file is the platform model ([getDate], [setDate],
    [getDay], [toISOString]) and the one line of the source built on it,
    [toISO] (src/components/HomePanel.tsx:106).  The civil calendar of a
    day number is the proleptic Gregorian calendar of ECMAScript,
    computed with the usual era/day-of-era arithmetic. *)

From S2P Require Import Prelude.

Definition msPerDay : Z := 86400000.

(** A time value; every [Date] of the card is one. *)
Abbreviation Date := Z (only parsing).

(** The local time zone of the browser: LocalTime(t) = t + tz_offset. *)
Class TimeZone := tz_offset : Z.

Section Zone.
Context `{TimeZone}.

(** The local day number of a time value: Day(LocalTime(t)). *)
Definition local_day (t : Date) : Z := (t + tz_offset) / msPerDay.

(** The UTC day number: Day(t), the day [toISOString] prints. *)
Definition utc_day (t : Date) : Z := t / msPerDay.

(** [new Date(y, m, d)]: local midnight of the local day [n]. *)
Definition local_midnight (n : Z) : Date := n * msPerDay - tz_offset.

(** [new Date(b.getFullYear(), b.getMonth(), b.getDate())]. *)
Definition startOfLocalDay (t : Date) : Date := local_midnight (local_day t).

(** [d.setDate(d.getDate() + k)]: the same local time, [k] days later. *)
Definition addDays (t : Date) (k : Z) : Date := t + k * msPerDay.

(** [d.getDay()]: WeekDay(LocalTime(t)), 0 for Sunday. *)
Definition getDay (t : Date) : Z := (local_day t + 4) mod 7.

End Zone.

(** ** The civil date of a day number (year, month 1..12, day 1..31). *)

Definition civil_from_days (z0 : Z) : Z * Z * Z :=
  let z := z0 + 719468 in
  let era := z / 146097 in
  let doe := z - era * 146097 in
  let yoe := (doe - doe / 1460 + doe / 36524 - doe / 146096) / 365 in
  let y := yoe + era * 400 in
  let doy := doe - (365 * yoe + yoe / 4 - yoe / 100) in
  let mp := (5 * doy + 2) / 153 in
  let d := doy - (153 * mp + 2) / 5 + 1 in
  let m := if mp <? 10 then mp + 3 else mp - 9 in
  (if m <=? 2 then y + 1 else y, m, d).

(** ** [toISOString]: "YYYY-MM-DDTHH:mm:ss.sssZ" (extended "+YYYYYY" years
    outside 0..9999). *)

Definition digit (n : Z) : ascii := ascii_of_nat (48 + Z.to_nat n).

(** The last [w] decimal digits of [n >= 0], zero-padded. *)
Fixpoint pad (w : nat) (n : Z) : string :=
  match w with
  | O => EmptyString
  | S w' => (pad w' (n / 10) ++ String (digit (n mod 10)) EmptyString)%string
  end.

Definition iso_year (y : Z) : string :=
  if (0 <=? y) && (y <=? 9999) then pad 4 y
  else ((if (y <? 0)%Z then "-" else "+") ++ pad 6 (Z.abs y))%string.

Definition iso_date_part (day : Z) : string :=
  let '(y, m, d) := civil_from_days day in
  (iso_year y ++ "-" ++ pad 2 m ++ "-" ++ pad 2 d)%string.

Definition iso_time_part (ms : Z) : string :=
  ("T" ++ pad 2 (ms / 3600000) ++ ":" ++ pad 2 (ms / 60000 mod 60) ++ ":"
   ++ pad 2 (ms / 1000 mod 60) ++ "." ++ pad 3 (ms mod 1000) ++ "Z")%string.

Definition toISOString (t : Date) : string :=
  (iso_date_part (t / msPerDay) ++ iso_time_part (t mod msPerDay))%string.

(** [const toISO = (d: Date) => d.toISOString().slice(0, 10)]. *)
Definition toISO (t : Date) : string := substring 0 10 (toISOString t).

(** The ISO key of a day number: what [toISO] gives for that day's UTC
    midnight. *)
Definition iso_of_day (day : Z) : string := toISO (day * msPerDay).

(** ** Lemmas *)

Lemma msPerDay_pos : 0 < msPerDay.
Proof. unfold msPerDay; lia. Qed.
#[export] Hint Resolve msPerDay_pos : dash.

Section ZoneLemmas.
Context `{TimeZone}.

Lemma local_day_midnight n : local_day (local_midnight n) = n.
Proof.
  unfold local_day, local_midnight.
  replace (n * msPerDay - tz_offset + tz_offset) with (n * msPerDay) by lia.
  apply Z.div_mul. unfold msPerDay; lia.
Qed.

Lemma addDays_midnight n k : addDays (local_midnight n) k = local_midnight (n + k).
Proof. unfold addDays, local_midnight. lia. Qed.

Lemma startOfLocalDay_midnight n : startOfLocalDay (local_midnight n) = local_midnight n.
Proof. unfold startOfLocalDay. by rewrite local_day_midnight. Qed.

Lemma local_midnight_inj n m : local_midnight n = local_midnight m -> n = m.
Proof. unfold local_midnight, msPerDay. lia. Qed.

End ZoneLemmas.

#[export] Hint Rewrite @local_day_midnight @addDays_midnight @startOfLocalDay_midnight : dash_rw.

Lemma substring_app_l (s1 s2 : string) n :
  (n <= String.length s1)%nat -> substring 0 n (s1 ++ s2) = substring 0 n s1.
Proof.
  revert n. induction s1 as [|c s1 IH]; intros [|n] Hn; simpl in *; try lia.
  - by destruct s2.
  - done.
  - f_equal. apply IH. lia.
Qed.

Lemma pad_length w n : String.length (pad w n) = w.
Proof.
  revert n. induction w as [|w IH]; intros n; simpl; [done|].
  rewrite str_length_app, IH. simpl. lia.
Qed.

Lemma iso_date_part_length day : (10 <= String.length (iso_date_part day))%nat.
Proof.
  unfold iso_date_part, iso_year. destruct (civil_from_days day) as [[y m] d].
  destruct (_ && _); [|destruct (y <? 0)%Z];
    repeat (simpl; rewrite ?str_length_app, ?pad_length); lia.
Qed.

(** [toISO] reads only the UTC day of its argument. *)
Lemma toISO_utc_day t : toISO t = iso_of_day (utc_day t).
Proof.
  unfold iso_of_day, toISO, toISOString, utc_day.
  rewrite !substring_app_l by apply iso_date_part_length.
  rewrite Z.div_mul by (unfold msPerDay; lia). done.
Qed.

Lemma substring_0_length (s : string) n :
  (n <= String.length s)%nat -> String.length (substring 0 n s) = n.
Proof.
  revert n. induction s as [|c s IH]; intros [|n] Hn; simpl in *; try lia.
  rewrite IH; lia.
Qed.

(** A decimal digit character. *)
Definition is_digit (c : ascii) : bool :=
  (48 <=? nat_of_ascii c)%nat && (nat_of_ascii c <=? 57)%nat.

Definition all_digits (s : string) : bool := forallb is_digit (list_ascii_of_string s).

Lemma all_digits_app s1 s2 : all_digits (s1 ++ s2) = all_digits s1 && all_digits s2.
Proof. induction s1 as [|c s1 IH]; simpl; [done|]. unfold all_digits in *. simpl. by rewrite IH, andb_assoc. Qed.

Lemma is_digit_digit k : 0 <= k < 10 -> is_digit (digit k) = true.
Proof.
  intros Hk. unfold is_digit, digit. rewrite nat_ascii_embedding by lia.
  apply andb_true_iff; split; apply Nat.leb_le; lia.
Qed.

Lemma pad_digits w n : all_digits (pad w n) = true.
Proof.
  revert n. induction w as [|w IH]; intros n; [done|]. cbn [pad].
  rewrite all_digits_app, IH. unfold all_digits. cbn [list_ascii_of_string forallb].
  rewrite is_digit_digit; [done|]. apply Z.mod_pos_bound. lia.
Qed.

#[export] Hint Rewrite all_digits_app pad_digits : dash_rw.

Lemma substring_0_full (s : string) : String.length s = 10%nat -> substring 0 10 s = s.
Proof.
  intros Hl. do 10 (destruct s as [|? s]; [discriminate|]).
  destruct s; [|discriminate]. reflexivity.
Qed.

Lemma toISO_length t : String.length (toISO t) = 10%nat.
Proof.
  unfold toISO, toISOString. apply substring_0_length.
  rewrite str_length_app. pose proof (iso_date_part_length (t / msPerDay)). lia.
Qed.

(** Israel standard time, UTC+2: the zone of the witnesses. *)
Definition jerusalem_winter : TimeZone := 7200000.

Section Keys.
Context `{TimeZone}.

Lemma utc_day_midnight_east n :
  0 < tz_offset <= msPerDay -> utc_day (local_midnight n) = n - 1.
Proof. intros Ho. unfold utc_day, local_midnight. apply div_shift_neg; auto with dash. Qed.

Lemma utc_day_midnight_west n :
  -msPerDay < tz_offset <= 0 -> utc_day (local_midnight n) = n.
Proof.
  intros Ho. unfold utc_day, local_midnight.
  replace (n * msPerDay - tz_offset) with (n * msPerDay + - tz_offset) by lia.
  apply div_shift_small; auto with dash; lia.
Qed.

(** C18.  Code bug: in a browser east of UTC (Israel: +2h or +3h) the ISO
    key [toISO] of a local midnight, which is how every grid day is
    built, is the ISO date of the previous civil day, because
    [toISOString] reads the date in UTC.  West of UTC (or in UTC) it is
    the day itself. *)
Theorem toISO_local_midnight n :
  (0 < tz_offset < msPerDay -> toISO (local_midnight n) = iso_of_day (n - 1)) /\
  (-msPerDay < tz_offset <= 0 -> toISO (local_midnight n) = iso_of_day n).
Proof.
  rewrite toISO_utc_day. split; intros Ho;
    [rewrite utc_day_midnight_east | rewrite utc_day_midnight_west]; auto; lia.
Qed.

(** C19.  The type of an event key: [toISO] always yields ten
    characters, and for a date of the years 0-9999 they are the four
    digits of the year, a dash, the two digits of the month, a dash and
    the two digits of the day of the UTC date: the [YYYY-MM-DD] format
    that [CalendarEvent.date] (src/types.ts:13) declares. *)
Theorem toISO_shape t :
  String.length (toISO t) = 10%nat /\
  forall y m d, civil_from_days (utc_day t) = (y, m, d) -> 0 <= y <= 9999 ->
    toISO t = (pad 4 y ++ "-" ++ pad 2 m ++ "-" ++ pad 2 d)%string /\
    all_digits (pad 4 y ++ pad 2 m ++ pad 2 d) = true.
Proof.
  split; [apply toISO_length|].
  intros y m d Hc Hy. split; [|by autorewrite with dash_rw].
    rewrite toISO_utc_day. unfold iso_of_day, toISO, toISOString.
    rewrite Z.div_mul by (unfold msPerDay; lia).
    rewrite substring_app_l by apply iso_date_part_length.
    unfold iso_date_part. rewrite Hc. unfold iso_year.
    replace ((0 <=? y) && (y <=? 9999)) with true by (symmetry; bool_prop; lia).
    apply substring_0_full. rewrite !str_length_app, !pad_length. reflexivity.
Qed.

End Keys.

(** 2025-03-10 is day 20157; in Israel its grid key reads 2025-03-09. *)
Lemma toISO_local_midnight_witness :
  toISO (@local_midnight jerusalem_winter 20157) = "2025-03-09"%string /\
  iso_of_day 20157 = "2025-03-10"%string /\
  toISO (@local_midnight jerusalem_winter 20157) = iso_of_day (20157 - 1).
Proof.
  split; [vm_compute; reflexivity|]. split; [vm_compute; reflexivity|].
  apply (proj1 (@toISO_local_midnight jerusalem_winter 20157)).
  unfold tz_offset, jerusalem_winter, msPerDay. lia.
Defined.

(** 2025-03-10T00:00Z (day 20157): a ten-digit key in the declared format. *)
Lemma toISO_shape_witness :
  civil_from_days (utc_day 1741564800000) = (2025, 3, 10) /\
  String.length (toISO 1741564800000) = 10%nat /\
  toISO 1741564800000 = (pad 4 2025 ++ "-" ++ pad 2 3 ++ "-" ++ pad 2 10)%string /\
  toISO 1741564800000 = "2025-03-10"%string.
Proof.
  assert (Hc : civil_from_days (utc_day 1741564800000) = (2025, 3, 10)) by (vm_compute; reflexivity).
  pose proof (toISO_shape 1741564800000) as [Hl Hs].
  destruct (Hs 2025 3 10 Hc ltac:(lia)) as [He _].
  split; [exact Hc|]. split; [exact Hl|]. split; [exact He|].
  rewrite He. vm_compute. reflexivity.
Defined.
