(* ===== verification/HebrewOracle.v ===== *)
(** * HebrewOracle: the calendar primitive the card relies on

    The card does not compute the Hebrew calendar: it asks the host,
    through [Intl.DateTimeFormat('he-u-ca-hebrew-nu-latn')], for the
    Hebrew day, month name, year and weekday of a date ([getHebParts],
    src/components/HomePanel.tsx:78-81), reading the date in the local
    time zone.  The oracle is the class [HebrewCalendar], a function of
    the local day number; [HebrewCalendarLaws] is the contract the code
    needs from it (spec, sections 3 and 6): day numbers run 1..30, go up
    by one inside a month, and a new month begins only after day 29 or
    30 and under another name.

    From the laws alone this file derives the abstract month: its first
    day [month_start], its length [month_len] (29 or 30) and its days
    [month_days]; [MonthGrid] proves that the code computes them.  The
    instance [regular_calendar] (every month of a regular 354-day year,
    30 and 29 days alternating, repeated) is a lawful oracle on which
    the witnesses evaluate. *)

From S2P Require Import Prelude JsDate.

(** The parts the code reads: [{ day, monthName, year, weekday }]. *)
Record HebParts := mkHebParts {
  day : Z;
  monthName : string;
  year : Z;
  weekday : string
}.

(** The host oracle, by local day number. *)
Class HebrewCalendar := heb_of_day : Z -> HebParts.

(** [getHebParts(d)]: the parts of the local day of [d].  The
    [formatToParts]/[Number] glue of lines 79-80 is folded into the
    oracle, which is given by the values the code reads. *)
Definition getHebParts `{TimeZone} `{HebrewCalendar} (d : Date) : HebParts :=
  heb_of_day (local_day d).

Class HebrewCalendarLaws `{HebrewCalendar} : Prop := {
  heb_day_range n : 1 <= day (heb_of_day n) <= 30;
  heb_step_same n :
    day (heb_of_day (n + 1)) <> 1 ->
    day (heb_of_day (n + 1)) = day (heb_of_day n) + 1 /\
    monthName (heb_of_day (n + 1)) = monthName (heb_of_day n);
  heb_step_new n :
    day (heb_of_day (n + 1)) = 1 ->
    29 <= day (heb_of_day n) /\
    monthName (heb_of_day (n + 1)) <> monthName (heb_of_day n)
}.

Section Abstract.
Context `{HebrewCalendar}.

Local Abbreviation hday n := (day (heb_of_day n)).
Local Abbreviation hname n := (monthName (heb_of_day n)).

(** The first day of the month of day [n]. *)
Definition month_start (n : Z) : Z := n - hday n + 1.

(** The length of the month starting on [s]: 29 if day [s + 29] opens the
    next month, else 30. *)
Definition month_len (s : Z) : Z := if hday (s + 29) =? 1 then 29 else 30.

Definition month_days (s : Z) : list Z := ⟨s ⋯+ Z.to_nat (month_len s)⟩.

Lemma month_len_range s : month_len s = 29 \/ month_len s = 30.
Proof. unfold month_len. destruct (_ =? _); auto. Qed.

Context `{!HebrewCalendarLaws}.

(** Walking back from [n] inside its month: the day numbers go down by one
    and the month name stays. *)
Lemma heb_backward n j :
  0 <= j < hday n -> hday (n - j) = hday n - j /\ hname (n - j) = hname n.
Proof.
  intros Hj. assert (Hj' : j = Z.of_nat (Z.to_nat j)) by lia.
  revert Hj. rewrite Hj'. generalize (Z.to_nat j) as k. clear Hj'.
  induction k as [|k IH]; intros Hk; [rewrite Z.sub_0_r; auto with lia|].
  destruct IH as [IHd IHn]; [lia|].
  pose proof (heb_step_same (n - Z.of_nat (S k))) as Hs.
  replace (n - Z.of_nat (S k) + 1) with (n - Z.of_nat k) in Hs by lia.
  destruct Hs as [Hd Hn]; [lia|]. split; [lia | congruence].
Qed.

Lemma month_start_day n : hday (month_start n) = 1.
Proof.
  unfold month_start. pose proof (heb_day_range n).
  replace (n - hday n + 1) with (n - (hday n - 1)) by lia.
  destruct (heb_backward n (hday n - 1)); lia.
Qed.

Lemma month_start_name n : hname (month_start n) = hname n.
Proof.
  unfold month_start. pose proof (heb_day_range n).
  replace (n - hday n + 1) with (n - (hday n - 1)) by lia.
  apply heb_backward; lia.
Qed.

(** Walking forward from a first day: day [s + j] is day [j + 1] of the
    same month, for every [j] below the month's length. *)
Lemma heb_forward s j :
  hday s = 1 -> 0 <= j < month_len s ->
  hday (s + j) = j + 1 /\ hname (s + j) = hname s.
Proof.
  intros Hs Hj. assert (Hj' : j = Z.of_nat (Z.to_nat j)) by lia.
  revert Hj. rewrite Hj'. generalize (Z.to_nat j) as k. clear Hj'.
  induction k as [|k IH]; intros Hk; [rewrite Z.add_0_r; auto with lia|].
  destruct IH as [IHd IHn]; [lia|].
  replace (s + Z.of_nat (S k)) with (s + Z.of_nat k + 1) by lia.
  destruct (Z.eq_dec (hday (s + Z.of_nat k + 1)) 1) as [E|E].
  - exfalso. destruct (heb_step_new _ E) as [H29 _].
    unfold month_len in Hk. destruct (hday (s + 29) =? 1) eqn:E29; bool_prop; [lia|].
    replace (s + Z.of_nat k + 1) with (s + 29) in E by lia. done.
  - destruct (heb_step_same _ E). split; [lia | congruence].
Qed.

(** The day after the month is the first day of a month with another name. *)
Lemma heb_next_month s :
  hday s = 1 ->
  hday (s + month_len s) = 1 /\ hname (s + month_len s) <> hname s.
Proof.
  intros Hs. unfold month_len at 1 2.
  destruct (hday (s + 29) =? 1) eqn:E29; bool_prop.
  - split; [done|].
    destruct (heb_forward s 28) as [_ Hn]; [done | unfold month_len; rewrite E29 |];
      [simpl; lia|].
    replace (s + 29) with (s + 28 + 1) in * by lia.
    rewrite <- Hn. apply (heb_step_new _ E29).
  - assert (L : month_len s = 30) by (unfold month_len; by rewrite (proj2 (Z.eqb_neq _ _) E29)).
    destruct (heb_forward s 29) as [Hd Hn]; [done | lia |].
    assert (E30 : hday (s + 29 + 1) = 1).
    { destruct (Z.eq_dec (hday (s + 29 + 1)) 1) as [|E]; [done|].
      destruct (heb_step_same _ E). pose proof (heb_day_range (s + 29 + 1)). lia. }
    replace (s + 30) with (s + 29 + 1) by lia.
    split; [done|]. rewrite <- Hn. apply (heb_step_new _ E30).
Qed.

(** Day [n] lies within the month that starts at [month_start n]. *)
Lemma month_start_within n : 0 <= n - month_start n < month_len (month_start n).
Proof.
  pose proof (heb_day_range n) as R. unfold month_start at 1 2.
  destruct (month_len_range (month_start n)) as [L|L]; rewrite L; [|lia].
  unfold month_len in L. destruct (Z.eqb_spec (hday (month_start n + 29)) 1) as [E|]; [|lia].
  unfold month_start in E. destruct (Z.eq_dec (hday n) 30) as [D|]; [|lia].
  replace (n - hday n + 1 + 29) with n in E by lia. lia.
Qed.

Lemma month_start_of_day s j :
  hday s = 1 -> 0 <= j < month_len s -> month_start (s + j) = s.
Proof. intros Hs Hj. unfold month_start. rewrite (proj1 (heb_forward s j Hs Hj)). lia. Qed.

End Abstract.

#[export] Hint Resolve month_start_day month_len_range month_start_within : dash.

(** ** A lawful oracle: months of the regular year, repeated.

    A regular Hebrew year has twelve months of 30 and 29 days in turn;
    this oracle repeats it forever.  It is not the host calendar (which
    has 353..385-day years): it is a model that satisfies the laws, on
    which the witnesses compute. *)

Definition regular_month_names : list string :=
  ["Tishrei"; "Heshvan"; "Kislev"; "Tevet"; "Shevat"; "Adar";
   "Nisan"; "Iyar"; "Sivan"; "Tammuz"; "Av"; "Elul"]%string.

Definition weekday_names : list string :=
  ["Sunday"; "Monday"; "Tuesday"; "Wednesday"; "Thursday"; "Friday"; "Saturday"]%string.

Definition regular_heb (n : Z) : HebParts :=
  let c := n mod 59 in
  let idx := 2 * (n / 59) + (if c <? 30 then 0 else 1) in
  {| day := if c <? 30 then c + 1 else c - 29;
     monthName := nth (Z.to_nat (idx mod 12)) regular_month_names ""%string;
     year := 5730 + n / 354;
     weekday := nth (Z.to_nat ((n + 4) mod 7)) weekday_names ""%string |}.

#[export] Instance regular_calendar : HebrewCalendar := regular_heb.

Lemma regular_names_distinct (i j : nat) :
  (i < 12)%nat -> (j < 12)%nat -> i <> j ->
  nth i regular_month_names ""%string <> nth j regular_month_names ""%string.
Proof.
  intros Hi Hj Hij.
  do 12 (destruct i as [|i]; [do 12 (destruct j as [|j]; [done || discriminate|]); lia|]).
  lia.
Qed.

Lemma regular_names_succ (i : Z) :
  nth (Z.to_nat ((i + 1) mod 12)) regular_month_names ""%string <>
  nth (Z.to_nat (i mod 12)) regular_month_names ""%string.
Proof. apply regular_names_distinct; zdiv. Qed.

(** One day forward in the 59-day cycle of two months. *)
Lemma regular_cycle_step (n : Z) :
  (n mod 59 < 58 /\ (n + 1) mod 59 = n mod 59 + 1 /\ (n + 1) / 59 = n / 59) \/
  (n mod 59 = 58 /\ (n + 1) mod 59 = 0 /\ (n + 1) / 59 = n / 59 + 1).
Proof. zdiv. Qed.

#[export] Instance regular_calendar_laws : HebrewCalendarLaws (H := regular_calendar).
Proof.
  split; intros n; unfold heb_of_day, regular_calendar, regular_heb; cbn [day monthName];
    pose proof (Z.mod_pos_bound n 59 ltac:(lia));
    destruct (regular_cycle_step n) as [(Hc & Hm & Hq) | (Hc & Hm & Hq)];
    rewrite ?Hm, ?Hq;
    repeat match goal with |- context [?a <? ?b] => destruct (Z.ltb_spec a b) end;
    intros; try lia; split; try lia.
  all: try (do 3 f_equal; lia).
  - replace (2 * (n / 59) + 1) with (2 * (n / 59) + 0 + 1) by lia. apply regular_names_succ.
  - replace (2 * (n / 59 + 1) + 0) with (2 * (n / 59) + 1 + 1) by lia. apply regular_names_succ.
Qed.
