(* ===== verification/MonthGrid.v ===== *)
(** * MonthGrid: month boundaries, the month grid and navigation

    The helpers of [hebrewDateUtils] in src/components/HomePanel.tsx:
    [findHebMonthStart] (lines 82-86), [buildHebMonthDays] (87-91),
    [monthLength] (96) and [shiftHebMonth] (97-105).  Dates are time
    values ([JsDate]); the calendar is the oracle of [HebrewOracle].
    Both loops of the source are [while (guard++ < 40)], modelled as
    structural recursion on the remaining guard.

    The theorems show that, for a lawful oracle, the code computes the
    abstract month of [HebrewOracle]: the start is [month_start], the
    grid is [month_days], and navigation moves between consecutive
    month starts. *)

From S2P Require Import Prelude JsDate HebrewOracle.

Section Grid.
Context `{TimeZone} `{HebrewCalendar}.

(** The guard of both loops: [guard++ < 40] admits 40 iterations. *)
Definition guard_limit : nat := 40.

(** [while (guard++ < 40) { const p = getHebParts(d); if (p.day === 1)
    return d; d.setDate(d.getDate() - 1); }]; [None] when the guard runs out. *)
Fixpoint find_start_loop (guard : nat) (d : Date) : option Date :=
  match guard with
  | O => None
  | S g =>
      if day (getHebParts d) =? 1 then Some d
      else find_start_loop g (addDays d (-1))
  end.

(** One more iteration of that loop, on local day numbers: day [n] is
    not a first day, so the loop goes on with day [n - 1]. *)
Definition back_step (n m : Z) : Prop := day (heb_of_day n) <> 1 /\ m = n - 1.

(** The loop starts at the local midnight of [base]; when the guard runs
    out the function returns that midnight again. *)
Definition findHebMonthStart (base : Date) : Date :=
  match find_start_loop guard_limit (startOfLocalDay base) with
  | Some d => d
  | None => startOfLocalDay base
  end.

(** [while (guard++ < 40) { arr.push(new Date(d)); d.setDate(d.getDate() + 1);
    const p = getHebParts(d); if (p.day === 1 && p.monthName !== m) break; }] *)
Fixpoint build_loop (guard : nat) (m : string) (d : Date) : list Date :=
  match guard with
  | O => []
  | S g =>
      let d' := addDays d 1 in
      let p := getHebParts d' in
      d :: (if (day p =? 1) && negb (String.eqb (monthName p) m) then []
            else build_loop g m d')
  end.

Definition buildHebMonthDays (start : Date) : list Date :=
  build_loop guard_limit (monthName (getHebParts start)) start.

(** [monthLength = (base) => buildHebMonthDays(findHebMonthStart(base)).length]. *)
Definition monthLength (base : Date) : Z :=
  Z.of_nat (length (buildHebMonthDays (findHebMonthStart base))).

(** One iteration of the [for] loop of [shiftHebMonth]. *)
Definition shift_step (delta : Z) (d : Date) : Date :=
  if 0 <? delta then
    let start := findHebMonthStart d in
    addDays start (monthLength start)
  else
    let start := findHebMonthStart d in
    findHebMonthStart (addDays start (-1)).

(** [for (let i = 0; i < Math.abs(delta); i++) ...; return d]. *)
Definition shiftHebMonth (base : Date) (delta : Z) : Date :=
  Nat.iter (Z.to_nat (Z.abs delta)) (shift_step delta) base.

End Grid.

(** ** The loops, for any oracle *)

Section Loops.
Context `{TimeZone} `{HebrewCalendar}.

Local Abbreviation hday n := (day (heb_of_day n)).
Local Abbreviation hname n := (monthName (heb_of_day n)).

Lemma getHebParts_midnight n : getHebParts (local_midnight n) = heb_of_day n.
Proof. unfold getHebParts. by rewrite local_day_midnight. Qed.

(** The backward search returns the first day [k] steps back that the
    oracle calls day 1, when [k] is within the guard. *)
Lemma find_start_loop_found g n (k : nat) :
  (k < g)%nat -> (forall i : nat, (i < k)%nat -> hday (n - Z.of_nat i) <> 1) -> hday (n - Z.of_nat k) = 1 ->
  find_start_loop g (local_midnight n) = Some (local_midnight (n - Z.of_nat k)).
Proof.
  revert g n. induction k as [|k IH]; intros [|g] n Hk Hbefore Hday; try lia; simpl.
  - rewrite getHebParts_midnight. rewrite Z.sub_0_r in Hday. rewrite Hday. f_equal. f_equal. lia.
  - rewrite getHebParts_midnight.
    destruct (Z.eqb_spec (hday n) 1) as [E|E].
    { exfalso. apply (Hbefore 0%nat); [lia|]. by rewrite Z.sub_0_r. }
    rewrite addDays_midnight. replace (n - Z.of_nat (S k)) with (n + -1 - Z.of_nat k) by lia.
    apply IH; [lia| |by replace (n + -1 - Z.of_nat k) with (n - Z.of_nat (S k)) by lia].
    intros i Hi. replace (n + -1 - Z.of_nat i) with (n - Z.of_nat (S i)) by lia.
    apply Hbefore. lia.
Qed.

Lemma find_start_loop_exhausted g n :
  (forall i : nat, (i < g)%nat -> hday (n - Z.of_nat i) <> 1) ->
  find_start_loop g (local_midnight n) = None.
Proof.
  revert n. induction g as [|g IH]; intros n Hnone; simpl; [done|].
  rewrite getHebParts_midnight.
  destruct (Z.eqb_spec (hday n) 1) as [E|E].
  - exfalso. apply (Hnone 0%nat); [lia|]. by rewrite Z.sub_0_r.
  - rewrite addDays_midnight. apply IH. intros i Hi.
    replace (n + -1 - Z.of_nat i) with (n - Z.of_nat (S i)) by lia. apply Hnone. lia.
Qed.

End Loops.

(** ** Abstract navigation between month starts *)

Section Navigation.
Context `{HebrewCalendar}.

Definition next_month_start (s : Z) : Z := s + month_len s.
Definition prev_month_start (s : Z) : Z := month_start (s - 1).

End Navigation.

(** ** The code computes the abstract month, for a lawful oracle *)

Section Lawful.
Context `{TimeZone} `{HebrewCalendar} `{!HebrewCalendarLaws}.

Local Abbreviation hday n := (day (heb_of_day n)).
Local Abbreviation hname n := (monthName (heb_of_day n)).

Lemma month_start_first s : hday s = 1 -> month_start s = s.
Proof. unfold month_start. lia. Qed.

Lemma next_month_start_day s : hday s = 1 -> hday (next_month_start s) = 1.
Proof. intros Hs. apply (heb_next_month s Hs). Qed.

Lemma prev_month_start_day s : hday (prev_month_start s) = 1.
Proof. apply month_start_day. Qed.

Lemma prev_next_month_start s : hday s = 1 -> prev_month_start (next_month_start s) = s.
Proof.
  intros Hs. unfold prev_month_start, next_month_start.
  pose proof (month_len_range s).
  replace (s + month_len s - 1) with (s + (month_len s - 1)) by lia.
  apply month_start_of_day; [done | lia].
Qed.

Lemma next_prev_month_start s : hday s = 1 -> next_month_start (prev_month_start s) = s.
Proof.
  intros Hs. unfold prev_month_start, next_month_start.
  set (p := month_start (s - 1)).
  pose proof (month_start_within (s - 1)) as W. fold p in W.
  pose proof (month_start_day (s - 1)) as Hp. fold p in Hp.
  destruct (Z.eq_dec (s - 1 - p + 1) (month_len p)) as [E|E]; [lia|].
  exfalso. destruct (heb_forward p (s - p) Hp) as [Hd _]; [lia|].
  replace (p + (s - p)) with s in Hd by lia. lia.
Qed.

Lemma iter_next_month_start_day k s :
  hday s = 1 -> hday (Nat.iter k next_month_start s) = 1.
Proof. intros Hs. induction k; simpl; auto using next_month_start_day. Qed.

Lemma iter_prev_month_start_day k s :
  hday s = 1 -> hday (Nat.iter k prev_month_start s) = 1.
Proof. intros Hs. destruct k; simpl; auto using prev_month_start_day. Qed.

(** The month grid walk from a first day, [r + 1] days before its end. *)
Lemma build_loop_run s (r : nat) j g :
  hday s = 1 -> 0 <= j -> Z.of_nat r = month_len s - j - 1 -> (r < g)%nat ->
  build_loop g (hname s) (local_midnight (s + j)) = map local_midnight ⟨s + j ⋯+ S r⟩.
Proof.
  intros Hs. revert j g.
  induction r as [|r IH]; intros j [|g] Hj Hr Hg; try lia;
    cbn [build_loop]; rewrite addDays_midnight, getHebParts_midnight.
  - destruct (heb_next_month s Hs) as [Hd Hn].
    replace (s + j + 1) with (s + month_len s) by lia.
    rewrite Hd. destruct (String.eqb_spec (hname (s + month_len s)) (hname s)); done.
  - destruct (heb_forward s (j + 1) Hs) as [Hd _]; [lia|].
    replace (s + j + 1) with (s + (j + 1)) by lia. rewrite Hd.
    replace (j + 1 + 1 =? 1) with false by lia.
    rewrite (IH (j + 1) g) by lia.
    change ⟨s + j ⋯+ S (S r)⟩ with (s + j :: ⟨s + j + 1 ⋯+ S r⟩).
    by replace (s + j + 1) with (s + (j + 1)) by lia.
Qed.

(** The forward walk from a first day returns the month's days for every
    guard of at least 30: it ends by its own [break], never by the guard. *)
Lemma build_loop_any_guard g s :
  hday s = 1 -> (30 <= g)%nat -> build_loop g (hname s) (local_midnight s) = map local_midnight (month_days s).
Proof.
  intros Hs Hg. unfold month_days.
  replace (local_midnight s) with (local_midnight (s + 0)) by (f_equal; lia).
  destruct (month_len_range s) as [L|L]; rewrite L;
    [rewrite (build_loop_run s 28 0) | rewrite (build_loop_run s 29 0)];
    rewrite ?Z.add_0_r; try lia; reflexivity.
Qed.

Lemma buildHebMonthDays_first s :
  hday s = 1 -> buildHebMonthDays (local_midnight s) = map local_midnight (month_days s).
Proof.
  intros Hs. unfold buildHebMonthDays. rewrite getHebParts_midnight.
  apply build_loop_any_guard; [done | unfold guard_limit; lia].
Qed.

Lemma monthLength_first s : hday s = 1 -> monthLength (local_midnight s) = month_len s.
Proof.
  intros Hs. unfold monthLength, findHebMonthStart, startOfLocalDay.
  rewrite local_day_midnight.
  rewrite (find_start_loop_found guard_limit s 0);
    [| unfold guard_limit; lia | intros; lia | by rewrite Z.sub_0_r].
  rewrite Z.sub_0_r, buildHebMonthDays_first by done.
  unfold month_days. rewrite length_map, zrange_length.
  pose proof (month_len_range s). lia.
Qed.

(** The backward search finds the month start within [hday - 1 < 30]
    steps, for every guard of at least 30. *)
Lemma find_start_loop_any_guard g n :
  (30 <= g)%nat -> find_start_loop g (local_midnight n) = Some (local_midnight (month_start n)).
Proof.
  intros Hg. pose proof (heb_day_range n).
  rewrite (find_start_loop_found _ n (Z.to_nat (hday n - 1))).
  - f_equal. unfold month_start. f_equal. lia.
  - lia.
  - intros i Hi. assert (Hi' : 0 <= Z.of_nat i < hday n) by lia.
    rewrite (proj1 (heb_backward n _ Hi')). lia.
  - assert (Hk : 0 <= Z.of_nat (Z.to_nat (hday n - 1)) < hday n) by lia.
    rewrite (proj1 (heb_backward n _ Hk)). lia.
Qed.

Lemma findHebMonthStart_midnight t :
  findHebMonthStart t = local_midnight (month_start (local_day t)).
Proof.
  unfold findHebMonthStart, startOfLocalDay.
  rewrite find_start_loop_any_guard; [done | unfold guard_limit; lia].
Qed.

Lemma shift_step_pos delta t :
  0 < delta -> shift_step delta t = local_midnight (next_month_start (month_start (local_day t))).
Proof.
  intros Hd. unfold shift_step. destruct (Z.ltb_spec 0 delta); [|lia]. cbv zeta.
  rewrite findHebMonthStart_midnight.
  rewrite monthLength_first by apply month_start_day. by rewrite addDays_midnight.
Qed.

Lemma shift_step_nonpos delta t :
  delta <= 0 -> shift_step delta t = local_midnight (prev_month_start (month_start (local_day t))).
Proof.
  intros Hd. unfold shift_step. destruct (Z.ltb_spec 0 delta); [lia|]. cbv zeta.
  rewrite !findHebMonthStart_midnight, addDays_midnight, local_day_midnight. done.
Qed.

Lemma iter_shift_pos delta t k :
  0 < delta ->
  Nat.iter (S k) (shift_step delta) t =
  local_midnight (Nat.iter (S k) next_month_start (month_start (local_day t))).
Proof.
  intros Hd. induction k as [|k IH]; [by apply shift_step_pos|].
  rewrite Nat.iter_succ, IH, shift_step_pos, local_day_midnight by done.
  rewrite month_start_first; [done|]. apply iter_next_month_start_day, month_start_day.
Qed.

Lemma iter_shift_neg delta t k :
  delta <= 0 ->
  Nat.iter (S k) (shift_step delta) t =
  local_midnight (Nat.iter (S k) prev_month_start (month_start (local_day t))).
Proof.
  intros Hd. induction k as [|k IH]; [by apply shift_step_nonpos|].
  rewrite Nat.iter_succ, IH, shift_step_nonpos, local_day_midnight by done.
  rewrite month_start_first; [done|]. apply iter_prev_month_start_day, month_start_day.
Qed.

Lemma buildHebMonthDays_anchor t :
  buildHebMonthDays (findHebMonthStart t) = map local_midnight (month_days (month_start (local_day t))).
Proof. rewrite findHebMonthStart_midnight. apply buildHebMonthDays_first, month_start_day. Qed.

(** The backward search is well founded from every day: each step lowers
    the Hebrew day number, which stays at least 1. *)
Lemma back_step_acc n : Acc (fun b a => back_step a b) n.
Proof.
  remember (Z.to_nat (hday n)) as k eqn:Hk. revert n Hk.
  induction k as [k IH] using lt_wf_ind. intros n Hk. constructor.
  intros m [Hn ->]. pose proof (heb_day_range n).
  assert (Hj : 0 <= 1 < hday n) by lia.
  destruct (heb_backward n 1 Hj) as [Hd _].
  apply (IH (Z.to_nat (hday (n - 1)))); [lia | done].
Qed.

(** C8.  Termination of the two calendar loops: the backward step
    relation of [findHebMonthStart] is well founded from every day, and
    both guarded loops return the same result for every guard of at least
    30, so the guard of 40 is never what stops them: the backward search
    always returns the month start, the forward walk always the month's
    days. *)
Theorem calendar_loops_terminate n s :
  Acc (fun b a => back_step a b) n /\
  (forall g : nat, (30 <= g)%nat ->
     find_start_loop g (local_midnight n) = Some (local_midnight (month_start n))) /\
  (day (heb_of_day s) = 1 -> forall g : nat, (30 <= g)%nat ->
     build_loop g (monthName (heb_of_day s)) (local_midnight s) = map local_midnight (month_days s)).
Proof.
  split; [apply back_step_acc|]. split.
  - intros g Hg. by apply find_start_loop_any_guard.
  - intros Hs g Hg. by apply build_loop_any_guard.
Qed.

(** The grid of an anchor's month contains the anchor's own day. *)
Lemma anchor_in_month_grid t :
  In (startOfLocalDay t) (buildHebMonthDays (findHebMonthStart t)).
Proof.
  rewrite buildHebMonthDays_anchor. unfold startOfLocalDay. apply in_map. unfold month_days.
  apply zrange_In. pose proof (month_start_within (local_day t)). lia.
Qed.

(** C1.  The backward boundary search returns, for every anchor, the local
    midnight of the first day of the anchor's Hebrew month: the oracle
    calls it day 1 and gives it the anchor's month name, and the month grid
    built from it contains the anchor's day (spec section 8, first item). *)
Theorem findHebMonthStart_spec t :
  findHebMonthStart t = local_midnight (month_start (local_day t)) /\
  day (getHebParts (findHebMonthStart t)) = 1 /\
  monthName (getHebParts (findHebMonthStart t)) = monthName (getHebParts t) /\
  In (startOfLocalDay t) (buildHebMonthDays (findHebMonthStart t)).
Proof.
  split; [apply findHebMonthStart_midnight|]. split; [|split].
  - rewrite findHebMonthStart_midnight, getHebParts_midnight. apply month_start_day.
  - rewrite findHebMonthStart_midnight, getHebParts_midnight. apply month_start_name.
  - apply anchor_in_month_grid.
Qed.

(** C2.  Refinement of the month grid: the grid built from the month
    start of an anchor is exactly the list of local midnights of the days
    of the abstract month [month_days], in ascending order. *)
Theorem buildHebMonthDays_spec t :
  buildHebMonthDays (findHebMonthStart t) =
  map local_midnight (month_days (month_start (local_day t))).
Proof. apply buildHebMonthDays_anchor. Qed.

(** C3.  The month grid has 29 or 30 days, and the day after its last day
    is day 1 of a month with another name. *)
Theorem month_grid_length t :
  let g := buildHebMonthDays (findHebMonthStart t) in
  (length g = 29%nat \/ length g = 30%nat) /\
  day (getHebParts (addDays (findHebMonthStart t) (Z.of_nat (length g)))) = 1 /\
  monthName (getHebParts (addDays (findHebMonthStart t) (Z.of_nat (length g)))) <>
  monthName (getHebParts t).
Proof.
  cbv zeta. rewrite buildHebMonthDays_anchor, findHebMonthStart_midnight.
  set (s := month_start (local_day t)). unfold month_days.
  rewrite length_map, zrange_length, addDays_midnight, getHebParts_midnight.
  pose proof (month_len_range s) as L.
  destruct (heb_next_month s (month_start_day _)) as [Hd Hn].
  unfold getHebParts. rewrite <- (month_start_name (local_day t)). fold s.
  replace (Z.of_nat (Z.to_nat (month_len s))) with (month_len s) by lia.
  split; [lia | done].
Qed.

(** C4.  The Hebrew day numbers of the grid are 1, 2, ..., its length, and
    every day of the grid carries the anchor's month name. *)
Theorem month_grid_labels t :
  let g := buildHebMonthDays (findHebMonthStart t) in
  map (fun d => day (getHebParts d)) g = ⟨1 ⋯+ length g⟩ /\
  Forall (fun d => monthName (getHebParts d) = monthName (getHebParts t)) g.
Proof.
  cbv zeta. rewrite buildHebMonthDays_anchor. unfold month_days.
  set (s := month_start (local_day t)).
  pose proof (month_start_day (local_day t)) as Hs. fold s in Hs.
  rewrite map_map, length_map, zrange_length. split.
  - apply zrange_map_shift. intros j Hj. rewrite getHebParts_midnight.
    rewrite (proj1 (heb_forward s j Hs ltac:(lia))). lia.
  - apply Forall_forall. intros d Hd. apply in_map_iff in Hd as (x & <- & Hx).
    apply zrange_In in Hx. rewrite getHebParts_midnight.
    replace x with (s + (x - s)) by lia.
    rewrite (proj2 (heb_forward s (x - s) Hs ltac:(lia))).
    unfold s, getHebParts. apply month_start_name.
Qed.

Lemma shift_forward_back t :
  shiftHebMonth (shiftHebMonth t 1) (-1) = findHebMonthStart t.
Proof.
  unfold shiftHebMonth. change (Z.to_nat (Z.abs 1)) with 1%nat.
  change (Z.to_nat (Z.abs (-1))) with 1%nat.
  rewrite (iter_shift_pos 1 t 0), (iter_shift_neg (-1) _ 0) by lia.
  rewrite findHebMonthStart_midnight, local_day_midnight. simpl Nat.iter.
  pose proof (month_start_day (local_day t)) as Hs.
  rewrite month_start_first by (apply next_month_start_day, Hs).
  by rewrite prev_next_month_start.
Qed.

Lemma shift_back_forward t :
  shiftHebMonth (shiftHebMonth t (-1)) 1 = findHebMonthStart t.
Proof.
  unfold shiftHebMonth. change (Z.to_nat (Z.abs 1)) with 1%nat.
  change (Z.to_nat (Z.abs (-1))) with 1%nat.
  rewrite (iter_shift_neg (-1) t 0), (iter_shift_pos 1 _ 0) by lia.
  rewrite findHebMonthStart_midnight, local_day_midnight. simpl Nat.iter.
  pose proof (month_start_day (local_day t)) as Hs.
  rewrite month_start_first by (apply prev_month_start_day).
  by rewrite next_prev_month_start.
Qed.

(** C5.  Navigation round trips: one month forward and then one month
    back, or one month back and then one month forward, lands on the
    first day of the anchor's own month (the month start, not the raw
    anchor), whatever the lengths (29 or 30) of the months crossed. *)
Theorem shift_round_trip t :
  shiftHebMonth (shiftHebMonth t 1) (-1) = findHebMonthStart t /\
  shiftHebMonth (shiftHebMonth t (-1)) 1 = findHebMonthStart t.
Proof. split; [apply shift_forward_back | apply shift_back_forward]. Qed.

(** C6.  Refinement of navigation: shifting by [k + 1 > 0] months is
    [k + 1] steps of the abstract successor [next_month_start] from the
    anchor's month start, and shifting by [-(k + 1)] is [k + 1] steps of
    the abstract predecessor [prev_month_start], both at local midnight. *)
Theorem shiftHebMonth_refines t (k : nat) :
  shiftHebMonth t (Z.of_nat (S k)) =
    local_midnight (Nat.iter (S k) next_month_start (month_start (local_day t))) /\
  shiftHebMonth t (- Z.of_nat (S k)) =
    local_midnight (Nat.iter (S k) prev_month_start (month_start (local_day t))).
Proof.
  unfold shiftHebMonth. split.
  - replace (Z.to_nat (Z.abs (Z.of_nat (S k)))) with (S k) by lia. apply iter_shift_pos. lia.
  - replace (Z.to_nat (Z.abs (- Z.of_nat (S k)))) with (S k) by lia. apply iter_shift_neg. lia.
Qed.

End Lawful.

(** ** Behaviour that holds for any oracle *)

Section AnyOracle.
Context `{TimeZone} `{HebrewCalendar}.

(** Shifting by zero months returns the anchor itself, time of day
    included: the [for] loop does not run.  The spec (section 4.5) says a
    zero shift returns the month start of the anchor. *)
Theorem shiftHebMonth_zero t : shiftHebMonth t 0 = t.
Proof. reflexivity. Qed.

(** C9.  Error path of the boundary search: when the oracle names no
    day 1 among the 40 days up to the anchor, [findHebMonthStart]
    silently returns the anchor's local midnight, a date that is not a
    month start; no error is reported. *)
Theorem findHebMonthStart_fallback t :
  (forall i : nat, (i < 40)%nat -> day (heb_of_day (local_day t - Z.of_nat i)) <> 1) ->
  findHebMonthStart t = startOfLocalDay t /\ day (getHebParts (findHebMonthStart t)) <> 1.
Proof.
  intros Hnone. unfold findHebMonthStart, startOfLocalDay.
  rewrite find_start_loop_exhausted by exact Hnone.
  rewrite getHebParts_midnight. split; [done|].
  rewrite <- (Z.sub_0_r (local_day t)). apply (Hnone 0%nat). lia.
Qed.

End AnyOracle.

(** ** Witnesses, in Israel standard time on the regular-year oracle *)

#[local] Existing Instance jerusalem_winter.

(** 2025-03-10, 09:30 local time. *)
Definition sample_anchor : Z := 1741591800000.

Lemma findHebMonthStart_spec_witness :
  findHebMonthStart sample_anchor = 1740866400000 /\
  findHebMonthStart sample_anchor = local_midnight (month_start (local_day sample_anchor)) /\
  day (getHebParts (findHebMonthStart sample_anchor)) = 1 /\
  monthName (getHebParts (findHebMonthStart sample_anchor)) =
  monthName (getHebParts sample_anchor) /\
  In (startOfLocalDay sample_anchor) (buildHebMonthDays (findHebMonthStart sample_anchor)).
Proof. split; [vm_compute; reflexivity | apply findHebMonthStart_spec]. Defined.

Lemma buildHebMonthDays_spec_witness :
  length (buildHebMonthDays (findHebMonthStart sample_anchor)) = 29%nat /\
  buildHebMonthDays (findHebMonthStart sample_anchor) =
  map local_midnight (month_days (month_start (local_day sample_anchor))).
Proof. split; [vm_compute; reflexivity | apply buildHebMonthDays_spec]. Defined.

Lemma month_grid_length_witness :
  let g := buildHebMonthDays (findHebMonthStart sample_anchor) in
  (length g = 29%nat \/ length g = 30%nat) /\
  day (getHebParts (addDays (findHebMonthStart sample_anchor) (Z.of_nat (length g)))) = 1 /\
  monthName (getHebParts (addDays (findHebMonthStart sample_anchor) (Z.of_nat (length g)))) <>
  monthName (getHebParts sample_anchor).
Proof. apply month_grid_length. Defined.

Lemma month_grid_labels_witness :
  let g := buildHebMonthDays (findHebMonthStart sample_anchor) in
  map (fun d => day (getHebParts d)) g = ⟨1 ⋯+ length g⟩ /\
  Forall (fun d => monthName (getHebParts d) = monthName (getHebParts sample_anchor)) g.
Proof. apply month_grid_labels. Defined.

Lemma shift_round_trip_witness :
  shiftHebMonth sample_anchor 1 = 1743372000000 /\
  shiftHebMonth sample_anchor (-1) = 1738274400000 /\
  shiftHebMonth (shiftHebMonth sample_anchor 1) (-1) = findHebMonthStart sample_anchor /\
  shiftHebMonth (shiftHebMonth sample_anchor (-1)) 1 = findHebMonthStart sample_anchor.
Proof.
  split; [vm_compute; reflexivity|]. split; [vm_compute; reflexivity|].
  apply shift_round_trip.
Defined.

Lemma calendar_loops_terminate_witness :
  day (heb_of_day 20149) = 1 /\
  build_loop 30 (monthName (heb_of_day 20149)) (local_midnight 20149) =
    map local_midnight (month_days 20149) /\
  find_start_loop 30 (local_midnight 20157) = Some (local_midnight 20149).
Proof.
  assert (Hs : day (heb_of_day 20149) = 1) by (vm_compute; reflexivity).
  destruct (calendar_loops_terminate 20157 20149) as (_ & Hf & Hb).
  split; [exact Hs|]. split; [apply Hb; [exact Hs | lia]|].
  rewrite Hf by lia. vm_compute. reflexivity.
Defined.

Lemma shiftHebMonth_refines_witness :
  shiftHebMonth sample_anchor (Z.of_nat 2) =
    local_midnight (Nat.iter 2 next_month_start (month_start (local_day sample_anchor))) /\
  shiftHebMonth sample_anchor (- Z.of_nat 2) =
    local_midnight (Nat.iter 2 prev_month_start (month_start (local_day sample_anchor))).
Proof. apply (shiftHebMonth_refines sample_anchor 1). Defined.

(** An oracle that breaks the laws: every day is day 2. *)
Definition stuck_calendar : HebrewCalendar :=
  fun _ => mkHebParts 2 "Adar" 5785 "Monday".

Lemma findHebMonthStart_fallback_witness :
  @findHebMonthStart jerusalem_winter stuck_calendar sample_anchor = startOfLocalDay sample_anchor /\
  day (@getHebParts jerusalem_winter stuck_calendar
         (@findHebMonthStart jerusalem_winter stuck_calendar sample_anchor)) <> 1.
Proof.
  apply (@findHebMonthStart_fallback jerusalem_winter stuck_calendar).
  intros i _. simpl. lia.
Defined.
