(* ===== verification/Gematria.v ===== *)
(** * Gematria: Hebrew letter numerals

    [hebrewYearGematria] and [hebrewDayGematria] of
    src/components/HomePanel.tsx (lines 57-77).  A JavaScript string is a
    list of UTF-16 code units; every Hebrew letter of the tables is one
    unit (U+05D0..U+05EA), and the marks the code inserts are the ASCII
    double quote (code 34) and apostrophe (code 39).  [length] and
    [slice] therefore count list elements, and an array read out of range ([tens[t]] for
    [t > 9]) yields [undefined], which [+=] appends as the text
    [undefined]. *)

From S2P Require Import Prelude.

Inductive letter :=
  Alef | Bet | Gimel | Dalet | He | Vav | Zayin | Het | Tet | Yod | Kaf
| Lamed | Mem | Nun | Samekh | Ayin | Pe | Tsadi | Qof | Resh | Shin | Tav.

#[export] Instance letter_eq_dec : EqDecision letter.
Proof. solve_decision. Defined.

(** A UTF-16 code unit of the strings the code builds. *)
Inductive unit16 :=
| L (l : letter)      (** a Hebrew letter *)
| A (c : ascii).      (** an ASCII character *)

#[export] Instance unit16_eq_dec : EqDecision unit16.
Proof. intros x y. unfold Decision. decide equality; [apply letter_eq_dec | apply ascii_dec]. Defined.

Abbreviation jstr := (list unit16).

(** The ASCII double quote the code uses as gershayim. *)
Definition quote : unit16 := A "034".
(** The ASCII apostrophe the code uses as geresh. *)
Definition geresh : unit16 := A "039".

(** The text JavaScript appends for [undefined]. *)
Definition undefined_str : jstr := map A (list_ascii_of_string "undefined").

(** [xs[i]] for an array of strings. *)
Definition js_index (xs : list jstr) (i : Z) : jstr :=
  if (0 <=? i) && (i <? Z.of_nat (length xs)) then nth (Z.to_nat i) xs [] else undefined_str.

(** [s.slice(0, -1) + quote + s.slice(-1)], for [s.length >= 2]. *)
Definition insert_quote (s : jstr) : jstr :=
  firstn (length s - 1) s ++ [quote] ++ skipn (length s - 1) s.

(** [if (s.length >= 2) s = s.slice(0, -1) + quote + s.slice(-1)] *)
Definition quote_if_long (s : jstr) : jstr :=
  if (2 <=? length s)%nat then insert_quote s else s.

(** ** [hebrewDayGematria] *)

Definition day_ones : list jstr :=
  [[]; [L Alef]; [L Bet]; [L Gimel]; [L Dalet]; [L He]; [L Vav]; [L Zayin]; [L Het]; [L Tet]].
Definition day_tens : list jstr :=
  [[]; [L Yod]; [L Kaf]; [L Lamed]; [L Mem]; [L Nun]; [L Samekh]; [L Ayin]; [L Pe]; [L Tsadi]].

Definition hebrewDayGematria (num : Z) : jstr :=
  if num =? 15 then [L Tet; quote; L Vav]
  else if num =? 16 then [L Tet; quote; L Zayin]
  else
    let t := num / 10 in
    let o := Z.rem num 10 in
    let s := (if 0 <? t then js_index day_tens t else []) ++
             (if 0 <? o then js_index day_ones o else []) in
    let s := quote_if_long s in
    match s with [] => [L Alef] | _ => s end.

(** ** [hebrewYearGematria] *)

Definition hundreds : list (Z * letter) := [(400, Tav); (300, Shin); (200, Resh); (100, Qof)].
Definition tens : list (Z * letter) :=
  [(90, Tsadi); (80, Pe); (70, Ayin); (60, Samekh); (50, Nun); (40, Mem); (30, Lamed);
   (20, Kaf); (10, Yod)].
Definition ones : list (Z * letter) :=
  [(9, Tet); (8, Het); (7, Zayin); (6, Vav); (5, He); (4, Dalet); (3, Gimel); (2, Bet);
   (1, Alef)].

(** [while (rest >= v) { out += c; rest -= v; }], run on at most [fuel] rounds. *)
Fixpoint greedy_loop (fuel : nat) (v : Z) (c : letter) (rest : Z) (out : jstr) : Z * jstr :=
  match fuel with
  | O => (rest, out)
  | S f => if v <=? rest then greedy_loop f v c (rest - v) (out ++ [L c]) else (rest, out)
  end.

(** The fuel of one [while] loop: one round more than [rest] (each round
    takes away at least 1). *)
Definition loop_fuel (rest : Z) : nat := S (Z.to_nat rest).

(** [for (const [v, c] of table) { while ... }] *)
Definition greedy_tier (table : list (Z * letter)) (st : Z * jstr) : Z * jstr :=
  fold_left (fun '(rest, out) '(v, c) => greedy_loop (loop_fuel rest) v c rest out) table st.

(** [out] after the three loops, before the rewriting. *)
Definition year_letters (y : Z) : jstr :=
  snd (greedy_tier ones (greedy_tier tens (greedy_tier hundreds (y, [])))).

(** [s.replace(/pat$/, repl)] for a two-unit pattern: only a match at the
    end of the string can be replaced. *)
Definition replace_suffix (pat repl s : jstr) : jstr :=
  if decide (skipn (length s - length pat) s = pat /\ (length pat <= length s)%nat)
  then firstn (length s - length pat) s ++ repl else s.

Definition hebrewYearGematria (n : Z) : jstr :=
  let y := Z.rem n 1000 in
  let out := year_letters y in
  let out := replace_suffix [L Yod; L He] [L Tet; quote; L Vav] out in
  let out := replace_suffix [L Yod; L Vav] [L Tet; quote; L Zayin] out in
  let out := quote_if_long out in
  [L He; geresh] ++ out.

(** ** Numeric value of a numeral *)

Definition letter_value (l : letter) : Z :=
  match l with
  | Alef => 1 | Bet => 2 | Gimel => 3 | Dalet => 4 | He => 5 | Vav => 6 | Zayin => 7
  | Het => 8 | Tet => 9 | Yod => 10 | Kaf => 20 | Lamed => 30 | Mem => 40 | Nun => 50
  | Samekh => 60 | Ayin => 70 | Pe => 80 | Tsadi => 90 | Qof => 100 | Resh => 200
  | Shin => 300 | Tav => 400
  end.

(** The sum of the letter values; punctuation counts 0. *)
Definition numeral_value (s : jstr) : Z :=
  fold_right (fun u acc => match u with L l => letter_value l | A _ => 0 end + acc) 0 s.

(** The letters of a string, punctuation dropped. *)
Definition letters (s : jstr) : list letter :=
  omap (fun u => match u with L l => Some l | A _ => None end) s.

(** A table of the year loops pairs each letter with its own value. *)
Definition table_ok (table : list (Z * letter)) : Prop :=
  Forall (fun '(v, c) => letter_value c = v /\ 0 < v) table.

Lemma numeral_value_app s1 s2 : numeral_value (s1 ++ s2) = numeral_value s1 + numeral_value s2.
Proof. unfold numeral_value. rewrite fold_right_app. induction s1 as [|[] s1 IH]; simpl; lia. Qed.

Lemma numeral_value_repeat c k : numeral_value (repeat (L c) k) = Z.of_nat k * letter_value c.
Proof. induction k; [done|]. unfold numeral_value in *. cbn [repeat fold_right]. lia. Qed.

#[export] Hint Rewrite numeral_value_app numeral_value_repeat : dash_rw.

Lemma insert_quote_value s : numeral_value (insert_quote s) = numeral_value s.
Proof.
  unfold insert_quote.
  pose proof (f_equal numeral_value (firstn_skipn (length s - 1) s)) as E.
  autorewrite with dash_rw in *. simpl. lia.
Qed.

Lemma quote_if_long_value s : numeral_value (quote_if_long s) = numeral_value s.
Proof. unfold quote_if_long. destruct (_ <=? _)%nat; auto using insert_quote_value. Qed.

(** Rewriting a suffix by one of the same value keeps the value. *)
Lemma replace_suffix_value pat repl s :
  numeral_value pat = numeral_value repl ->
  numeral_value (replace_suffix pat repl s) = numeral_value s.
Proof.
  intros Hv. unfold replace_suffix. case_decide as Hd; [|done].
  destruct Hd as [Hsuf _].
  pose proof (f_equal numeral_value (firstn_skipn (length s - length pat) s)) as E.
  rewrite Hsuf in E. autorewrite with dash_rw in *. lia.
Qed.

Lemma tables_ok : table_ok hundreds /\ table_ok tens /\ table_ok ones.
Proof. repeat split; repeat constructor. Qed.

(** ** The greedy loop against its division-based reference *)

Lemma greedy_loop_spec fuel v c rest out :
  0 < v -> 0 <= rest -> (Z.to_nat (rest / v) < fuel)%nat ->
  greedy_loop fuel v c rest out = (rest mod v, out ++ repeat (L c) (Z.to_nat (rest / v))).
Proof.
  intros Hv. revert rest out. induction fuel as [|fuel IH]; intros rest out Hr Hf; [lia|].
  simpl. destruct (Z.leb_spec v rest) as [Hle|Hlt].
  - assert (Hd : rest / v = (rest - v) / v + 1).
    { replace rest with ((rest - v) + 1 * v) at 1 by lia. rewrite Z.div_add by lia. lia. }
    assert (Hm : rest mod v = (rest - v) mod v).
    { replace rest with ((rest - v) + 1 * v) at 1 by lia. apply Z.mod_add. lia. }
    assert (0 <= (rest - v) / v) by (apply Z.div_pos; lia).
    rewrite IH by lia. rewrite Hm, Hd, Z2Nat.inj_add by lia.
    rewrite Nat.add_comm, repeat_app, app_assoc. done.
  - rewrite Z.mod_small, Z.div_small by lia. by rewrite app_nil_r.
Qed.

Lemma loop_fuel_enough v rest : 0 < v -> 0 <= rest -> (Z.to_nat (rest / v) < loop_fuel rest)%nat.
Proof.
  intros Hv Hr. unfold loop_fuel.
  assert (rest / v <= rest) by (apply Z.div_le_upper_bound; nia). lia.
Qed.

(** One tier keeps [value out + rest] and leaves [rest] non-negative. *)
Lemma greedy_tier_value table rest out :
  table_ok table -> 0 <= rest ->
  numeral_value (snd (greedy_tier table (rest, out))) + fst (greedy_tier table (rest, out)) =
  numeral_value out + rest /\ 0 <= fst (greedy_tier table (rest, out)).
Proof.
  unfold greedy_tier. intros Hok. revert rest out.
  induction Hok as [|[v c] table [Hc Hv] Hok IH]; intros rest out Hr; cbn [fold_left]; [simpl; lia|].
  rewrite greedy_loop_spec by (try apply loop_fuel_enough; lia).
  pose proof (Z.mod_pos_bound rest v Hv).
  destruct (IH (rest mod v) (out ++ repeat (L c) (Z.to_nat (rest / v)))) as [IHv IHr]; [lia|].
  split; [|done]. rewrite IHv. autorewrite with dash_rw. rewrite Hc.
  pose proof (Z.div_mod rest v ltac:(lia)). rewrite Z2Nat.id by (apply Z.div_pos; lia). lia.
Qed.

Lemma greedy_tier_ones_rest rest out :
  0 <= rest -> fst (greedy_tier ones (rest, out)) = 0.
Proof.
  intros Hr.
  assert (Hok : table_ok (removelast ones)) by repeat constructor.
  destruct (greedy_tier_value (removelast ones) rest out Hok Hr) as [_ Hp].
  unfold greedy_tier in *.
  change ones with (removelast ones ++ [(1, Alef)]). rewrite fold_left_app.
  destruct (fold_left _ (removelast ones) (rest, out)) as [r o]. cbn [fold_left fst] in *.
  rewrite greedy_loop_spec by (try apply loop_fuel_enough; lia). apply Z.mod_1_r.
Qed.

Lemma year_letters_value y : 0 <= y -> numeral_value (year_letters y) = y.
Proof.
  intros Hy. destruct tables_ok as (Hh & Ht & Ho). unfold year_letters.
  destruct (greedy_tier_value hundreds y [] Hh Hy) as [V1 R1].
  destruct (greedy_tier hundreds (y, [])) as [r1 o1]. simpl in V1, R1.
  destruct (greedy_tier_value tens r1 o1 Ht R1) as [V2 R2].
  destruct (greedy_tier tens (r1, o1)) as [r2 o2] eqn:E2. simpl in V2, R2.
  destruct (greedy_tier_value ones r2 o2 Ho R2) as [V3 _].
  pose proof (greedy_tier_ones_rest r2 o2 R2) as Z3. lia.
Qed.

(** The year numeral depends on the year modulo 1000 (truncated, as [%]). *)
Lemma hebrewYearGematria_rem n : hebrewYearGematria n = hebrewYearGematria (Z.rem n 1000).
Proof. unfold hebrewYearGematria. by rewrite Z.rem_rem. Qed.

(** ** Properties of the numerals *)

(** C12.  The [while] loop of each table entry terminates within its fuel
    ([rest + 1] rounds) and computes its division-based reference: it
    appends [rest / v] copies of the letter and leaves [rest mod v]. *)
Theorem greedy_loop_reference v c rest out :
  0 < v -> 0 <= rest ->
  greedy_loop (loop_fuel rest) v c rest out = (rest mod v, out ++ repeat (L c) (Z.to_nat (rest / v))).
Proof. intros Hv Hr. apply greedy_loop_spec; auto using loop_fuel_enough. Qed.

(** C13.  The letters of the year numeral add up to 5 (the millennium
    mark [he]) plus the year modulo 1000: the greedy decomposition is
    exact and the 15/16 rewriting and the inserted marks keep the value. *)
Theorem hebrewYearGematria_value n :
  0 <= n -> numeral_value (hebrewYearGematria n) = 5 + n mod 1000.
Proof.
  intros Hn. unfold hebrewYearGematria. rewrite Z.rem_mod_nonneg by lia.
  rewrite numeral_value_app, quote_if_long_value, !replace_suffix_value by reflexivity.
  rewrite year_letters_value by (apply Z.mod_pos_bound; lia). reflexivity.
Qed.

(** C14.  Code bug: for a year ending in 15 or 16 the string first becomes
    [... tet quote vav] (or [... tet quote zayin]) by the 15/16 rewriting,
    and then the gershayim step inserts a second quote before the last
    letter, so the result contains two adjacent quote marks (5715 is
    printed [he geresh tav shin tet quote quote vav]). *)
Theorem hebrewYearGematria_double_quote n :
  0 <= n -> n mod 100 = 15 \/ n mod 100 = 16 ->
  exists pre post, hebrewYearGematria n = pre ++ [quote; quote] ++ post.
Proof.
  intros Hn H15. rewrite hebrewYearGematria_rem, Z.rem_mod_nonneg by lia.
  rewrite <- (Z.mod_mod_divide n 1000 100) in H15 by (exists 10; done).
  pose proof (Z.mod_pos_bound n 1000 ltac:(lia)) as Hb. revert H15 Hb.
  generalize (n mod 1000). intros y Hy Hb.
  refine (forallb_zrange
    (fun y => y mod 100 = 15 \/ y mod 100 = 16 ->
              exists pre post, hebrewYearGematria y = pre ++ [quote; quote] ++ post)
    (fun y => negb ((y mod 100 =? 15) || (y mod 100 =? 16)) ||
              is_infix [quote; quote] (hebrewYearGematria y)) 0 1000 _ _ y _ Hy).
  - intros x Hx Hx15. apply is_infix_spec.
    destruct Hx15 as [E|E]; rewrite E in Hx; exact Hx.
  - vm_compute. reflexivity.
  - lia.
Qed.

(** The letters of [s] never spell [yod] followed by [he] or by [vav]. *)
Definition avoids_divine_name (s : jstr) : Prop :=
  ~ (exists pre post, letters s = pre ++ [Yod; He] ++ post) /\
  ~ (exists pre post, letters s = pre ++ [Yod; Vav] ++ post).

Definition avoids_divine_name_b (s : jstr) : bool :=
  negb (is_infix [Yod; He] (letters s)) && negb (is_infix [Yod; Vav] (letters s)).

Lemma avoids_divine_name_b_spec s : avoids_divine_name_b s = true -> avoids_divine_name s.
Proof.
  unfold avoids_divine_name_b, avoids_divine_name.
  rewrite andb_true_iff, !negb_true_iff. intros [H1 H2].
  split; intros Hin; apply is_infix_spec in Hin; congruence.
Qed.

(** C15.  Safety of the year numeral: for every number, the letters of
    [hebrewYearGematria] never contain [yod] directly followed by [he] or
    [vav] (quote marks ignored): the 15/16 rewriting catches every such
    ending, and the greedy order cannot produce one elsewhere. *)
Theorem hebrewYearGematria_avoids_divine_name n :
  avoids_divine_name (hebrewYearGematria n).
Proof.
  rewrite hebrewYearGematria_rem.
  pose proof (Z.rem_bound_abs n 1000 ltac:(lia)) as Hb.
  apply (forallb_zrange (fun y => avoids_divine_name (hebrewYearGematria y))
           (fun y => avoids_divine_name_b (hebrewYearGematria y)) (-999) 1999);
    [intros; by apply avoids_divine_name_b_spec | vm_compute; reflexivity | lia].
Qed.

Lemma hebrewDayGematria_parts d :
  1 <= d <= 30 ->
  numeral_value (hebrewDayGematria d) = d /\
  avoids_divine_name (hebrewDayGematria d) /\
  hebrewDayGematria d = quote_if_long (map L (letters (hebrewDayGematria d))).
Proof.
  intros Hd.
  apply (forallb_zrange
    (fun d => numeral_value (hebrewDayGematria d) = d /\
              avoids_divine_name (hebrewDayGematria d) /\
              hebrewDayGematria d = quote_if_long (map L (letters (hebrewDayGematria d))))
    (fun d => (numeral_value (hebrewDayGematria d) =? d) &&
              avoids_divine_name_b (hebrewDayGematria d) &&
              bool_decide (hebrewDayGematria d =
                           quote_if_long (map L (letters (hebrewDayGematria d))))) 1 30);
    [| vm_compute; reflexivity | lia].
  intros x Hx. rewrite !andb_true_iff, Z.eqb_eq, bool_decide_eq_true in Hx.
  destruct Hx as [[Hv Ha] Hq]. auto using avoids_divine_name_b_spec.
Qed.

(** C16.  The day numeral of every day 1..30 is exact and well formed: its
    letters add up to the day, it never spells [yod]-[he] or [yod]-[vav],
    it has a quote mark before its last letter exactly when it has two
    letters, and no other day of a month gets the same numeral. *)
Theorem hebrewDayGematria_day d :
  1 <= d <= 30 ->
  numeral_value (hebrewDayGematria d) = d /\
  avoids_divine_name (hebrewDayGematria d) /\
  hebrewDayGematria d = quote_if_long (map L (letters (hebrewDayGematria d))) /\
  (forall b, 1 <= b <= 30 -> hebrewDayGematria b = hebrewDayGematria d -> b = d).
Proof.
  intros Hd. destruct (hebrewDayGematria_parts d Hd) as (Hv & Ha & Hq).
  split; [done|]. split; [done|]. split; [done|].
  intros b Hb E. rewrite <- (proj1 (hebrewDayGematria_parts b Hb)), E. exact Hv.
Qed.

(** The values the spec lists (section 8): day 15 is [tet quote vav],
    day 16 [tet quote zayin], day 1 [alef], day 30 the single letter
    [lamed], and the year 5785 is [he geresh tav shin pe quote he]. *)
Theorem gematria_spec_values :
  hebrewDayGematria 15 = [L Tet; quote; L Vav] /\
  hebrewDayGematria 16 = [L Tet; quote; L Zayin] /\
  hebrewDayGematria 1 = [L Alef] /\
  hebrewDayGematria 30 = [L Lamed] /\
  hebrewYearGematria 5785 = [L He; geresh; L Tav; L Shin; L Pe; quote; L He].
Proof. vm_compute. repeat split. Qed.

(** ** Witnesses *)

Lemma greedy_loop_reference_witness :
  greedy_loop (loop_fuel 785) 400 Tav 785 [] = (385, [L Tav]) /\
  greedy_loop (loop_fuel 785) 400 Tav 785 [] = (785 mod 400, [] ++ repeat (L Tav) (Z.to_nat (785 / 400))).
Proof. split; [vm_compute; reflexivity | apply greedy_loop_reference; lia]. Defined.

Lemma hebrewYearGematria_value_witness :
  numeral_value (hebrewYearGematria 5785) = 5 + 5785 mod 1000.
Proof. apply hebrewYearGematria_value. lia. Defined.

Lemma hebrewYearGematria_double_quote_witness :
  hebrewYearGematria 5715 = [L He; geresh; L Tav; L Shin; L Tet; quote; quote; L Vav] /\
  exists pre post, hebrewYearGematria 5715 = pre ++ [quote; quote] ++ post.
Proof.
  split; [vm_compute; reflexivity|].
  apply hebrewYearGematria_double_quote; [lia | left; reflexivity].
Defined.

Lemma hebrewDayGematria_day_witness :
  numeral_value (hebrewDayGematria 21) = 21 /\
  hebrewDayGematria 21 = quote_if_long (map L (letters (hebrewDayGematria 21))) /\
  hebrewDayGematria 12 <> hebrewDayGematria 21.
Proof.
  destruct (hebrewDayGematria_day 21 ltac:(lia)) as (Hv & _ & Hq & Hinj).
  split; [exact Hv|]. split; [exact Hq|].
  intros E. pose proof (Hinj 12 ltac:(lia) E). lia.
Defined.
