(* ===== verification/Events.v ===== *)
(** * Events: the calendar card's event list

    [CalendarEvent] of src/types.ts (lines 12-16) and the list operations
    the card applies to it in src/components/HomePanel.tsx: the trimmed
    title of [addEventHandler] (line 121-122, with [trim] of the Prelude), the (date, title) filter of
    [deleteEventHandler] (line 127) and the month filter and sort of
    [currentMonthEvents] (lines 139-141).

    Strings are Stdlib strings (sequences of bytes); equality of strings
    is JavaScript's [===].  [localeCompare] is
    modelled as code-unit order: the sort keys are ISO dates followed by
    an optional [HH:MM], digits with separators at fixed places, on
    which collation and code-unit order agree.  [Array.prototype.sort]
    is stable (ECMAScript 2019); it is modelled as a stable insertion
    sort.  The theorems read the dates and times as moments (year,
    month, day, hour, minute) and show that the sort orders the month
    list chronologically and stably. *)

From S2P Require Import Prelude JsDate.
From Stdlib Require Import Sorted Permutation.

(** [interface CalendarEvent { date: string; time: string; title: string }] *)
Record CalendarEvent := mkEvent {
  date : string;
  time : string;
  title : string
}.

#[export] Instance event_eq_dec : EqDecision CalendarEvent.
Proof. intros [] []. unfold Decision. decide equality; apply string_dec. Defined.

(** ** Sorting by [(a.date + a.time).localeCompare(b.date + b.time)] *)

Definition event_key (e : CalendarEvent) : string := (date e ++ time e)%string.

Definition localeCompare (a b : string) : comparison := String.compare a b.

Definition event_cmp (a b : CalendarEvent) : comparison :=
  localeCompare (event_key a) (event_key b).

(** Insert [x] before the first element it does not follow. *)
Fixpoint insert_event (x : CalendarEvent) (l : list CalendarEvent) : list CalendarEvent :=
  match l with
  | [] => [x]
  | y :: l' => if event_cmp x y is Gt then y :: insert_event x l' else x :: y :: l'
  end.

(** [arr.sort(cmp)], stable. *)
Definition sort_events (l : list CalendarEvent) : list CalendarEvent :=
  fold_right insert_event [] l.

(** The order the sort establishes: no element follows a greater one. *)
Definition event_le (a b : CalendarEvent) : Prop := event_cmp a b <> Gt.

(** ** The list operations of the handlers *)

(** [prev.filter(e => !(e.date === date && e.title === title))] *)
Definition removeEvents (d t : string) (evs : list CalendarEvent) : list CalendarEvent :=
  List.filter (fun e => negb (String.eqb (date e) d && String.eqb (title e) t)) evs.

(** [events.filter(e => monthISO.includes(e.date)).sort(...)] *)
Definition monthEvents (monthISO : list string) (evs : list CalendarEvent) : list CalendarEvent :=
  sort_events (List.filter (fun e => existsb (String.eqb (date e)) monthISO) evs).

(** ** The order the month list is meant to have

    The dates and times are the values of [<input type="date">]
    ([YYYY-MM-DD]) and [<input type="time">] ([HH:MM], or empty when no
    time is given) of the form (HomePanel.tsx:189-190).  They are read
    here as moments, independently of the comparator of the sort. *)

(** The value of a digit character. *)
Definition dval (c : ascii) : Z := Z.of_nat (nat_of_ascii c) - 48.

(** Year, month, day, hour, minute; an event without a time is all-day,
    hour [-1], before every time of its day. *)
Definition moment : Type := (Z * Z * Z * Z * Z)%type.

(** Lexicographic combination: [k] decides only a tie. *)
Definition lexc (c k : comparison) : comparison :=
  match c with Eq => k | _ => c end.

(** Chronological order: year, then month, day, hour and minute. *)
Definition moment_compare (x y : moment) : comparison :=
  let '(y1, m1, d1, h1, i1) := x in
  let '(y2, m2, d2, h2, i2) := y in
  lexc (y1 ?= y2) (lexc (m1 ?= m2) (lexc (d1 ?= d2) (lexc (h1 ?= h2) (i1 ?= i2)))).

Definition parse_date (s : string) : option (Z * Z * Z) :=
  match s with
  | String y1 (String y2 (String y3 (String y4 (String s1 (String m1 (String m2
      (String s2 (String d1 (String d2 EmptyString))))))))) =>
      if forallb is_digit [y1; y2; y3; y4; m1; m2; d1; d2] &&
         Ascii.eqb s1 "-" && Ascii.eqb s2 "-"
      then Some (10 * (10 * (10 * dval y1 + dval y2) + dval y3) + dval y4,
                 10 * dval m1 + dval m2, 10 * dval d1 + dval d2)
      else None
  | _ => None
  end.

Definition parse_time (s : string) : option (Z * Z) :=
  match s with
  | EmptyString => Some (-1, 0)
  | String h1 (String h2 (String c (String i1 (String i2 EmptyString)))) =>
      if forallb is_digit [h1; h2; i1; i2] && Ascii.eqb c ":"
      then Some (10 * dval h1 + dval h2, 10 * dval i1 + dval i2)
      else None
  | _ => None
  end.

Definition event_moment (e : CalendarEvent) : option moment :=
  match parse_date (date e), parse_time (time e) with
  | Some (y, m, d), Some (h, i) => Some (y, m, d, h, i)
  | _, _ => None
  end.

(** [a] is not later than [b]. *)
Definition chrono_le (a b : CalendarEvent) : Prop :=
  match event_moment a, event_moment b with
  | Some x, Some y => moment_compare x y <> Gt
  | _, _ => False
  end.

Definition at_moment (m : moment) (e : CalendarEvent) : bool :=
  bool_decide (event_moment e = Some m).

(** ** Lemmas *)

Lemma event_cmp_total a b : event_cmp a b = Gt -> event_le b a.
Proof.
  unfold event_le, event_cmp, localeCompare. rewrite String.compare_antisym.
  destruct (event_key b ?= event_key a)%string; simpl; discriminate.
Qed.

Lemma insert_event_perm x l : Permutation (insert_event x l) (x :: l).
Proof.
  induction l as [|y l IH]; simpl; [done|].
  destruct (event_cmp x y); try done.
  rewrite IH. apply perm_swap.
Qed.

Lemma insert_event_hd y x l :
  event_le y x -> HdRel event_le y l -> HdRel event_le y (insert_event x l).
Proof.
  intros Hyx Hhd. destruct l as [|z l]; simpl; [by constructor|].
  destruct (event_cmp x z); constructor; done || by inversion Hhd.
Qed.

Lemma insert_event_sorted x l : Sorted event_le l -> Sorted event_le (insert_event x l).
Proof.
  induction 1 as [|y l Hs IH Hhd]; simpl; [repeat constructor|].
  destruct (event_cmp x y) eqn:E.
  - constructor; [by constructor | constructor; unfold event_le; congruence].
  - constructor; [by constructor | constructor; unfold event_le; congruence].
  - constructor; [done|]. apply insert_event_hd; [by apply event_cmp_total | done].
Qed.

Lemma sort_events_perm l : Permutation (sort_events l) l.
Proof.
  induction l as [|x l IH]; simpl; [done|].
  rewrite insert_event_perm. by constructor.
Qed.

Lemma sort_events_sorted l : Sorted event_le (sort_events l).
Proof. induction l; simpl; [constructor | by apply insert_event_sorted]. Qed.

Lemma existsb_eqb_In d keys : existsb (String.eqb d) keys = true <-> In d keys.
Proof.
  rewrite existsb_exists. split.
  - intros (k & Hk & E). apply String.eqb_eq in E. by subst.
  - intros Hd. exists d. split; [done|]. apply String.eqb_refl.
Qed.

Lemma removeEvents_In d t evs e :
  In e (removeEvents d t evs) <-> In e evs /\ ~ (date e = d /\ title e = t).
Proof.
  unfold removeEvents. rewrite filter_In, negb_true_iff.
  destruct (String.eqb_spec (date e) d), (String.eqb_spec (title e) t); simpl;
    split; intros [H1 H2]; split; try done; intuition congruence.
Qed.

(** ** [localeCompare] on the keys is the chronological order *)

Lemma compare_cons c c' s s' :
  String.compare (String c s) (String c' s') = lexc (Ascii.compare c c') (String.compare s s').
Proof. cbn. by destruct (Ascii.compare c c'). Qed.

Lemma ascii_compare_dval c c' : Ascii.compare c c' = (dval c ?= dval c').
Proof.
  unfold Ascii.compare, dval, Z.sub. rewrite !(Z.add_comm _ (-48)), Z.add_compare_mono_l.
  unfold nat_of_ascii. rewrite !N_nat_Z. symmetry. apply N2Z.inj_compare.
Qed.

Lemma dval_digit c : is_digit c = true -> 0 <= dval c <= 9.
Proof. unfold is_digit, dval. intros [H1 H2]%andb_prop. apply Nat.leb_le in H1, H2. lia. Qed.

Lemma lexc_digit a a' d d' k :
  0 <= d <= 9 -> 0 <= d' <= 9 ->
  lexc (a ?= a') (lexc (d ?= d') k) = lexc (10 * a + d ?= 10 * a' + d') k.
Proof.
  intros Hd Hd'. destruct (Z.compare_spec a a') as [->|Hlt|Hgt]; simpl.
  - by rewrite Z.add_compare_mono_l.
  - by rewrite (proj2 (Z.compare_lt_iff _ _)) by lia.
  - by rewrite (proj2 (Z.compare_gt_iff _ _)) by lia.
Qed.

Lemma lexc_Eq_r c : lexc c Eq = c.
Proof. by destruct c. Qed.

Lemma compare_sep c s s' : String.compare (String c s) (String c s') = String.compare s s'.
Proof. by rewrite compare_cons, ascii_compare_dval, Z.compare_refl. Qed.

Ltac digits := repeat match goal with
  | H : is_digit ?c = true |- context [dval ?c] =>
      lazymatch goal with
      | _ : 0 <= dval c <= 9 |- _ => fail
      | _ => let B := fresh "B" in pose proof (dval_digit c H) as B
      end
  end.

Lemma compare_field2 a b a' b' s s' :
  is_digit a = true -> is_digit b = true -> is_digit a' = true -> is_digit b' = true ->
  String.compare (String a (String b s)) (String a' (String b' s')) =
  lexc (10 * dval a + dval b ?= 10 * dval a' + dval b') (String.compare s s').
Proof. intros. rewrite !compare_cons, !ascii_compare_dval. digits. by apply lexc_digit. Qed.

Lemma compare_field4 a b c d a' b' c' d' s s' :
  forallb is_digit [a; b; c; d; a'; b'; c'; d'] = true ->
  String.compare (String a (String b (String c (String d s))))
                 (String a' (String b' (String c' (String d' s')))) =
  lexc (10 * (10 * (10 * dval a + dval b) + dval c) + dval d ?=
        10 * (10 * (10 * dval a' + dval b') + dval c') + dval d') (String.compare s s').
Proof.
  cbn [forallb]. rewrite !andb_true_iff. intros (? & ? & ? & ? & ? & ? & ? & ? & _).
  rewrite !compare_cons, !ascii_compare_dval. digits. rewrite !lexc_digit by lia. done.
Qed.

(** Peel a parsed input string down to its characters. *)
Ltac shape H s :=
  repeat (destruct s as [|? s]; cbn [parse_date parse_time] in H; try discriminate H).

Lemma date_compare s s' r r' y m d y' m' d' :
  parse_date s = Some (y, m, d) -> parse_date s' = Some (y', m', d') ->
  String.compare (s ++ r) (s' ++ r') =
  lexc (y ?= y') (lexc (m ?= m') (lexc (d ?= d') (String.compare r r'))).
Proof.
  intros H H'. shape H s. shape H' s'.
  destruct (forallb _ _ && _ && _) eqn:B in H; [|discriminate H].
  destruct (forallb _ _ && _ && _) eqn:B' in H'; [|discriminate H'].
  injection H as <- <- <-. injection H' as <- <- <-.
  rewrite !andb_true_iff, !Ascii.eqb_eq in B, B'.
  destruct B as [[Hd ->] ->], B' as [[Hd' ->] ->]. cbn [append].
  cbn [forallb] in Hd, Hd'. rewrite !andb_true_iff in Hd, Hd'.
  destruct Hd as (? & ? & ? & ? & ? & ? & ? & ? & _), Hd' as (? & ? & ? & ? & ? & ? & ? & ? & _).
  rewrite compare_field4 by (cbn; by repeat (rewrite andb_true_iff; split)).
  rewrite compare_sep, compare_field2, compare_sep, compare_field2 by done. done.
Qed.

Lemma time_compare t t' h i h' i' :
  parse_time t = Some (h, i) -> parse_time t' = Some (h', i') ->
  String.compare t t' = lexc (h ?= h') (i ?= i').
Proof.
  intros H H'. shape H t; shape H' t'.
  all: repeat match goal with
       | H : (if ?b then _ else _) = Some _ |- _ =>
           let B := fresh "B" in destruct b eqn:B; [|discriminate H];
           cbn [forallb] in B; rewrite !andb_true_iff, Ascii.eqb_eq in B
       end.
  all: repeat match goal with H : Some _ = Some _ |- _ => injection H as <- <- end.
  all: repeat match goal with H : _ /\ _ |- _ => destruct H end; subst; digits.
  - done.
  - by rewrite (proj2 (Z.compare_lt_iff (-1) _)) by lia.
  - by rewrite (proj2 (Z.compare_gt_iff _ (-1))) by lia.
  - rewrite compare_field2, compare_sep, compare_field2 by done. cbn [String.compare].
    by rewrite lexc_Eq_r.
Qed.

Lemma event_cmp_moment a b x y :
  event_moment a = Some x -> event_moment b = Some y -> event_cmp a b = moment_compare x y.
Proof.
  unfold event_moment, event_cmp, localeCompare, event_key.
  destruct (parse_date (date a)) as [[[ya ma] da]|] eqn:Da; [|done].
  destruct (parse_time (time a)) as [[ha ia]|] eqn:Ta; [|done].
  destruct (parse_date (date b)) as [[[yb mb] db]|] eqn:Db; [|done].
  destruct (parse_time (time b)) as [[hb ib]|] eqn:Tb; [|done].
  intros [= <-] [= <-]. by rewrite (date_compare _ _ _ _ _ _ _ _ _ _ Da Db), (time_compare _ _ _ _ _ _ Ta Tb).
Qed.

Lemma moment_compare_refl x : moment_compare x x = Eq.
Proof. destruct x as [[[[y m] d] h] i]. cbn. by rewrite !Z.compare_refl. Qed.

Lemma chrono_of_le a b :
  is_Some (event_moment a) -> is_Some (event_moment b) -> event_le a b -> chrono_le a b.
Proof.
  intros [x Hx] [y Hy]. unfold chrono_le, event_le. rewrite Hx, Hy.
  by rewrite <- (event_cmp_moment _ _ _ _ Hx Hy).
Qed.

Lemma Sorted_event_chrono l :
  Forall (fun e => is_Some (event_moment e)) l -> Sorted event_le l -> Sorted chrono_le l.
Proof.
  intros Hv Hs. induction Hs as [|a l Hs IH Hhd]; [constructor|].
  inversion Hv as [|? ? Ha Hl]; subst. constructor; [by apply IH|].
  destruct Hhd as [|b l' Hab]; constructor. apply chrono_of_le; [done | by inversion Hl | done].
Qed.

(** ** Stability of the sort *)

(** [insert_event] puts [x] after exactly the elements it follows. *)
Lemma insert_event_split x l :
  exists l1 l2, l = l1 ++ l2 /\ insert_event x l = l1 ++ x :: l2 /\
                Forall (fun y => event_cmp x y = Gt) l1.
Proof.
  induction l as [|y l (l1 & l2 & -> & Hins & Hgt)]; simpl.
  - by exists [], [].
  - destruct (event_cmp x y) eqn:E; try by exists [], (y :: l1 ++ l2).
    exists (y :: l1), l2. rewrite Hins. split; [done|]. split; [done|]. by constructor.
Qed.

Lemma filter_Forall_false {A} (p : A -> bool) l :
  Forall (fun y => p y = false) l -> List.filter p l = [].
Proof. induction 1 as [|y l Hy _ IH]; simpl; [done|]. by rewrite Hy. Qed.

(** Elements the predicate groups together keep their relative order,
    provided the predicate never holds of an element and of a later one
    that the comparator puts before it. *)
Lemma sort_events_stable (p : CalendarEvent -> bool) l :
  (forall x y, p x = true -> event_cmp x y = Gt -> p y = false) ->
  List.filter p (sort_events l) = List.filter p l.
Proof.
  intros Hp. induction l as [|x l IH]; [done|].
  change (sort_events (x :: l)) with (insert_event x (sort_events l)).
  destruct (insert_event_split x (sort_events l)) as (l1 & l2 & Hs & -> & Hgt).
  rewrite Hs, filter_app in IH. rewrite filter_app. cbn [List.filter].
  destruct (p x) eqn:Hx.
  - assert (H1 : List.filter p l1 = []).
    { apply filter_Forall_false. eapply Forall_impl; [|exact Hgt]. intros y Hy. by apply (Hp x). }
    rewrite H1 in IH |- *. simpl in *. by rewrite IH.
  - by rewrite IH.
Qed.

(** C21.  When every stored event carries the date and time its inputs
    produce, the month list [events.filter(...).sort(...)] (lines
    139-141) is in chronological order (year, month, day, then the time,
    an event without a time first on its day), holds exactly the stored
    events whose date is one of the month's keys, and keeps events at
    the same moment in the order they were stored. *)
Theorem monthEvents_chronological keys evs :
  Forall (fun e => is_Some (event_moment e)) evs ->
  let l := List.filter (fun e => existsb (String.eqb (date e)) keys) evs in
  Sorted chrono_le (monthEvents keys evs) /\
  Permutation (monthEvents keys evs) l /\
  (forall m, List.filter (at_moment m) (monthEvents keys evs) = List.filter (at_moment m) l).
Proof.
  intros Hv l. change (monthEvents keys evs) with (sort_events l).
  assert (Hl : Forall (fun e => is_Some (event_moment e)) (sort_events l)).
  { apply Forall_forall. intros e He%(Permutation_in _ (sort_events_perm l)).
    apply filter_In in He as [He _]. by apply (proj1 (Forall_forall _ _) Hv). }
  split; [by apply Sorted_event_chrono, sort_events_sorted|].
  split; [apply sort_events_perm|].
  intros m. apply sort_events_stable. intros x y Hx Hgt.
  apply bool_decide_eq_true in Hx. apply bool_decide_eq_false. intros Hy.
  rewrite (event_cmp_moment _ _ _ _ Hx Hy), moment_compare_refl in Hgt. discriminate.
Qed.

#[local] Open Scope string_scope.

Definition sample_events : list CalendarEvent :=
  [mkEvent "2025-03-10" "14:00" "Meeting"; mkEvent "2025-04-01" "09:30" "Dentist";
   mkEvent "2025-03-10" "" "Birthday"; mkEvent "2025-03-02" "20:15" "Concert"].

(** The month of March 2025: the all-day birthday comes before the
    meeting of the same day, and the concert of an earlier day first. *)
Lemma monthEvents_chronological_witness :
  Forall (fun e => is_Some (event_moment e)) sample_events /\
  Sorted chrono_le (monthEvents ["2025-03-02"; "2025-03-10"] sample_events) /\
  map title (monthEvents ["2025-03-02"; "2025-03-10"] sample_events) = ["Concert"; "Birthday"; "Meeting"].
Proof.
  assert (Hv : Forall (fun e => is_Some (event_moment e)) sample_events)
    by (repeat constructor; eexists; reflexivity).
  split; [exact Hv|]. split; [|reflexivity].
  exact (proj1 (monthEvents_chronological ["2025-03-02"; "2025-03-10"] sample_events Hv)).
Defined.
