(* ===== verification/CalendarCard.v ===== *)
(** * CalendarCard: the Hebrew calendar card as a state machine

    The component [HebrewCalendar] of src/components/HomePanel.tsx
    (lines 40-209): its state (the view anchor, the stored events and
    the three fields of the new-event form, lines 41-45), its handlers
    (add, delete, clear all, the month buttons, a click on a day and the
    form inputs) as one step function [cal_step], and what the render
    derives from the state: the month's event list (lines 136-141), the
    events of a day cell (line 167) and the today mark (line 165).

    The events field stands for the value [useLocalStorage] keeps under
    [dashboard_events_v1]; writes are taken to succeed at once. *)

From S2P Require Import Prelude JsDate HebrewOracle MonthGrid Events.
From Stdlib Require Import Sorted Permutation.

Record CalState := mkCal {
  viewAnchor : Date;
  events : list CalendarEvent;
  newEventDate : string;
  newEventTime : string;
  newEventTitle : string
}.

(** The user actions the card handles. *)
Inductive CalAction :=
| PrevMonth                       (** the [<] button *)
| NextMonth                       (** the [>] button *)
| ClickDay (gd : Date)            (** a click on the cell of [gd] *)
| SetDate (s : string)            (** the date input *)
| SetTime (s : string)            (** the time input *)
| SetTitle (s : string)           (** the title input *)
| AddEvent                        (** the add button *)
| DeleteEvent (d t : string)      (** the delete button of an event *)
| ClearAll (confirmed : bool).    (** the clear-all button and its confirm *)

Section Card.
Context `{TimeZone} `{HebrewCalendar}.

Definition set_anchor (a : Date) (st : CalState) : CalState :=
  mkCal a (events st) (newEventDate st) (newEventTime st) (newEventTitle st).
Definition set_events (evs : list CalendarEvent) (st : CalState) : CalState :=
  mkCal (viewAnchor st) evs (newEventDate st) (newEventTime st) (newEventTitle st).
Definition set_form (d tm tt : string) (st : CalState) : CalState :=
  mkCal (viewAnchor st) (events st) d tm tt.

(** [addEventHandler]: [None] is the alert branch, where nothing changes. *)
Definition addEventHandler (st : CalState) : option CalState :=
  if String.eqb (newEventDate st) "" || String.eqb (trim (newEventTitle st)) "" then None
  else Some (mkCal (viewAnchor st)
                   (events st ++ [mkEvent (newEventDate st) (newEventTime st) (trim (newEventTitle st))])
                   (newEventDate st) (newEventTime st) "").

(** [deleteEventHandler(date, title)] *)
Definition deleteEventHandler (d t : string) (st : CalState) : CalState :=
  set_events (removeEvents d t (events st)) st.

(** [clearAllEvents], with the answer of [window.confirm]. *)
Definition clearAllEvents (confirmed : bool) (st : CalState) : CalState :=
  if confirmed then set_events [] st else st.

(** [monthISO = buildHebMonthDays(findHebMonthStart(viewAnchor)).map(toISO)] *)
Definition monthISO (st : CalState) : list string :=
  map toISO (buildHebMonthDays (findHebMonthStart (viewAnchor st))).

Definition currentMonthEvents (st : CalState) : list CalendarEvent :=
  monthEvents (monthISO st) (events st).

(** [events.filter(e => e.date === iso)] for the cell of [gd]. *)
Definition dayEvents (st : CalState) (gd : Date) : list CalendarEvent :=
  List.filter (fun e => String.eqb (date e) (toISO gd)) (events st).

(** [isToday = toISO(gd) === toISO(now)] *)
Definition isToday (now gd : Date) : bool := String.eqb (toISO gd) (toISO now).

Definition cal_step (st : CalState) (a : CalAction) : CalState :=
  match a with
  | PrevMonth => set_anchor (shiftHebMonth (viewAnchor st) (-1)) st
  | NextMonth => set_anchor (shiftHebMonth (viewAnchor st) 1) st
  | ClickDay gd => set_form (toISO gd) (newEventTime st) (newEventTitle st) st
  | SetDate s => set_form s (newEventTime st) (newEventTitle st) st
  | SetTime s => set_form (newEventDate st) s (newEventTitle st) st
  | SetTitle s => set_form (newEventDate st) (newEventTime st) s st
  | AddEvent => match addEventHandler st with Some st' => st' | None => st end
  | DeleteEvent d t => deleteEventHandler d t st
  | ClearAll c => clearAllEvents c st
  end.

(** The state at mount: the anchor and the form date come from [new Date()]. *)
Definition cal_init (now : Date) (stored : list CalendarEvent) : CalState :=
  mkCal now stored (toISO now) "" "".

End Card.

(** ** The month's event list *)

Section MonthList.
Context `{TimeZone} `{HebrewCalendar}.

Lemma currentMonthEvents_In st e :
  In e (currentMonthEvents st) <-> In e (events st) /\ In (date e) (monthISO st).
Proof.
  unfold currentMonthEvents, monthEvents. split.
  - intros Hin. apply (Permutation_in _ (sort_events_perm _)), filter_In in Hin.
    by rewrite <- existsb_eqb_In.
  - intros [He Hd]. apply (Permutation_in _ (Permutation_sym (sort_events_perm _))).
    apply filter_In. by rewrite existsb_eqb_In.
Qed.

Context `{!HebrewCalendarLaws}.

(** C20.  Every event of the month's list is a stored event whose date is
    the ISO key of one of the days of the anchor's Hebrew month. *)
Theorem currentMonthEvents_in_grid st e :
  In e (currentMonthEvents st) ->
  In e (events st) /\
  exists n, In n (month_days (month_start (local_day (viewAnchor st)))) /\
            date e = toISO (local_midnight n).
Proof.
  rewrite currentMonthEvents_In. intros [He Hd]. split; [done|].
  unfold monthISO in Hd. rewrite buildHebMonthDays_anchor, map_map in Hd.
  apply in_map_iff in Hd as (n & Hn & Hin). eauto.
Qed.

End MonthList.

(** ** The handlers *)

Section Handlers.
Context `{TimeZone} `{HebrewCalendar}.

(** Deleting by (date, title) keeps exactly the events that do not
    match both: every event with that pair goes, duplicates included, and
    the rest of the state is unchanged. *)
Theorem deleteEventHandler_spec d t st e :
  (In e (events (deleteEventHandler d t st)) <->
   In e (events st) /\ ~ (date e = d /\ title e = t)) /\
  deleteEventHandler d t st = set_events (events (deleteEventHandler d t st)) st.
Proof. split; [apply removeEvents_In | reflexivity]. Qed.

(** C23.  Adding validates and appends: it is rejected (state unchanged)
    exactly when the date field is empty or the title is blank after
    trimming; otherwise it appends one event with the trimmed title,
    clears the title field and keeps everything else. *)
Theorem addEventHandler_spec st :
  (addEventHandler st = None <-> newEventDate st = ""%string \/ trim (newEventTitle st) = ""%string) /\
  (forall st', addEventHandler st = Some st' ->
     events st' = events st ++ [mkEvent (newEventDate st) (newEventTime st) (trim (newEventTitle st))] /\
     newEventTitle st' = ""%string /\ viewAnchor st' = viewAnchor st /\
     newEventDate st' = newEventDate st /\ newEventTime st' = newEventTime st).
Proof.
  unfold addEventHandler.
  destruct (String.eqb_spec (newEventDate st) "") as [E1|E1],
           (String.eqb_spec (trim (newEventTitle st)) "") as [E2|E2]; simpl.
  1-3: split; [split; intros; [tauto | done] | intros st' [=]].
  split.
  - split; [discriminate | intros [|]; contradiction].
  - intros st' [= <-]. repeat split.
Qed.

(** C24.  Add then delete: deleting the pair just added removes the new
    event together with every earlier event of the same (date, title). *)
Theorem add_then_delete st st' :
  addEventHandler st = Some st' ->
  events (deleteEventHandler (newEventDate st) (trim (newEventTitle st)) st') =
  removeEvents (newEventDate st) (trim (newEventTitle st)) (events st).
Proof.
  unfold addEventHandler. destruct (_ || _); intros [= <-]. simpl.
  unfold removeEvents. rewrite filter_app. simpl.
  by rewrite !String.eqb_refl, app_nil_r.
Qed.

(** Clearing with confirmation empties the store, and the month list
    is then empty whatever the anchor; without confirmation nothing
    changes. *)
Theorem clearAllEvents_spec st a :
  events (clearAllEvents true st) = [] /\
  currentMonthEvents (set_anchor a (clearAllEvents true st)) = [] /\
  clearAllEvents false st = st.
Proof. split; [done | split; reflexivity]. Qed.

End Handlers.

(** ** What the time zone does to the card *)

Section Zone.
Context `{TimeZone} `{HebrewCalendar}.

(** C27.  Code bug: east of UTC, the cell of civil day [X + 1] shows (as
    its dot) exactly the events dated [X], and clicking it pre-fills the
    form with the date [X]: an event typed for [X] appears one cell late,
    and an event created by clicking a day is stored under the previous
    date. *)
Theorem cell_keys_east st X :
  0 < tz_offset < msPerDay ->
  dayEvents st (local_midnight (X + 1)) =
    List.filter (fun e => String.eqb (date e) (iso_of_day X)) (events st) /\
  newEventDate (cal_step st (ClickDay (local_midnight (X + 1)))) = iso_of_day X.
Proof.
  intros Ho. unfold dayEvents. simpl.
  rewrite toISO_utc_day, utc_day_midnight_east by lia.
  by replace (X + 1 - 1) with X by lia.
Qed.

(** C28.  Code bug: east of UTC, once the local time of day has passed
    the offset (from 02:00 in Israel in winter), the today mark is on the
    cell of tomorrow: [toISO] of tomorrow's local midnight equals [toISO]
    of now. *)
Theorem today_mark_east now :
  0 < tz_offset < msPerDay -> tz_offset <= (now + tz_offset) mod msPerDay ->
  isToday now (local_midnight (local_day now + 1)) = true.
Proof.
  intros Ho Htod. unfold isToday. rewrite !toISO_utc_day, utc_day_midnight_east by lia.
  replace (local_day now + 1 - 1) with (utc_day now); [apply String.eqb_refl|].
  unfold utc_day, local_day in *. unfold msPerDay in *. zdiv.
Qed.

End Zone.

(** ** Witnesses and the spec's scenario, in Israel on the regular-year oracle *)

#[local] Existing Instance jerusalem_winter.

Definition meeting : CalendarEvent := mkEvent "2025-03-10" "09:00" "Meeting".
Definition birthday : CalendarEvent := mkEvent "2025-03-10" "" "Birthday".

Definition scenario_state : CalState :=
  mkCal sample_anchor [meeting; birthday] "2025-03-10" "" "".

(** The spec's scenario (section 8): with Meeting (09:00) and
    Birthday (no time) on 2025-03-10, the month list shows Birthday before
    Meeting, since the key without a time is a prefix of the other. *)
Theorem scenario_birthday_before_meeting :
  currentMonthEvents scenario_state = [birthday; meeting].
Proof. vm_compute. reflexivity. Qed.

Lemma currentMonthEvents_in_grid_witness :
  In birthday (events scenario_state) /\
  exists n, In n (month_days (month_start (local_day (viewAnchor scenario_state)))) /\
            date birthday = toISO (local_midnight n).
Proof.
  apply (currentMonthEvents_in_grid scenario_state birthday).
  vm_compute. left. reflexivity.
Defined.

Definition form_state : CalState := mkCal sample_anchor [birthday] "2025-03-10" "09:00" "  Meeting ".

Lemma addEventHandler_spec_witness :
  events (mkCal sample_anchor [birthday; meeting] "2025-03-10" "09:00" "") =
    events form_state ++
      [mkEvent (newEventDate form_state) (newEventTime form_state) (trim (newEventTitle form_state))] /\
  newEventTitle (mkCal sample_anchor [birthday; meeting] "2025-03-10" "09:00" "") = ""%string /\
  viewAnchor (mkCal sample_anchor [birthday; meeting] "2025-03-10" "09:00" "") = viewAnchor form_state /\
  newEventDate (mkCal sample_anchor [birthday; meeting] "2025-03-10" "09:00" "") = newEventDate form_state /\
  newEventTime (mkCal sample_anchor [birthday; meeting] "2025-03-10" "09:00" "") = newEventTime form_state.
Proof. apply (proj2 (addEventHandler_spec form_state)). vm_compute. reflexivity. Defined.

Lemma add_then_delete_witness :
  events (deleteEventHandler "2025-03-10" "Meeting"
            (mkCal sample_anchor [birthday; meeting] "2025-03-10" "09:00" "")) =
  removeEvents (newEventDate form_state) (trim (newEventTitle form_state)) (events form_state).
Proof. apply (add_then_delete form_state). vm_compute. reflexivity. Defined.

Lemma cell_keys_east_witness :
  dayEvents scenario_state (local_midnight 20158) = [meeting; birthday] /\
  dayEvents scenario_state (local_midnight 20157) = [] /\
  dayEvents scenario_state (local_midnight (20157 + 1)) =
    List.filter (fun e => String.eqb (date e) (iso_of_day 20157)) (events scenario_state) /\
  newEventDate (cal_step scenario_state (ClickDay (local_midnight (20157 + 1)))) = iso_of_day 20157.
Proof.
  split; [vm_compute; reflexivity|]. split; [vm_compute; reflexivity|].
  apply cell_keys_east. unfold tz_offset, jerusalem_winter, msPerDay. lia.
Defined.

Lemma today_mark_east_witness :
  isToday sample_anchor (local_midnight 20157) = false /\
  isToday sample_anchor (local_midnight (local_day sample_anchor + 1)) = true.
Proof.
  split; [vm_compute; reflexivity|].
  apply today_mark_east;
    [unfold tz_offset, jerusalem_winter, msPerDay; lia | vm_compute; intros Hc; discriminate Hc].
Defined.
