(* ===== verification/CalendarView.v ===== *)
(** * CalendarView: what the Hebrew calendar card renders

    The render of [HebrewCalendar] (src/components/HomePanel.tsx:110-203):
    the fallback when the host has no Hebrew calendar (line 110), the
    month header (lines 113-115, 147), the today line built by
    [formatFullHebrew] (lines 92-95, 150), the weekday header row
    (lines 116, 153), the week table (lines 117, 156-179) and the list
    of the month's events (lines 195-203).

    A rendered text is a list of pieces [seg]: a template literal
    concatenates strings of the host (month and weekday names, ISO keys)
    with the numerals of [Gematria], which are lists of UTF-16 units; the
    pieces keep both without a conversion between them.  The table is a
    list of rows of [Cell]s; a day cell keeps the date it shows, which is
    also what its click handler passes to [cal_step] ([ClickDay]). *)

From S2P Require Import Prelude JsDate HebrewOracle MonthGrid Gematria Events CalendarCard.

(** A piece of rendered text. *)
Inductive seg :=
| S8 (s : string)    (** a host string or a literal of the code *)
| S16 (s : jstr).    (** a numeral of [Gematria] *)

Abbreviation text := (list seg).

(** [headers] (line 116): the weekday letters, Sunday first. *)
Definition headers : list string := ["א"; "ב"; "ג"; "ד"; "ה"; "ו"; "ש"]%string.

(** A [<td>] of the week table (lines 160-176). *)
Inductive Cell :=
| EmptyCell
| DayCell (gd : Date)            (** [days[dayOfMonthIndex]]; the click sets the form date *)
          (label : jstr)         (** [hebrewDayGematria(p.day)] *)
          (today : bool)         (** the [isToday] circle *)
          (dot : option string)  (** the event dot and its [title] *)
          (small : Z * Z).       (** [`${gd.getDate()}.${gd.getMonth() + 1}`] *)

(** An [<li>] of the month's events (lines 196-202). *)
Record EventItem := mkItem {
  item_title : string;           (** [e.title] *)
  item_date : string;            (** [e.date], shown through [toLocaleDateString] *)
  item_time : option string;     (** [e.time && ` ${e.time}`] *)
  item_delete : CalAction        (** the delete button *)
}.

Record CardView := mkCardView {
  header_text : text;            (** line 147 *)
  today_text : text;             (** line 150 *)
  head_row : list string;        (** line 153 *)
  body : list (list Cell);       (** lines 156-179 *)
  items : list EventItem         (** lines 195-203 *)
}.

Inductive Render :=
| Unsupported (msg : string)     (** line 110 *)
| Card (v : CardView).

Definition msg_unsupported : string := "הלוח העברי לא נתמך בדפדפן זה.".

(** [Math.ceil(x / 7)] of an integer [x]. *)
Definition ceil_div7 (x : Z) : Z := - ((- x) / 7).

(** [e.time && ` ${e.time}`]: the empty string is falsy and renders nothing. *)
Definition time_suffix (tm : string) : option string :=
  if String.eqb tm "" then None else Some (" " ++ tm)%string.

Definition event_item (e : CalendarEvent) : EventItem :=
  mkItem (title e) (date e) (time_suffix (time e)) (DeleteEvent (date e) (title e)).

(** [dayEvents.map(e => e.title).join(', ')] *)
Definition join_titles (evs : list CalendarEvent) : string :=
  String.concat ", " (map title evs).

Section View.
Context `{TimeZone} `{HebrewCalendar}.

(** [getDate()] and [getMonth() + 1]: the local civil date. *)
Definition getDate (t : Date) : Z := let '(_, _, d) := civil_from_days (local_day t) in d.
Definition getMonth1 (t : Date) : Z := let '(_, m, _) := civil_from_days (local_day t) in m.

(** [formatFullHebrew(d)] (lines 92-95).  [fmtWeekdayHeb] and the
    [weekday] part of [fmtPartsLatn] are the same Hebrew long weekday. *)
Definition formatFullHebrew (d : Date) : text :=
  let p := getHebParts d in
  [S8 (weekday p); S8 ", "; S16 (hebrewDayGematria (day p)); S8 " ב"; S8 (monthName p);
   S8 ", "; S16 (hebrewYearGematria (year p))]%string.

(** The cell of a day (lines 163-175). *)
Definition day_cell (st : CalState) (now gd : Date) : Cell :=
  let evs := dayEvents st gd in
  DayCell gd (hebrewDayGematria (day (getHebParts gd))) (isToday now gd)
          (if (0 <? length evs)%nat then Some (join_titles evs) else None)
          (getDate gd, getMonth1 gd).

(** Lines 160-163: the cell of [dayOfMonthIndex = i]. *)
Definition cell_index (st : CalState) (now : Date) (days : list Date) (i : Z) : Cell :=
  if (i <? 0) || (Z.of_nat (length days) <=? i) then EmptyCell
  else day_cell st now (nth (Z.to_nat i) days 0).

(** Line 159: [dayOfMonthIndex = weekIndex * 7 + dayIndex - firstWeekday]. *)
Definition cell_at (st : CalState) (now : Date) (days : list Date) (fw : Z)
    (weekIndex dayIndex : nat) : Cell :=
  cell_index st now days (Z.of_nat weekIndex * 7 + Z.of_nat dayIndex - fw).

(** [Array.from({ length: n })] clamps a negative length to 0. *)
Definition week_count (days : list Date) (fw : Z) : nat :=
  Z.to_nat (ceil_div7 (Z.of_nat (length days) + fw)).

Definition week_table (st : CalState) (now : Date) (days : list Date) (fw : Z) : list (list Cell) :=
  map (fun w => map (cell_at st now days fw w) (seq 0 7)) (seq 0 (week_count days fw)).

(** The card (lines 113-203) for the host's calendar. *)
Definition card_view (st : CalState) (now : Date) : CardView :=
  let start := findHebMonthStart (viewAnchor st) in
  let days := buildHebMonthDays start in
  let ps := getHebParts start in
  mkCardView [S8 (monthName ps); S8 " "; S16 (hebrewYearGematria (year ps))]%string
             (S8 "היום: " :: formatFullHebrew now)%string
             headers
             (week_table st now days (getDay start))
             (map event_item (currentMonthEvents st)).

End View.

(** Line 110: [hebrewDateUtils] is [null] when the [Intl] constructors
    throw; [None] is that host. *)
Definition render `{TimeZone} (intl : option HebrewCalendar) (st : CalState) (now : Date) : Render :=
  match intl with
  | None => Unsupported msg_unsupported
  | Some c => Card (@card_view _ c st now)
  end.

(** ** The shape of the week table *)

(** The dates shown by the day cells of a list of cells, in order. *)
Definition cell_dates (cs : list Cell) : list Date :=
  flat_map (fun c => match c with EmptyCell => [] | DayCell gd _ _ _ _ => [gd] end) cs.

Lemma map_seq_offset {A} (g : nat -> A) a n :
  map g (seq a n) = map (fun d => g (a + d)%nat) (seq 0 n).
Proof.
  induction n as [|n IH]; [done|]. rewrite !seq_S, !map_app, IH. done.
Qed.

Lemma map_nth_seq_self {A} (l : list A) x : map (fun d => nth d l x) (seq 0 (length l)) = l.
Proof. induction l as [|a l IH]; [done|]. simpl. f_equal. rewrite map_seq_offset. exact IH. Qed.

Lemma cell_dates_empty {A} (h : A -> Cell) l :
  (forall k, In k l -> h k = EmptyCell) -> cell_dates (map h l) = [].
Proof.
  induction l as [|k l IH]; intros Hl; [done|]. unfold cell_dates in *. cbn [map flat_map].
  rewrite (Hl k (or_introl eq_refl)). apply IH. intros j Hj. apply Hl. by right.
Qed.

(** [Math.ceil(x / 7)] is the least [c] with [x <= 7 * c]. *)
Lemma ceil_div7_bounds x : 7 * ceil_div7 x - 7 < x <= 7 * ceil_div7 x.
Proof. unfold ceil_div7. zdiv. Qed.

Section Layout.
Context `{TimeZone} `{HebrewCalendar}.
Variables (st : CalState) (now : Date) (days : list Date) (fw : Z).

Local Abbreviation n := (length days).

Lemma week_count_bounds :
  0 <= fw ->
  Z.of_nat n + fw <= 7 * Z.of_nat (week_count days fw) < Z.of_nat n + fw + 7.
Proof.
  intros Hfw. unfold week_count. pose proof (ceil_div7_bounds (Z.of_nat n + fw)).
  rewrite Z2Nat.id; lia.
Qed.

Lemma week_table_rows :
  length (week_table st now days fw) = week_count days fw /\
  Forall (fun r => length r = 7%nat) (week_table st now days fw).
Proof.
  unfold week_table. rewrite length_map, length_seq. split; [done|].
  apply Forall_forall. intros r (w & <- & _)%in_map_iff. by rewrite length_map, length_seq.
Qed.

(** Read row by row, the table is the cells of the indices [k - fw],
    [k = 0 .. 7 * rows - 1]. *)
Lemma concat_week_rows (R : nat) :
  concat (map (fun w => map (cell_at st now days fw w) (seq 0 7)) (seq 0 R)) =
  map (fun k => cell_index st now days (Z.of_nat k - fw)) (seq 0 (7 * R)).
Proof.
  induction R as [|R IH]; [done|].
  rewrite (seq_S R 0), map_app, concat_app, IH. cbn [map concat]. rewrite app_nil_r.
  replace (7 * S R)%nat with (7 * R + 7)%nat by lia.
  rewrite (seq_app (7 * R) 7 0), map_app. f_equal. rewrite (map_seq_offset _ (0 + 7 * R)).
  apply map_ext. intros d. unfold cell_at. f_equal. lia.
Qed.

Lemma cell_dates_in_range l :
  (forall d, In d l -> (d < n)%nat) ->
  cell_dates (map (fun d => cell_index st now days (Z.of_nat d)) l) = map (fun d => nth d days 0) l.
Proof.
  induction l as [|d l IH]; intros Hl; [done|]. unfold cell_dates in *. cbn [map flat_map].
  unfold cell_index at 1. pose proof (Hl d (or_introl eq_refl)).
  replace ((Z.of_nat d <? 0) || (Z.of_nat n <=? Z.of_nat d)) with false by (symmetry; bool_prop; lia).
  rewrite Nat2Z.id. cbn. f_equal. apply IH. intros j Hj. apply Hl. by right.
Qed.

(** Every day of the month is shown exactly once, in order; the cells
    before the first day and after the last one are empty. *)
Lemma week_table_dates :
  0 <= fw -> cell_dates (concat (week_table st now days fw)) = days.
Proof.
  intros Hfw. pose proof week_count_bounds Hfw as HR.
  unfold week_table. rewrite concat_week_rows.
  set (f := Z.to_nat fw). set (N := (7 * week_count days fw)%nat).
  replace N with (f + (n + (N - f - n)))%nat by lia.
  rewrite !seq_app, !map_app. unfold cell_dates. rewrite !flat_map_app. fold cell_dates.
  rewrite (cell_dates_empty _ (seq 0 f)), (cell_dates_empty _ (seq (0 + f + n) _)).
  2, 3: intros k Hk%in_seq; unfold cell_index; by replace (_ || _) with true by (symmetry; bool_prop; lia).
  rewrite app_nil_l, app_nil_r, (map_seq_offset _ (0 + f)).
  rewrite (map_ext _ (fun d => cell_index st now days (Z.of_nat d))) by (intros d; f_equal; unfold f; lia).
  fold (cell_dates (map (fun d => cell_index st now days (Z.of_nat d)) (seq 0 n))).
  rewrite cell_dates_in_range by (intros d Hd%in_seq; lia). apply map_nth_seq_self.
Qed.

(** A day cell at row [w], column [d] shows the day of index
    [w * 7 + d - fw]. *)
Lemma week_table_cell w d row gd lbl tdy dot sm :
  nth_error (week_table st now days fw) w = Some row ->
  nth_error row d = Some (DayCell gd lbl tdy dot sm) ->
  (d < 7)%nat /\ 0 <= Z.of_nat w * 7 + Z.of_nat d - fw < Z.of_nat n /\
  gd = nth (Z.to_nat (Z.of_nat w * 7 + Z.of_nat d - fw)) days 0.
Proof.
  unfold week_table. intros H1 H2. rewrite nth_error_map, nth_error_seq in H1.
  destruct (w <? week_count days fw)%nat; [|discriminate]. apply Some_inj in H1.
  rewrite <- H1, nth_error_map, nth_error_seq in H2. cbv beta in H2.
  destruct (d <? 7)%nat eqn:Hd; [|discriminate]. apply Some_inj in H2 as E. unfold cell_at, cell_index in E. destruct (_ || _) eqn:Hr; [discriminate|].
  injection E as <- _ _ _ _. apply Nat.ltb_lt in Hd.
  apply orb_false_iff in Hr as [Ha Hb]. apply Z.ltb_ge in Ha. apply Z.leb_gt in Hb.
  split; [lia | split; [lia | done]].
Qed.

End Layout.

(** ** The card's table, under the calendar's laws *)

Section CardTable.
Context `{TimeZone} `{HebrewCalendar} `{!HebrewCalendarLaws}.

Lemma card_view_body st now :
  body (card_view st now) =
  week_table st now (buildHebMonthDays (findHebMonthStart (viewAnchor st)))
             (getDay (findHebMonthStart (viewAnchor st))).
Proof. reflexivity. Qed.

Lemma getDay_midnight n : getDay (local_midnight n) = (n + 4) mod 7.
Proof. unfold getDay. by rewrite local_day_midnight. Qed.

Lemma month_days_nth s i :
  0 <= i < month_len s -> nth (Z.to_nat i) (map local_midnight (month_days s)) 0 = local_midnight (s + i).
Proof.
  intros Hi. apply nth_error_nth. rewrite nth_error_map. unfold month_days.
  rewrite zrange_nth by lia. simpl. do 2 f_equal. lia.
Qed.

(** C10.  The week table of the card: the header row is the seven
    weekday letters; every row has seven cells; the number of rows is
    the least that holds the leading empty cells and the month's days
    ([Math.ceil]); read row by row, the day cells show exactly the
    month's grid days, each once and in order; and the day cell in
    column [d] of row [w] is a day whose [getDay] is [d], the column of
    its weekday letter, and whose Hebrew day number is
    [w * 7 + d - firstWeekday + 1]. *)
Theorem week_table_layout st now :
  head_row (card_view st now) = headers /\
  Forall (fun r => length r = 7%nat) (body (card_view st now)) /\
  Z.of_nat (length (buildHebMonthDays (findHebMonthStart (viewAnchor st)))) +
    getDay (findHebMonthStart (viewAnchor st)) <= 7 * Z.of_nat (length (body (card_view st now))) <
  Z.of_nat (length (buildHebMonthDays (findHebMonthStart (viewAnchor st)))) +
    getDay (findHebMonthStart (viewAnchor st)) + 7 /\
  cell_dates (concat (body (card_view st now))) = buildHebMonthDays (findHebMonthStart (viewAnchor st)) /\
  (forall w d row gd lbl tdy dot sm,
     nth_error (body (card_view st now)) w = Some row ->
     nth_error row d = Some (DayCell gd lbl tdy dot sm) ->
     getDay gd = Z.of_nat d /\
     day (getHebParts gd) = Z.of_nat w * 7 + Z.of_nat d - getDay (findHebMonthStart (viewAnchor st)) + 1).
Proof.
  rewrite card_view_body, buildHebMonthDays_anchor, findHebMonthStart_midnight, getDay_midnight.
  set (s := month_start (local_day (viewAnchor st))).
  pose proof (Z.mod_pos_bound (s + 4) 7 ltac:(lia)) as Hfw.
  split; [reflexivity|]. split; [apply week_table_rows|]. split.
  { rewrite (proj1 (week_table_rows _ _ _ _)). apply week_count_bounds. lia. }
  split; [apply week_table_dates; lia|].
  intros w d row gd lbl tdy dot sm Hw Hd.
  destruct (week_table_cell _ _ _ _ _ _ _ _ _ _ _ _ Hw Hd) as (Hd7 & Hi & ->).
  unfold month_days in Hi. rewrite length_map, zrange_length in Hi.
  pose proof (month_len_range s).
  rewrite month_days_nth by lia. split.
  - rewrite getDay_midnight. zdiv.
  - rewrite getHebParts_midnight.
    rewrite (proj1 (heb_forward s (Z.of_nat w * 7 + Z.of_nat d - (s + 4) mod 7) (month_start_day _) ltac:(lia))).
    lia.
Qed.

End CardTable.

(** ** From a cell click to the rendered event *)

Section Compose.
Context `{TimeZone} `{HebrewCalendar}.

Lemma toISO_nonempty t : String.eqb (toISO t) "" = false.
Proof. apply String.eqb_neq. intros E. pose proof (toISO_length t) as L. rewrite E in L. discriminate. Qed.

Lemma card_view_items st now : items (card_view st now) = map event_item (currentMonthEvents st).
Proof. reflexivity. Qed.

(** C11.  Composition of the render with the handlers: a click on the
    cell of [gd], a non-blank title typed, then the add button, append
    one event keyed by the cell's own ISO key; that event is the last of
    the cell's events, so its title ends the cell's dot text, and when
    [gd] is a day of the shown month it is an item of the month's event
    list, whatever the time zone. *)
Theorem click_add_shows_in_cell st now gd tt :
  trim tt <> ""%string ->
  events (cal_step (cal_step (cal_step st (ClickDay gd)) (SetTitle tt)) AddEvent) =
    events st ++ [mkEvent (toISO gd) (newEventTime st) (trim tt)] /\
  match day_cell (cal_step (cal_step (cal_step st (ClickDay gd)) (SetTitle tt)) AddEvent) now gd with
  | DayCell _ _ _ dot _ =>
      dot = Some (join_titles (dayEvents st gd ++ [mkEvent (toISO gd) (newEventTime st) (trim tt)]))
  | EmptyCell => False
  end /\
  (In gd (buildHebMonthDays (findHebMonthStart (viewAnchor st))) ->
   In (event_item (mkEvent (toISO gd) (newEventTime st) (trim tt)))
      (items (card_view (cal_step (cal_step (cal_step st (ClickDay gd)) (SetTitle tt)) AddEvent) now))).
Proof.
  intros Ht. set (e := mkEvent (toISO gd) (newEventTime st) (trim tt)).
  assert (Hs : cal_step (cal_step (cal_step st (ClickDay gd)) (SetTitle tt)) AddEvent =
               mkCal (viewAnchor st) (events st ++ [e]) (toISO gd) (newEventTime st) "").
  { cbn [cal_step]. unfold addEventHandler, set_form.
    cbn [newEventDate newEventTime newEventTitle viewAnchor events].
    rewrite toISO_nonempty. by replace (String.eqb (trim tt) "") with false by (symmetry; by apply String.eqb_neq). }
  assert (Hd : dayEvents (mkCal (viewAnchor st) (events st ++ [e]) (toISO gd) (newEventTime st) "") gd =
               dayEvents st gd ++ [e]).
  { unfold dayEvents. cbn [events]. rewrite filter_app. simpl. by rewrite String.eqb_refl. }
  rewrite Hs. split; [done|]. split.
  - unfold day_cell. rewrite Hd, length_app. simpl. by replace (0 <? _)%nat with true by (symmetry; apply Nat.ltb_lt; lia).
  - intros Hg. rewrite card_view_items. apply (in_map event_item), currentMonthEvents_In. split.
    + apply in_app_iff. right. by left.
    + unfold monthISO. cbn [viewAnchor]. by apply (in_map toISO).
Qed.

End Compose.

(** ** Clearing the events, as the card shows it *)

(** A cell without its event dot. *)
Definition drop_dot (c : Cell) : Cell :=
  match c with
  | DayCell gd lbl tdy _ sm => DayCell gd lbl tdy None sm
  | EmptyCell => EmptyCell
  end.

Section Clear.
Context `{TimeZone} `{HebrewCalendar}.

Lemma week_table_no_events st st' now days fw :
  events st' = [] ->
  week_table st' now days fw = map (map drop_dot) (week_table st now days fw).
Proof.
  intros He. unfold week_table. rewrite map_map. apply map_ext. intros w.
  rewrite map_map. apply map_ext. intros d. unfold cell_at, cell_index.
  destruct (_ || _); [done|]. unfold day_cell, dayEvents. by rewrite He.
Qed.

(** C25.  A confirmed "clear all" re-renders the same card (header,
    today line, weekday row, the same cells with their labels, today mark
    and dates) with no event dot in any cell and an empty event list; an
    unconfirmed one changes nothing. *)
Theorem clear_all_empties_view st now :
  card_view (cal_step st (ClearAll true)) now =
    mkCardView (header_text (card_view st now)) (today_text (card_view st now)) headers
               (map (map drop_dot) (body (card_view st now))) [] /\
  cal_step st (ClearAll false) = st.
Proof.
  split; [|reflexivity]. unfold card_view. cbn [cal_step clearAllEvents set_events viewAnchor].
  f_equal; first [apply week_table_no_events; reflexivity | reflexivity].
Qed.

End Clear.

(** ** Witnesses, in Israel on the regular-year oracle *)

#[local] Existing Instance jerusalem_winter.

(** The second week of the scenario's month (2025-03-09 .. 03-15): the
    cell dated 11.3 carries the dot of the events of 2025-03-10 and the
    today mark of a [now] on 2025-03-10, the key shift of C27 and C28. *)
Definition sample_row1 : list Cell :=
  [DayCell 1741471200000 [L Het] false None (9, 3);
   DayCell 1741557600000 [L Tet] false None (10, 3);
   DayCell 1741644000000 [L Yod] true (Some "Meeting, Birthday"%string) (11, 3);
   DayCell 1741730400000 [L Yod; quote; L Alef] false None (12, 3);
   DayCell 1741816800000 [L Yod; quote; L Bet] false None (13, 3);
   DayCell 1741903200000 [L Yod; quote; L Gimel] false None (14, 3);
   DayCell 1741989600000 [L Yod; quote; L Dalet] false None (15, 3)].

Lemma week_table_layout_witness :
  length (body (card_view scenario_state sample_anchor)) = 5%nat /\
  nth_error (body (card_view scenario_state sample_anchor)) 1 = Some sample_row1 /\
  getDay 1741644000000 = 2 /\ day (getHebParts 1741644000000) = 10 /\
  cell_dates (concat (body (card_view scenario_state sample_anchor))) =
    buildHebMonthDays (findHebMonthStart (viewAnchor scenario_state)).
Proof.
  assert (Hw : nth_error (body (card_view scenario_state sample_anchor)) 1 = Some sample_row1)
    by (vm_compute; reflexivity).
  destruct (week_table_layout scenario_state sample_anchor) as (_ & _ & _ & Hc & Hcell).
  destruct (Hcell 1%nat 2%nat sample_row1 1741644000000 [L Yod] true
              (Some "Meeting, Birthday"%string) (11, 3) Hw eq_refl) as [Hg Hd].
  split; [vm_compute; reflexivity|]. split; [exact Hw|]. split; [exact Hg|].
  split; [rewrite Hd; vm_compute; reflexivity | exact Hc].
Defined.

Lemma click_add_shows_in_cell_witness :
  trim " Lunch " <> ""%string /\
  In (event_item (mkEvent "2025-03-11" "" "Lunch"))
     (items (card_view (cal_step (cal_step (cal_step scenario_state (ClickDay (local_midnight 20159)))
                                           (SetTitle " Lunch ")) AddEvent) sample_anchor)).
Proof.
  assert (Ht : trim " Lunch " <> ""%string) by (intros E; vm_compute in E; discriminate E).
  assert (Hg : In (local_midnight 20159) (buildHebMonthDays (findHebMonthStart (viewAnchor scenario_state))))
    by (vm_compute; repeat (first [left; reflexivity | right])).
  split; [exact Ht|].
  exact (proj2 (proj2 (click_add_shows_in_cell scenario_state sample_anchor (local_midnight 20159) " Lunch " Ht)) Hg).
Defined.
