(* ===== verification/Dashboard.v ===== *)
(** * Dashboard: web search, search history and shortcuts

    The parts of the home page around the calendar that keep lists in
    browser storage, and the panels that share those lists:
    - [HomePanel] (src/components/HomePanel.tsx:335-370): the search box
      with its history ([handleSearch]), the new-shortcut form
      ([handleAddShortcut]) and the export button ([handleExport]);
    - [ShortcutGrid] (HomePanel.tsx:16-19): the default shortcuts of
      src/constants.ts followed by the user's;
    - [AdvancedShortcuts] (src/components/OtherPanels.tsx:239-244): delete
      a user shortcut by its index;
    - [HistoryPanel] (OtherPanels.tsx:414-429): search again, delete one
      entry, clear all.

    [useLocalStorage] (src/hooks/useLocalStorage, not in the repository)
    is modelled as one shared store: the components that read the same
    key ([dashboard_search_history_v1], [dashboard_shortcuts_v3]) see
    the same list, and a write is visible at once.  The handlers are one
    step function [home_step] that returns the new state and the effects
    the browser performs (navigation, alerts, a download).

    Strings are Stdlib strings read as UTF-8 bytes, which is how
    [encodeURIComponent] sees them: it percent-encodes the UTF-8 bytes of
    the string.  The search URL is read back the way the browser's URL
    parser and [URLSearchParams] read it, to show that the [q] parameter
    Google receives is the query. *)

From S2P Require Import Prelude.

(** ** [encodeURIComponent] and [decodeURIComponent], on UTF-8 bytes *)

Definition hex_digit (n : nat) : ascii :=
  ascii_of_nat (if (n <? 10)%nat then 48 + n else 55 + n).

Definition hex_val (c : ascii) : option nat :=
  let n := nat_of_ascii c in
  if (48 <=? n)%nat && (n <=? 57)%nat then Some (n - 48)%nat
  else if (65 <=? n)%nat && (n <=? 70)%nat then Some (n - 55)%nat
  else if (97 <=? n)%nat && (n <=? 102)%nat then Some (n - 87)%nat
  else None.

(** The characters [encodeURIComponent] leaves alone:
    [A-Z a-z 0-9 - _ . ! ~ * ' ( )]. *)
Definition is_unreserved (c : ascii) : bool :=
  let n := nat_of_ascii c in
  ((48 <=? n)%nat && (n <=? 57)%nat) || ((65 <=? n)%nat && (n <=? 90)%nat) ||
  ((97 <=? n)%nat && (n <=? 122)%nat) ||
  existsb (Ascii.eqb c) ["-"; "_"; "."; "!"; "~"; "*"; "039"; "("; ")"]%char.

Fixpoint encodeURIComponent (s : string) : string :=
  match s with
  | EmptyString => EmptyString
  | String c s' =>
      if is_unreserved c then String c (encodeURIComponent s')
      else String "%" (String (hex_digit (nat_of_ascii c / 16))
                (String (hex_digit (nat_of_ascii c mod 16)) (encodeURIComponent s')))
  end.

(** [None] is the [URIError] of a malformed escape. *)
Fixpoint decodeURIComponent (s : string) : option string :=
  match s with
  | EmptyString => Some EmptyString
  | String "%" (String h (String l s')) =>
      match hex_val h, hex_val l, decodeURIComponent s' with
      | Some a, Some b, Some r => Some (String (ascii_of_nat (16 * a + b)) r)
      | _, _, _ => None
      end
  | String "%" _ => None
  | String c s' => option_map (String c) (decodeURIComponent s')
  end.

(** ** How the browser reads the query of the URL it navigates to

    The URL standard's parser cuts the fragment at the first [#] and the
    query at the first [?]; [URLSearchParams.get] splits the query at
    every [&], each pair at its first [=], reads [+] as a space and
    decodes the percent escapes.  These are the receiving side of the
    navigation, not code of the repository; a malformed escape is
    [None] here, stricter than the standard, which keeps it as text. *)

Fixpoint split_at (c : ascii) (s : string) : string * option string :=
  match s with
  | EmptyString => (EmptyString, None)
  | String x s' =>
      if Ascii.eqb x c then (EmptyString, Some s')
      else let '(a, r) := split_at c s' in (String x a, r)
  end.

Fixpoint split_on (c : ascii) (s : string) : list string :=
  match s with
  | EmptyString => [EmptyString]
  | String x s' =>
      if Ascii.eqb x c then EmptyString :: split_on c s'
      else match split_on c s' with
           | w :: ws => String x w :: ws
           | [] => [String x EmptyString]
           end
  end.

Fixpoint plus_to_space (s : string) : string :=
  match s with
  | EmptyString => EmptyString
  | String x s' => String (if Ascii.eqb x "+" then " "%char else x) (plus_to_space s')
  end.

Definition url_path (u : string) : string := fst (split_at "?" (fst (split_at "#" u))).

Definition url_query (u : string) : string :=
  match snd (split_at "?" (fst (split_at "#" u))) with Some q => q | None => EmptyString end.

Fixpoint param_lookup (name : string) (pairs : list string) : option string :=
  match pairs with
  | [] => None
  | p :: ps =>
      let '(n, v) := split_at "=" p in
      if String.eqb n name
      then decodeURIComponent (plus_to_space (match v with Some v => v | None => EmptyString end))
      else param_lookup name ps
  end.

(** [new URL(u).searchParams.get(name)] *)
Definition search_param (name u : string) : option string :=
  param_lookup name (split_on "&" (url_query u)).

(** ** Shortcuts: [interface Shortcut] (src/types.ts:2-5) *)

Module Shortcuts.

Record Shortcut := mkShortcut { title : string; url : string }.

#[export] Instance shortcut_eq_dec : EqDecision Shortcut.
Proof. intros [] []. unfold Decision. decide equality; apply string_dec. Defined.

(** [DEFAULT_SHORTCUTS] of src/constants.ts. *)
Definition DEFAULT_SHORTCUTS : list Shortcut := [
  mkShortcut "Kore - חדשות" "https://www.kore.co.il/";
  mkShortcut "Amazon" "https://www.amazon.com";
  mkShortcut "eBay" "https://www.ebay.com";
  mkShortcut "Zap" "https://www.zap.co.il/";
  mkShortcut "צ'אט GPT" "https://chat.openai.com";
  mkShortcut "Gmail" "https://mail.google.com";
  mkShortcut "Outlook" "https://outlook.live.com";
  mkShortcut "Google Drive" "https://drive.google.com";
  mkShortcut "Dropbox" "https://www.dropbox.com";
  mkShortcut "YouTube" "https://www.youtube.com";
  mkShortcut "מזג אוויר (IMS)" "https://www.ims.gov.il/"].

(** [allShortcuts = [...DEFAULT_SHORTCUTS, ...shortcuts]] *)
Definition allShortcuts (user : list Shortcut) : list Shortcut := DEFAULT_SHORTCUTS ++ user.

End Shortcuts.
Import Shortcuts.

(** ** The state and the handlers *)

Record HomeState := mkHome {
  searchTerm : string;
  searchHistory : list string;        (** [dashboard_search_history_v1] *)
  newShortcutTitle : string;
  newShortcutUrl : string;
  shortcuts : list Shortcut           (** [dashboard_shortcuts_v3] *)
}.

Inductive Effect :=
| Navigate (url : string)                   (** [window.location.href = url] *)
| Alert (msg : string)                      (** [alert(msg)] *)
| Download (file : string) (data : list Shortcut).
    (** the anchor click of [handleExport]; the data URL is the JSON text of [data] *)

Inductive HomeAction :=
| SetSearchTerm (s : string)
| Search                                    (** the search button or Enter *)
| SetShortcutTitle (s : string)
| SetShortcutUrl (s : string)
| AddShortcut
| Export
| DeleteShortcut (i : nat)                  (** [AdvancedShortcuts] *)
| HistorySearch (q : string)                (** [HistoryPanel] *)
| DeleteHistoryItem (q : string)
| ClearHistory (confirmed : bool).

Definition search_url (q : string) : string :=
  "https://www.google.com/search?q=" ++ encodeURIComponent q.

Definition set_history (h : list string) (st : HomeState) : HomeState :=
  mkHome (searchTerm st) h (newShortcutTitle st) (newShortcutUrl st) (shortcuts st).

Definition set_shortcuts (l : list Shortcut) (st : HomeState) : HomeState :=
  mkHome (searchTerm st) (searchHistory st) (newShortcutTitle st) (newShortcutUrl st) l.

(** [setSearchHistory(prev => [q, ...prev.slice(0, 49)])] *)
Definition push_history (q : string) (prev : list string) : list string :=
  q :: firstn 49 prev.

(** [handleSearch] *)
Definition handleSearch (st : HomeState) : HomeState * list Effect :=
  let q := trim (searchTerm st) in
  if String.eqb q "" then (st, [])
  else
    let st' := if existsb (String.eqb q) (searchHistory st) then st
               else set_history (push_history q (searchHistory st)) st in
    (st', [Navigate (search_url q)]).

Definition alert_enter_url : string := "הזן URL".
Definition alert_nothing_to_export : string := "אין קיצורים לייצוא".

(** [handleAddShortcut] *)
Definition handleAddShortcut (st : HomeState) : HomeState * list Effect :=
  let u := trim (newShortcutUrl st) in
  if String.eqb u "" then (st, [Alert alert_enter_url])
  else
    let t := js_or (trim (newShortcutTitle st)) u in
    (mkHome (searchTerm st) (searchHistory st) "" "" (shortcuts st ++ [mkShortcut t u]), []).

(** [handleExport] *)
Definition handleExport (st : HomeState) : list Effect :=
  if (length (shortcuts st) =? 0)%nat then [Alert alert_nothing_to_export]
  else [Download "shortcuts.json" (shortcuts st)].

(** [deleteShortcut(index)] of [AdvancedShortcuts] *)
Definition deleteShortcut (i : nat) (l : list Shortcut) : list Shortcut :=
  filteri (fun j _ => negb (j =? i)%nat) l.

(** [deleteHistoryItem] and [clearAllHistory] of [HistoryPanel] *)
Definition deleteHistoryItem (q : string) (h : list string) : list string :=
  List.filter (fun item => negb (String.eqb item q)) h.

Definition clearAllHistory (confirmed : bool) (h : list string) : list string :=
  if confirmed then [] else h.

Definition home_step (st : HomeState) (a : HomeAction) : HomeState * list Effect :=
  match a with
  | SetSearchTerm s =>
      (mkHome s (searchHistory st) (newShortcutTitle st) (newShortcutUrl st) (shortcuts st), [])
  | Search => handleSearch st
  | SetShortcutTitle s =>
      (mkHome (searchTerm st) (searchHistory st) s (newShortcutUrl st) (shortcuts st), [])
  | SetShortcutUrl s =>
      (mkHome (searchTerm st) (searchHistory st) (newShortcutTitle st) s (shortcuts st), [])
  | AddShortcut => handleAddShortcut st
  | Export => (st, handleExport st)
  | DeleteShortcut i => (set_shortcuts (deleteShortcut i (shortcuts st)) st, [])
  | HistorySearch q => (st, [Navigate (search_url q)])
  | DeleteHistoryItem q => (set_history (deleteHistoryItem q (searchHistory st)) st, [])
  | ClearHistory c => (set_history (clearAllHistory c (searchHistory st)) st, [])
  end.

(** A run of actions from a state: the final state and the effects in order. *)
Fixpoint home_run (st : HomeState) (acts : list HomeAction) : HomeState * list Effect :=
  match acts with
  | [] => (st, [])
  | a :: acts' =>
      let '(st1, e1) := home_step st a in
      let '(st2, e2) := home_run st1 acts' in (st2, e1 ++ e2)
  end.

(** ** Percent-encoding round trip *)

Lemma hex_val_digit n : (n < 16)%nat -> hex_val (hex_digit n) = Some n.
Proof. intros Hn. do 16 (destruct n as [|n]; [reflexivity|]). lia. Qed.

Lemma decode_plain c s :
  c <> "%"%char -> decodeURIComponent (String c s) = option_map (String c) (decodeURIComponent s).
Proof.
  intros Hc. destruct c as [[] [] [] [] [] [] [] []]; try reflexivity. by destruct Hc.
Qed.

Lemma unreserved_not_percent c : is_unreserved c = true -> c <> "%"%char.
Proof. intros Hu ->. discriminate. Qed.

Lemma ascii_hex_split c :
  ascii_of_nat (16 * (nat_of_ascii c / 16) + nat_of_ascii c mod 16) = c.
Proof.
  rewrite <- Nat.div_mod_eq. apply ascii_nat_embedding.
Qed.

Lemma decode_encode s : decodeURIComponent (encodeURIComponent s) = Some s.
Proof.
  induction s as [|c s IH]; [done|]. cbn [encodeURIComponent].
  destruct (is_unreserved c) eqn:Hu.
  - rewrite decode_plain by (by apply unreserved_not_percent). by rewrite IH.
  - pose proof (nat_ascii_bounded c). cbn [decodeURIComponent].
    rewrite !hex_val_digit by (apply Nat.Div0.div_lt_upper_bound || apply Nat.mod_upper_bound; lia).
    by rewrite IH, ascii_hex_split.
Qed.

(** ** The query parameter of the search URL *)

(** The characters of an encoded component: unreserved ones and [%]. *)
Definition url_safe (c : ascii) : bool := is_unreserved c || Ascii.eqb c "%".

Definition str_forall (p : ascii -> bool) (s : string) : bool := forallb p (list_ascii_of_string s).

Lemma hex_digit_unreserved n : (n < 16)%nat -> is_unreserved (hex_digit n) = true.
Proof. intros Hn. do 16 (destruct n as [|n]; [reflexivity|]). lia. Qed.

Lemma encode_safe s : str_forall url_safe (encodeURIComponent s) = true.
Proof.
  unfold str_forall. induction s as [|c s IH]; [done|]. cbn [encodeURIComponent].
  pose proof (nat_ascii_bounded c).
  destruct (is_unreserved c) eqn:Hu; cbn [list_ascii_of_string forallb]; rewrite IH, andb_true_r.
  - unfold url_safe. by rewrite Hu.
  - unfold url_safe. rewrite !hex_digit_unreserved; [done | |].
    + apply Nat.mod_upper_bound. lia.
    + apply Nat.Div0.div_lt_upper_bound. lia.
Qed.

Lemma eqb_unsafe x c : url_safe x = true -> url_safe c = false -> Ascii.eqb x c = false.
Proof. intros Hx Hc. apply Ascii.eqb_neq. intros ->. congruence. Qed.

Section Safe.
Variable c : ascii.
Hypothesis Hc : url_safe c = false.

Lemma split_at_safe s : str_forall url_safe s = true -> split_at c s = (s, None).
Proof.
  unfold str_forall. induction s as [|x s IH]; [done|].
  cbn. intros [Hx Hs]%andb_prop. by rewrite eqb_unsafe, IH.
Qed.

Lemma split_on_safe s : str_forall url_safe s = true -> split_on c s = [s].
Proof.
  unfold str_forall. induction s as [|x s IH]; [done|].
  cbn. intros [Hx Hs]%andb_prop. by rewrite eqb_unsafe, IH.
Qed.

End Safe.

Lemma plus_to_space_safe s : str_forall url_safe s = true -> plus_to_space s = s.
Proof.
  unfold str_forall. induction s as [|x s IH]; [done|].
  cbn. intros [Hx Hs]%andb_prop. rewrite eqb_unsafe, IH; done.
Qed.

(** A prefix without [c] is passed over by both splits. *)
Lemma split_at_app c p s :
  str_forall (fun x => negb (Ascii.eqb x c)) p = true ->
  split_at c (p ++ s) = ((p ++ fst (split_at c s))%string, snd (split_at c s)).
Proof.
  unfold str_forall. induction p as [|x p IH]; cbn; [by destruct (split_at c s)|].
  intros [Hx Hp]%andb_prop. apply negb_true_iff in Hx. by rewrite Hx, IH.
Qed.

Lemma split_on_app c p s w :
  str_forall (fun x => negb (Ascii.eqb x c)) p = true ->
  split_on c s = [w] -> split_on c (p ++ s) = [(p ++ w)%string].
Proof.
  unfold str_forall. induction p as [|x p IH]; cbn; [done|].
  intros [Hx Hp]%andb_prop Hs. apply negb_true_iff in Hx. by rewrite Hx, IH.
Qed.

(** The navigation target of a search: Google's search page, whose
    [q] parameter is the query, whatever characters it holds. *)
Lemma search_url_param q :
  url_path (search_url q) = "https://www.google.com/search"%string /\
  search_param "q" (search_url q) = Some q.
Proof.
  pose proof (encode_safe q) as Hs.
  unfold url_path, search_param, url_query, search_url.
  rewrite (split_at_app "#"), (split_at_safe "#") by done. cbn [fst snd].
  change ("https://www.google.com/search?q=" ++ encodeURIComponent q)%string
    with ("https://www.google.com/search" ++ String "?" ("q=" ++ encodeURIComponent q))%string.
  rewrite (split_at_app "?") by done. cbn [split_at Ascii.eqb Bool.eqb fst snd]. split; [reflexivity|].
  rewrite (split_on_app "&" "q=" _ (encodeURIComponent q)); [cbn | reflexivity | by apply split_on_safe].
  by rewrite plus_to_space_safe, decode_encode.
Qed.

(** ** The search history *)

(** What the history keeps: no entry twice, at most 50 entries. *)
Definition history_ok (h : list string) : Prop := NoDup h /\ (length h <= 50)%nat.

Lemma push_history_ok q h :
  history_ok h -> q ∉ h -> history_ok (push_history q h).
Proof.
  intros [Hnd Hlen] Hq. unfold push_history. split.
  - constructor.
    + intros Hin. apply Hq. by apply (subseteq_take 49).
    + apply (sublist_NoDup _ h); [done | apply sublist_take].
  - simpl. rewrite length_firstn. lia.
Qed.

Lemma list_filter_sublist {A} (p : A -> bool) (l : list A) : List.filter p l `sublist_of` l.
Proof.
  induction l as [|x l IH]; simpl; [done|].
  destruct (p x); [by apply sublist_skip | by apply sublist_cons].
Qed.

Lemma filter_history_ok p h : history_ok h -> history_ok (List.filter p h).
Proof.
  intros [Hnd Hlen]. split.
  - apply (sublist_NoDup _ h); [done | apply list_filter_sublist].
  - pose proof (List.filter_length_le p h). lia.
Qed.

Lemma existsb_string_In q h : existsb (String.eqb q) h = false -> q ∉ h.
Proof.
  intros Hex Hin%list_elem_of_In.
  enough (existsb (String.eqb q) h = true) by congruence.
  apply existsb_exists. exists q. split; [done | apply String.eqb_refl].
Qed.

Lemma handleSearch_history st :
  history_ok (searchHistory st) -> history_ok (searchHistory (handleSearch st).1).
Proof.
  intros Hok. unfold handleSearch. destruct (String.eqb _ "") ; [done|].
  destruct (existsb _ _) eqn:Hex; [done|].
  apply push_history_ok; [done | by apply existsb_string_In].
Qed.

Lemma clearAllHistory_ok c h : history_ok h -> history_ok (clearAllHistory c h).
Proof. intros Hok. destruct c; simpl; [split; [constructor | simpl; lia] | done]. Qed.

(** Deleting the user shortcut at index [i] of the personal panel
    removes the card at index [11 + i] of the home grid. *)
Lemma deleteShortcut_grid i l :
  allShortcuts (deleteShortcut i l) = delete (length DEFAULT_SHORTCUTS + i)%nat (allShortcuts l).
Proof.
  unfold deleteShortcut, allShortcuts. rewrite filteri_delete.
  generalize DEFAULT_SHORTCUTS. induction l0 as [|x d IH]; simpl; [done|]. by rewrite IH.
Qed.

(** C29.  Every handler of the home page and the history panel keeps the
    stored search history free of duplicates and at most 50 entries
    long: a search adds its query only when absent and keeps 49 of the
    older entries; delete and clear only remove entries. *)
Theorem home_step_history_ok st a :
  history_ok (searchHistory st) -> history_ok (searchHistory (home_step st a).1).
Proof.
  intros Hok. destruct a; simpl; try done.
  - by apply handleSearch_history.
  - unfold handleAddShortcut. by destruct (String.eqb _ "").
  - by apply filter_history_ok.
  - by apply clearAllHistory_ok.
Qed.

(** C30.  [handleSearch] does nothing when the trimmed search term is
    empty; otherwise the trimmed query is in the history afterwards, and
    the one effect is a navigation to Google's search page whose [q]
    parameter, as the browser reads it, is exactly that query: [&], [#],
    [=], [+] and non-ASCII text in the query are escaped and come back
    intact. *)
Theorem handleSearch_spec st :
  let q := trim (searchTerm st) in
  (q = ""%string /\ handleSearch st = (st, [])) \/
  (q <> ""%string /\ In q (searchHistory (handleSearch st).1) /\
   exists u, (handleSearch st).2 = [Navigate u] /\
             url_path u = "https://www.google.com/search"%string /\
             search_param "q" u = Some q).
Proof.
  simpl. unfold handleSearch. destruct (String.eqb_spec (trim (searchTerm st)) "") as [Hq|Hq].
  - left. by rewrite Hq.
  - right. split; [done|]. split.
    + destruct (existsb _ _) eqn:Hex; simpl; [|by left].
      apply existsb_exists in Hex as (x & Hx & ->%String.eqb_eq). done.
    + exists (search_url (trim (searchTerm st))). split; [done|]. apply search_url_param.
Qed.

(** C31.  [handleAddShortcut] alerts and changes nothing when the trimmed
    URL is empty; otherwise it appends one shortcut with the trimmed URL
    and the trimmed title, or the URL when the title is blank, so the
    new card is the last of the home grid, and it clears both fields. *)
Theorem handleAddShortcut_spec st :
  let u := trim (newShortcutUrl st) in
  (u = ""%string /\ handleAddShortcut st = (st, [Alert alert_enter_url])) \/
  (u <> ""%string /\ (handleAddShortcut st).2 = [] /\
   let st' := (handleAddShortcut st).1 in
   shortcuts st' = shortcuts st ++ [mkShortcut (if String.eqb (trim (newShortcutTitle st)) "" then u
                                               else trim (newShortcutTitle st)) u] /\
   (exists pre, allShortcuts (shortcuts st') = pre ++ [mkShortcut (js_or (trim (newShortcutTitle st)) u) u]) /\
   newShortcutTitle st' = ""%string /\ newShortcutUrl st' = ""%string /\ searchHistory st' = searchHistory st).
Proof.
  simpl. unfold handleAddShortcut. destruct (String.eqb_spec (trim (newShortcutUrl st)) "") as [Hu|Hu].
  - left. by rewrite Hu.
  - right. simpl. repeat split; try done.
    exists (allShortcuts (shortcuts st)). unfold allShortcuts. by rewrite app_assoc.
Qed.

(** ** Witnesses *)

#[local] Open Scope string_scope.

Definition sample_home : HomeState :=
  mkHome "  rocq prover " ["news"] "" " https://rocq-prover.org " [].

Lemma home_step_history_ok_witness :
  history_ok (searchHistory sample_home) /\
  (home_step sample_home Search).1 =
    mkHome "  rocq prover " ["rocq prover"; "news"] "" " https://rocq-prover.org " [] /\
  (home_step sample_home Search).2 = [Navigate "https://www.google.com/search?q=rocq%20prover"] /\
  history_ok (searchHistory (home_step sample_home Search).1).
Proof.
  assert (H0 : history_ok (searchHistory sample_home)).
  { split; [repeat constructor; by intros ?%list_elem_of_In | simpl; lia]. }
  split; [exact H0|]. split; [vm_compute; reflexivity|]. split; [vm_compute; reflexivity|].
  apply home_step_history_ok; exact H0.
Defined.
