(* ===== verification/Personal.v ===== *)
(** * Personal: notes, the to-do list and the important dates

    [Notes] and [TodoList] of the personal panel
    (src/components/OtherPanels.tsx:174-237) and the important-dates list
    of [DesignPanel] (OtherPanels.tsx:277-286).  Each stored list is a
    field of [PersonalState] (the storage keys [dashboard_notes_v3],
    [dashboard_todo_v3] and [dashboard_holidays_v1]); the form fields and
    the notes draft are component state.  [personal_step] runs one
    handler and returns the alerts it raises.

    The effect [useEffect(() => setTempNotes(notes), [notes])] runs after
    each change of the stored notes; the model runs it inside the save
    handler, the only handler that changes them. *)

From S2P Require Import Prelude.

(** [interface TodoItem] (src/types.ts:7-10) *)
Record TodoItem := mkTodo { txt : string; done : bool }.

(** [interface Holiday] (src/types.ts:18-21) *)
Record Holiday := mkHoliday { hdate : string; htitle : string }.

Record PersonalState := mkPersonal {
  notes : string;              (** [dashboard_notes_v3] *)
  tempNotes : string;
  todos : list TodoItem;       (** [dashboard_todo_v3] *)
  newTodo : string;
  holidays : list Holiday;     (** [dashboard_holidays_v1] *)
  newHolidayDate : string;
  newHolidayTitle : string
}.

Inductive PersonalAction :=
| EditNotes (s : string)           (** the notes textarea *)
| SaveNotes                        (** the save button *)
| ClearNotes (confirmed : bool)    (** the clear button and its confirm *)
| SetNewTodo (s : string)
| AddTodo
| ToggleTodo (i : nat)
| DeleteTodo (i : nat)
| ClearDone                        (** clear the ticked items *)
| ClearTodos (confirmed : bool)    (** clear all, after confirm *)
| SetHolidayDate (s : string)
| SetHolidayTitle (s : string)
| AddHoliday.

Definition alert_note_saved : string := "פתק נשמר".
Definition alert_pick_date_and_name : string := "בחר תאריך ושם".

(** [addTodo]: [None] is the early return on a blank item. *)
Definition addTodo (l : list TodoItem) (s : string) : option (list TodoItem) :=
  if String.eqb (trim s) "" then None else Some (l ++ [mkTodo (trim s) false]).

(** [toggleTodo(index)]: [prev.map((todo, i) => i === index ? {...todo, done: !todo.done} : todo)] *)
Definition toggleTodo (index : nat) (l : list TodoItem) : list TodoItem :=
  mapi (fun i todo => if (i =? index)%nat then mkTodo (txt todo) (negb (done todo)) else todo) l.

(** [deleteTodo(index)]: [prev.filter((_, i) => i !== index)] *)
Definition deleteTodo (index : nat) (l : list TodoItem) : list TodoItem :=
  filteri (fun i _ => negb (i =? index)%nat) l.

(** [p.filter(t => !t.done)] *)
Definition clearDone (l : list TodoItem) : list TodoItem :=
  List.filter (fun t => negb (done t)) l.

(** [addHoliday]: [None] is the alert branch. *)
Definition addHoliday (l : list Holiday) (d t : string) : option (list Holiday) :=
  if String.eqb d "" || String.eqb (trim t) "" then None
  else Some (l ++ [mkHoliday d (trim t)]).

Definition set_todos (l : list TodoItem) (st : PersonalState) : PersonalState :=
  mkPersonal (notes st) (tempNotes st) l (newTodo st) (holidays st)
             (newHolidayDate st) (newHolidayTitle st).

Definition personal_step (st : PersonalState) (a : PersonalAction) : PersonalState * list string :=
  match a with
  | EditNotes s =>
      (mkPersonal (notes st) s (todos st) (newTodo st) (holidays st)
                  (newHolidayDate st) (newHolidayTitle st), [])
  | SaveNotes =>
      (* [setNotes(tempNotes)], then the effect copies [notes] into the draft *)
      (mkPersonal (tempNotes st) (tempNotes st) (todos st) (newTodo st) (holidays st)
                  (newHolidayDate st) (newHolidayTitle st), [alert_note_saved])
  | ClearNotes c =>
      (if c then mkPersonal (notes st) "" (todos st) (newTodo st) (holidays st)
                            (newHolidayDate st) (newHolidayTitle st)
       else st, [])
  | SetNewTodo s =>
      (mkPersonal (notes st) (tempNotes st) (todos st) s (holidays st)
                  (newHolidayDate st) (newHolidayTitle st), [])
  | AddTodo =>
      match addTodo (todos st) (newTodo st) with
      | Some l => (mkPersonal (notes st) (tempNotes st) l "" (holidays st)
                              (newHolidayDate st) (newHolidayTitle st), [])
      | None => (st, [])
      end
  | ToggleTodo i => (set_todos (toggleTodo i (todos st)) st, [])
  | DeleteTodo i => (set_todos (deleteTodo i (todos st)) st, [])
  | ClearDone => (set_todos (clearDone (todos st)) st, [])
  | ClearTodos c => (if c then set_todos [] st else st, [])
  | SetHolidayDate s =>
      (mkPersonal (notes st) (tempNotes st) (todos st) (newTodo st) (holidays st)
                  s (newHolidayTitle st), [])
  | SetHolidayTitle s =>
      (mkPersonal (notes st) (tempNotes st) (todos st) (newTodo st) (holidays st)
                  (newHolidayDate st) s, [])
  | AddHoliday =>
      match addHoliday (holidays st) (newHolidayDate st) (newHolidayTitle st) with
      | Some l => (mkPersonal (notes st) (tempNotes st) (todos st) (newTodo st) l "" "", [])
      | None => (st, [alert_pick_date_and_name])
      end
  end.

Fixpoint personal_run (st : PersonalState) (acts : list PersonalAction) : PersonalState :=
  match acts with
  | [] => st
  | a :: acts' => personal_run (personal_step st a).1 acts'
  end.

(** ** The stored lists stay clean *)

(** A stored item is its own trim and not empty. *)
Definition clean (s : string) : Prop := trim s = s /\ s <> ""%string.

Definition personal_ok (st : PersonalState) : Prop :=
  Forall (fun t => clean (txt t)) (todos st) /\
  Forall (fun h => hdate h <> ""%string /\ clean (htitle h)) (holidays st).

Lemma clean_trim s : String.eqb (trim s) "" = false -> clean (trim s).
Proof. intros E. split; [apply trim_idem | by apply String.eqb_neq]. Qed.

Lemma Forall_mapi_from {A} (P : A -> Prop) (f : nat -> A -> A) i l :
  (forall j x, P x -> P (f j x)) -> Forall P l -> Forall P (mapi_from f i l).
Proof.
  intros Hf Hl. revert i. induction Hl; intros i; simpl; constructor; auto.
Qed.

Lemma Forall_filteri_from {A} (P : A -> Prop) (p : nat -> A -> bool) i l :
  Forall P l -> Forall P (filteri_from p i l).
Proof.
  intros Hl. revert i. induction Hl; intros i; simpl; [constructor|].
  destruct (p i x); auto.
Qed.

Lemma addTodo_ok l s l' :
  Forall (fun t => clean (txt t)) l -> addTodo l s = Some l' -> Forall (fun t => clean (txt t)) l'.
Proof.
  unfold addTodo. destruct (String.eqb (trim s) "") eqn:E; [discriminate|].
  intros Hl [= <-]. apply Forall_app. split; [done|]. constructor; [by apply clean_trim | constructor].
Qed.

Lemma addHoliday_ok l d t l' :
  Forall (fun h => hdate h <> ""%string /\ clean (htitle h)) l -> addHoliday l d t = Some l' ->
  Forall (fun h => hdate h <> ""%string /\ clean (htitle h)) l'.
Proof.
  unfold addHoliday. destruct (String.eqb_spec d "") as [|Hd]; [discriminate|].
  destruct (String.eqb (trim t) "") eqn:E; [discriminate|].
  intros Hl [= <-]. apply Forall_app. split; [done|].
  constructor; [split; [done | by apply clean_trim] | constructor].
Qed.

(** C32.  Every handler of the notes, to-do and important-dates cards
    keeps the stored lists clean: each to-do text, and each date's title,
    is trimmed and non-empty, and each date is non-empty.  Adding trims
    and rejects blanks; toggling keeps the texts; deleting and clearing
    only remove items. *)
Theorem personal_step_ok st a :
  personal_ok st -> personal_ok (personal_step st a).1.
Proof.
  intros [Ht Hh]. destruct a; simpl;
    try destruct confirmed; try destruct (addTodo _ _) eqn:E;
    try destruct (addHoliday _ _ _) eqn:E; split; simpl; try done;
    first [ by eapply addTodo_ok | by eapply addHoliday_ok | by apply Forall_filteri_from
          | constructor | idtac ].
  - apply Forall_mapi_from; [|done]. intros j x Hx. by destruct (j =? i)%nat.
  - apply Forall_forall. intros x Hx%filter_In.
    eapply Forall_forall in Ht; [exact Ht | tauto].
Qed.

(** ** The index handlers *)

Definition flip_done (t : TodoItem) : TodoItem := mkTodo (txt t) (negb (done t)).

(** C33.  The index handlers of the to-do list are stdpp's list updates:
    [toggleTodo i] is [alter] of index [i] (only item [i] flips, the
    length is kept, an index past the end changes nothing) and
    [deleteTodo i] is [delete] of index [i] (one item fewer when [i] is
    in range). *)
Theorem todo_index_handlers i l :
  toggleTodo i l = alter flip_done i l /\
  length (toggleTodo i l) = length l /\
  toggleTodo i l !! i = flip_done <$> l !! i /\
  (forall j, j <> i -> toggleTodo i l !! j = l !! j) /\
  deleteTodo i l = delete i l /\
  ((i < length l)%nat -> length (deleteTodo i l) = (length l - 1)%nat).
Proof.
  assert (Ht : toggleTodo i l = alter flip_done i l) by apply mapi_alter.
  assert (Hd : deleteTodo i l = delete i l) by apply filteri_delete.
  rewrite Ht, Hd. repeat split.
  - apply length_alter.
  - apply list_lookup_alter_eq.
  - intros j Hj. apply list_lookup_alter_ne. congruence.
  - intros Hi. rewrite length_delete; [lia|]. by apply lookup_lt_is_Some_2.
Qed.

(** ** Witnesses *)

#[local] Open Scope string_scope.

Definition sample_todos : list TodoItem :=
  [mkTodo "call mom" false; mkTodo "pay rent" true; mkTodo "buy bread" false].

Definition sample_personal : PersonalState :=
  mkPersonal "" "" sample_todos "  buy milk " [] "2025-04-13" " Pesach ".

Lemma personal_step_ok_witness :
  personal_ok sample_personal /\
  todos (personal_step sample_personal AddTodo).1 = app sample_todos [mkTodo "buy milk" false] /\
  personal_ok (personal_step sample_personal AddTodo).1.
Proof.
  assert (H0 : personal_ok sample_personal).
  { split; repeat constructor; first [vm_compute; reflexivity | discriminate]. }
  split; [exact H0|]. split; [vm_compute; reflexivity|].
  apply personal_step_ok; exact H0.
Defined.

Lemma todo_index_handlers_witness :
  toggleTodo 1 sample_todos =
    [mkTodo "call mom" false; mkTodo "pay rent" false; mkTodo "buy bread" false] /\
  deleteTodo 1 sample_todos = [mkTodo "call mom" false; mkTodo "buy bread" false] /\
  (1 < length sample_todos)%nat /\
  length (deleteTodo 1 sample_todos) = (length sample_todos - 1)%nat.
Proof.
  split; [vm_compute; reflexivity|]. split; [vm_compute; reflexivity|].
  assert (Hi : (1 < length sample_todos)%nat) by (simpl; lia).
  split; [exact Hi|]. apply (todo_index_handlers 1 sample_todos); exact Hi.
Defined.
