(* ===== verification/Weather.v ===== *)
(** * Weather: the weather card of the home page

    [Weather] of src/components/HomePanel.tsx (lines 211-332): the
    weather-code table [getWeatherInfo] (217-226), the formatting of the
    forecast API answer (247-259), the fetch with its error paths
    (228-275), the refresh rule of the effect (277-284) and the choice of
    what the card shows (286-303).

    The state is the two stored values ([dashboard_weather_data_v1],
    [dashboard_weather_fetch_v1]) and the two component flags, plus the
    number of geolocation requests still waiting for their callback.
    The network is an input: a completed request brings a
    [FetchOutcome] (location denied, or both responses with their [ok]
    flags and bodies).  The JSON bodies are taken to have the fields the
    code reads; a missing field, a TypeError in the code, is not
    modelled.  Temperatures are rationals ([Q]); a missing entry of a
    daily array is [undefined], and [Math.round(undefined)] is NaN,
    modelled as [None].  The weekday label of a forecast date
    ([toLocaleDateString] with [weekday: short]) is a parameter.

    The effect runs at mount and again whenever one of its dependencies
    ([weatherData], [lastFetch]) changes; the model runs it after each
    completion that changed them, at the completion's time. *)

From S2P Require Import Prelude.
From Stdlib Require Import QArith Qround Lqa.
#[local] Open Scope Z_scope.

Record WeatherInfo := mkInfo { icon : string; description : string }.

Definition info_clear := mkInfo "☀️" "שמיים בהירים".
Definition info_partly := mkInfo "🌤️" "מעונן חלקית".
Definition info_fog := mkInfo "🌫️" "ערפל".
Definition info_drizzle := mkInfo "🌧️" "טפטוף".
Definition info_rain := mkInfo "🌧️" "גשם".
Definition info_showers := mkInfo "🌦️" "ממטרים".
Definition info_storm := mkInfo "⛈️" "סופת רעמים".
Definition info_unknown := mkInfo "🌍" "לא ידוע".

(** [getWeatherInfo(code)] on an integer code; [None] is [undefined],
    for which every comparison is false. *)
Definition getWeatherInfo (code : option Z) : WeatherInfo :=
  match code with
  | None => info_unknown
  | Some c =>
      if c =? 0 then info_clear
      else if (1 <=? c) && (c <=? 3) then info_partly
      else if (c =? 45) || (c =? 48) then info_fog
      else if (51 <=? c) && (c <=? 57) then info_drizzle
      else if (61 <=? c) && (c <=? 67) then info_rain
      else if (80 <=? c) && (c <=? 82) then info_showers
      else if (95 <=? c) && (c <=? 99) then info_storm
      else info_unknown
  end.

(** [Math.round]: the nearest integer, halves upward. *)
Definition js_round (x : Q) : Z := Qfloor (x + (1 # 2))%Q.

Definition round_opt (x : option Q) : option Z := option_map js_round x.

(** ** The API answers *)

Record Address := mkAddress { city : option string; town : option string; village : option string }.

Record ApiData := mkApi {
  current_temperature : Q;
  current_code : Z;
  daily_time : list string;
  daily_max : list Q;
  daily_min : list Q;
  daily_code : list Z
}.

Inductive FetchOutcome :=
| Denied                                            (** the geolocation error callback *)
| Fetched (geoOk : bool) (address : option Address) (weatherOk : bool) (api : ApiData).

Record Forecast := mkForecast {
  fdate : string; maxTemp : option Z; minTemp : option Z; finfo : WeatherInfo
}.

Record Formatted := mkFormatted {
  fcity : string; temperature : Z; current_info : WeatherInfo; forecast : list Forecast
}.

Definition msg_no_city : string := "לא ניתן היה לקבל את שם העיר.".
Definition msg_no_weather : string := "לא ניתן היה לקבל נתוני מזג אוויר.".
Definition msg_denied : string := "נדחתה הרשאת מיקום. לא ניתן להציג מזג אוויר.".
Definition default_city : string := "מיקום נוכחי".

(** [a || b] on values that may be [undefined] or empty. *)
Definition or_opt (a : option string) (d : string) : string :=
  match a with Some s => js_or s d | None => d end.

(** [geoData.address?.city || geoData.address?.town || geoData.address?.village || 'מיקום נוכחי'] *)
Definition city_of (a : option Address) : string :=
  match a with
  | None => default_city
  | Some ad => or_opt (city ad) (or_opt (town ad) (or_opt (village ad) default_city))
  end.

Section Format.
Variable weekday_short : string -> string.

(** [weatherApiData.daily.time.slice(1).map((date, index) => ...)], reading
    the other daily arrays at [index + 1]. *)
Definition forecast_of (api : ApiData) : list Forecast :=
  mapi (fun index d =>
          mkForecast (weekday_short d)
                     (round_opt (daily_max api !! S index))
                     (round_opt (daily_min api !! S index))
                     (getWeatherInfo (daily_code api !! S index)))
       (drop 1 (daily_time api)).

Definition formatWeather (a : option Address) (api : ApiData) : Formatted :=
  mkFormatted (city_of a) (js_round (current_temperature api))
              (getWeatherInfo (Some (current_code api))) (forecast_of api).

End Format.

(** ** The card's state, the fetch and the refresh rule *)

Record WeatherState := mkWeather {
  weatherData : option Formatted;   (** [dashboard_weather_data_v1] *)
  lastFetch : Z;                    (** [dashboard_weather_fetch_v1] *)
  loading : bool;
  error : option string;
  pending : nat                     (** geolocation requests without their callback yet *)
}.

(** [30 * 60 * 1000] *)
Definition refresh_ms : Z := 30 * 60 * 1000.

(** [!weatherData || (now - lastFetch > 30 * 60 * 1000)] *)
Definition needs_fetch (now : Z) (st : WeatherState) : bool :=
  match weatherData st with
  | None => true
  | Some _ => refresh_ms <? now - lastFetch st
  end.

Definition set_loading (b : bool) (st : WeatherState) : WeatherState :=
  mkWeather (weatherData st) (lastFetch st) b (error st) (pending st).

(** [fetchWeather()] up to [getCurrentPosition]: the flags are set and a
    request is outstanding. *)
Definition fetchWeather (st : WeatherState) : WeatherState :=
  mkWeather (weatherData st) (lastFetch st) true None (S (pending st)).

(** The body of the effect. *)
Definition weather_effect (now : Z) (st : WeatherState) : WeatherState :=
  if needs_fetch now st then fetchWeather st else set_loading false st.

(** The error an outcome raises, if any: the two [throw]s of the success
    callback and the error callback. *)
Definition outcome_error (o : FetchOutcome) : option string :=
  match o with
  | Denied => Some msg_denied
  | Fetched geoOk _ weatherOk _ =>
      if negb geoOk then Some msg_no_city
      else if negb weatherOk then Some msg_no_weather
      else None
  end.

Section Card.
Variable weekday_short : string -> string.

(** A callback at time [now]: [try] stores the formatted data and the
    time, [catch] sets the error, [finally] clears [loading].  A new data
    object changes the effect's dependencies, so the effect runs again. *)
Definition complete (now : Z) (o : FetchOutcome) (st : WeatherState) : WeatherState :=
  match outcome_error o, o with
  | Some e, _ => mkWeather (weatherData st) (lastFetch st) false (Some e) (pred (pending st))
  | None, Fetched _ a _ api =>
      weather_effect now
        (mkWeather (Some (formatWeather weekday_short a api)) now false (error st) (pred (pending st)))
  | None, Denied => st
  end.

Inductive WeatherEvent :=
| Mount (now : Z)                        (** the effect at mount *)
| Refresh                                (** the refresh and retry buttons *)
| Callback (now : Z) (o : FetchOutcome). (** a geolocation callback returns *)

Definition weather_step (st : WeatherState) (ev : WeatherEvent) : WeatherState :=
  match ev with
  | Mount now => weather_effect now st
  | Refresh => fetchWeather st
  | Callback now o => if (pending st =? 0)%nat then st else complete now o st
  end.

End Card.

(** What the card renders. *)
Inductive WeatherView :=
| VLoading                                (** the loading text *)
| VError (msg : string)                   (** the error and the retry button *)
| VNothing                                (** [return null] *)
| VShow (d : Formatted) (banner : option string).

Definition weather_view (st : WeatherState) : WeatherView :=
  if loading st then VLoading
  else match error st, weatherData st with
       | Some e, None => VError e
       | None, None => VNothing
       | b, Some d => VShow d b
       end.

(** ** Lemmas *)

Lemma js_round_spec x : (x - (1 # 2) < inject_Z (js_round x) <= x + (1 # 2))%Q.
Proof.
  unfold js_round. pose proof (Qfloor_le (x + (1 # 2))) as Hle.
  pose proof (Qlt_floor (x + (1 # 2))) as Hlt.
  rewrite inject_Z_plus in Hlt. change (inject_Z 1) with 1%Q in Hlt. lra.
Qed.

Lemma needs_fetch_fresh t st d :
  weatherData st = Some d -> t - lastFetch st <= refresh_ms -> needs_fetch t st = false.
Proof. intros Hd Ht. unfold needs_fetch. rewrite Hd. apply Z.ltb_ge. lia. Qed.

Lemma forecast_lookup ws api i :
  forecast_of ws api !! i =
    (fun d => mkForecast (ws d) (round_opt (daily_max api !! S i)) (round_opt (daily_min api !! S i))
                         (getWeatherInfo (daily_code api !! S i))) <$> daily_time api !! S i.
Proof. unfold forecast_of, mapi. rewrite lookup_mapi_from, lookup_drop. done. Qed.

(** An entry of a daily array that exists is rounded to within a half. *)
Lemma round_entry (xs : list Q) (ts : list string) i d :
  length xs = length ts -> ts !! i = Some d ->
  exists m z, xs !! i = Some m /\ round_opt (xs !! i) = Some z /\
              (m - (1 # 2) < inject_Z z <= m + (1 # 2))%Q.
Proof.
  intros Hlen Hd. destruct (xs !! i) as [m|] eqn:Hm.
  - exists m, (js_round m). split; [done|]. split; [done|]. apply js_round_spec.
  - apply lookup_ge_None in Hm. apply lookup_lt_Some in Hd. lia.
Qed.

(** C34.  A successful callback stores the formatted answer and its
    time, clears [loading], and the card shows the new data; the effect
    it triggers does not start another fetch, and no mount or re-render
    fetches again for the next 30 minutes: there is no fetch loop. *)
Theorem weather_success_settles ws st now a api :
  (0 < pending st)%nat ->
  let st' := weather_step ws st (Callback now (Fetched true a true api)) in
  weatherData st' = Some (formatWeather ws a api) /\ lastFetch st' = now /\
  loading st' = false /\ pending st' = pred (pending st) /\
  weather_view st' = VShow (formatWeather ws a api) (error st) /\
  forall t, t <= now + refresh_ms -> needs_fetch t st' = false.
Proof.
  intros Hp. unfold weather_step. destruct (Nat.eqb_spec (pending st) 0) as [|_]; [lia|].
  unfold complete, outcome_error, negb, weather_effect, needs_fetch. cbn [weatherData lastFetch].
  assert (E : (refresh_ms <? now - now) = false) by (apply Z.ltb_ge; unfold refresh_ms; lia).
  rewrite E. repeat split.
  - unfold weather_view. simpl. by destruct (error st).
  - intros t Ht. simpl. apply Z.ltb_ge. lia.
Qed.

(** C35.  A failed callback (location denied, or either response not
    [ok]) keeps the stored data and its time, sets the error and clears
    [loading]: the card shows the old data with the error as a banner,
    or the error with a retry button when there is no data. *)
Theorem weather_failure_keeps_data ws st now o e :
  (0 < pending st)%nat -> outcome_error o = Some e ->
  let st' := weather_step ws st (Callback now o) in
  weatherData st' = weatherData st /\ lastFetch st' = lastFetch st /\
  loading st' = false /\ error st' = Some e /\ pending st' = pred (pending st) /\
  weather_view st' = match weatherData st with Some d => VShow d (Some e) | None => VError e end.
Proof.
  intros Hp He. unfold weather_step. destruct (Nat.eqb_spec (pending st) 0) as [|_]; [lia|].
  unfold complete. rewrite He. unfold weather_view. simpl.
  repeat split; by destruct (weatherData st).
Qed.

(** C36.  The forecast has one entry per daily date after today, entry
    [i] reads index [i + 1] of every daily array (its weekday from the
    date, its temperatures and its code), and when the arrays have the
    length of the date array no temperature is NaN and each is its API
    value rounded to within a half degree. *)
Theorem forecast_aligned ws api :
  length (forecast_of ws api) = (length (daily_time api) - 1)%nat /\
  forall i f, forecast_of ws api !! i = Some f ->
    (exists d, daily_time api !! S i = Some d /\ fdate f = ws d) /\
    maxTemp f = round_opt (daily_max api !! S i) /\
    minTemp f = round_opt (daily_min api !! S i) /\
    finfo f = getWeatherInfo (daily_code api !! S i) /\
    (length (daily_max api) = length (daily_time api) ->
     length (daily_min api) = length (daily_time api) ->
     exists hi lo zhi zlo, daily_max api !! S i = Some hi /\ maxTemp f = Some zhi /\
       daily_min api !! S i = Some lo /\ minTemp f = Some zlo /\
       (hi - (1 # 2) < inject_Z zhi <= hi + (1 # 2))%Q /\
       (lo - (1 # 2) < inject_Z zlo <= lo + (1 # 2))%Q).
Proof.
  split.
  - unfold forecast_of, mapi. rewrite length_mapi_from, length_drop. done.
  - intros i f Hf. rewrite forecast_lookup in Hf.
    destruct (daily_time api !! S i) as [d|] eqn:Hd; [|discriminate].
    injection Hf as <-. simpl. split; [by exists d|]. repeat split; try done.
    intros Hmax Hmin.
    destruct (round_entry _ _ _ _ Hmax Hd) as (hi & zhi & H1 & H2 & H3).
    destruct (round_entry _ _ _ _ Hmin Hd) as (lo & zlo & H4 & H5 & H6).
    exists hi, lo, zhi, zlo. auto 7.
Qed.

(** The snow codes of the WMO table the API uses (71-77 snow, 85-86
    snow showers) have no row of their own: the card calls them
    unknown. *)
Lemma snow_codes_unknown c :
  (71 <= c <= 77 \/ 85 <= c <= 86) -> getWeatherInfo (Some c) = info_unknown.
Proof.
  intros Hc. unfold getWeatherInfo.
  repeat (match goal with |- context [if ?b then _ else _] => destruct b eqn:? end; bool_prop);
    first [reflexivity | lia].
Qed.

(** ** Witnesses *)

Definition w_weekday (d : string) : string := d.

Definition w_api : ApiData :=
  mkApi (186 # 10) 2 ["2025-03-10"; "2025-03-11"; "2025-03-12"]%string
        [204 # 10; 215 # 10; 192 # 10] [101 # 10; 97 # 10] [0; 61; 71].

Definition w_state : WeatherState := mkWeather None 0 true None 1.

Definition w_now : Z := 1741600000000.

Lemma weather_success_settles_witness :
  (0 < pending w_state)%nat /\
  forecast (formatWeather w_weekday None w_api) =
    [mkForecast "2025-03-11" (Some 22) (Some 10) info_rain;
     mkForecast "2025-03-12" (Some 19) None info_unknown] /\
  weather_view (weather_step w_weekday w_state (Callback w_now (Fetched true None true w_api))) =
    VShow (formatWeather w_weekday None w_api) None.
Proof.
  assert (Hp : (0 < pending w_state)%nat) by (simpl; lia).
  split; [exact Hp|]. split; [vm_compute; reflexivity|].
  destruct (weather_success_settles w_weekday w_state w_now None w_api Hp) as (_ & _ & _ & _ & Hv & _).
  exact Hv.
Defined.

Lemma weather_failure_keeps_data_witness :
  (0 < pending w_state)%nat /\ outcome_error Denied = Some msg_denied /\
  weather_view (weather_step w_weekday w_state (Callback w_now Denied)) = VError msg_denied.
Proof.
  assert (Hp : (0 < pending w_state)%nat) by (simpl; lia).
  assert (He : outcome_error Denied = Some msg_denied) by reflexivity.
  split; [exact Hp|]. split; [exact He|].
  destruct (weather_failure_keeps_data w_weekday w_state w_now Denied msg_denied Hp He)
    as (_ & _ & _ & _ & _ & Hv).
  exact Hv.
Defined.

Lemma forecast_aligned_witness :
  length (forecast_of w_weekday w_api) = 2%nat /\
  forecast_of w_weekday w_api !! 0%nat = Some (mkForecast "2025-03-11" (Some 22) (Some 10) info_rain) /\
  Some 22 = round_opt (daily_max w_api !! 1%nat).
Proof.
  destruct (forecast_aligned w_weekday w_api) as [Hlen Hall].
  assert (Hf : forecast_of w_weekday w_api !! 0%nat =
                 Some (mkForecast "2025-03-11" (Some 22) (Some 10) info_rain)) by (vm_compute; reflexivity).
  split; [rewrite Hlen; reflexivity|]. split; [exact Hf|].
  destruct (Hall 0%nat _ Hf) as (_ & Hmax & _). exact Hmax.
Defined.
