(* ===== verification/Tools.v ===== *)
(** * Tools: the calculator, the stopwatch/countdown timer and the translate box

    [Calculator], [Timer] and [ToolsPanel] of
    src/components/OtherPanels.tsx (lines 8-171).

    - The calculator checks the expression against
      [/^[0-9+\-*/().%\s]+$/], rewrites each [%] to [/100] and evaluates
      the result with [Function]; the evaluator is a parameter
      [js_eval] ([None] when it throws).  [\s] is modelled as the ASCII
      white space of [is_ws]; the non-ASCII spaces it also accepts are
      not modelled.  Its history lives under [dashboard_calc_history_v1];
      [calc_step] runs one input handler (lines 30-65).
    - The timer's state is its four [useState] values and the interval
      the effect (lines 86-108) installs: the effect runs again whenever
      [isRunning], [timerMode] or [elapsed] change, so every change of
      the displayed seconds restarts the interval with a start or target
      time recomputed from [Date.now()].  Each event carries the time
      [Date.now()] reads; the effect runs at that same time.
    - The translate box ([handleTranslate], lines 142-146) alerts on a
      blank text and otherwise opens Google Translate with the language
      and the text percent-encoded ([encodeURIComponent] of Dashboard).
    - [parseInt(minutes, 10)] is modelled on the strings a number input
      produces: optional white space, an optional sign, decimal digits
      (anything after them is ignored); no digit is NaN ([None]). *)

From S2P Require Import Prelude JsDate Dashboard.

(** ** Calculator *)

(** The class [[0-9+\-*/().%\s]]. *)
Definition is_calc_char (c : ascii) : bool :=
  let n := nat_of_ascii c in
  ((48 <=? n)%nat && (n <=? 57)%nat) ||
  existsb (Ascii.eqb c) ["+"; "-"; "*"; "/"; "("; ")"; "."; "%"]%char || is_ws c.

(** [/^[...]+$/.test(expression)] *)
Definition calc_valid (e : string) : bool :=
  negb (String.eqb e "") && forallb is_calc_char (list_ascii_of_string e).

(** [expression.replace(/%/g, '/100')] *)
Fixpoint replace_percent (e : string) : string :=
  match e with
  | EmptyString => EmptyString
  | String c e' =>
      if Ascii.eqb c "%" then ("/100" ++ replace_percent e')%string
      else String c (replace_percent e')
  end.

Definition msg_invalid : string := "ביטוי לא חוקי".
Definition msg_calc_error : string := "שגיאה בחישוב".
Definition result_prefix : string := "תוצאה: ".

Record CalcState := mkCalc { expression : string; result : string; history : list string }.

Section Calculator.
(** [Function('"use strict"; return (' + s + ')')()], printed with [String(val)]. *)
Variable js_eval : string -> option string.

(** [calculate] *)
Definition calculate (st : CalcState) : CalcState :=
  let e := expression st in
  if String.eqb e "" then mkCalc e "" (history st)
  else if negb (calc_valid e) then mkCalc e msg_invalid (history st)
  else match js_eval (replace_percent e) with
       | Some v => mkCalc e (result_prefix ++ v)
                          (firstn 50 ((e ++ " = " ++ v)%string :: history st))
       | None => mkCalc e msg_calc_error (history st)
       end.

End Calculator.

(** [item.split(' = ')[0]]: the text before the first [" = "]. *)
Fixpoint split_first (item : string) : string :=
  match item with
  | EmptyString => EmptyString
  | String c rest =>
      if String.prefix " = " item then EmptyString else String c (split_first rest)
  end.

(** A click on a history entry puts its expression back in the input. *)
Definition reuse_entry (item : string) (st : CalcState) : CalcState :=
  mkCalc (split_first item) (result st) (history st).

(** The calculator's inputs (lines 30-65). *)
Inductive CalcAction :=
| SetExpression (s : string)             (** the input's [onChange] *)
| CalcKey (key : string)                 (** the input's [onKeyDown] *)
| CalcButton                             (** [חשב] *)
| ClearButton                            (** [נקה] *)
| ClearHistory (confirmed : bool)        (** [נקה היסטוריה] and its confirm *)
| EntryClick (index : nat)               (** a click on history item [index] *)
| EntryKey (index : nat) (key : string). (** a key on history item [index] *)

Definition reuse_index (index : nat) (st : CalcState) : CalcState :=
  match nth_error (history st) index with
  | Some item => reuse_entry item st
  | None => st
  end.

Definition calc_step (js_eval : string -> option string) (st : CalcState) (a : CalcAction) : CalcState :=
  match a with
  | SetExpression s => mkCalc s (result st) (history st)
  | CalcKey k => if String.eqb k "Enter" then calculate js_eval st else st
  | CalcButton => calculate js_eval st
  | ClearButton => mkCalc "" "" (history st)
  | ClearHistory c => if c then mkCalc (expression st) (result st) [] else st
  | EntryClick i => reuse_index i st
  | EntryKey i k => if String.eqb k "Enter" || String.eqb k " " then reuse_index i st else st
  end.

(** ** Timer *)

Inductive TimerMode := Stopwatch | Countdown.

#[export] Instance timer_mode_eq_dec : EqDecision TimerMode.
Proof. solve_decision. Defined.

(** What the interval callback closes over. *)
Record Interval := mkInterval { i_mode : TimerMode; startTime : Z; targetTime : Z }.

Record TimerState := mkTimer {
  elapsed : Z;                 (** seconds *)
  isRunning : bool;
  timerMode : TimerMode;
  minutes : string;
  interval : option Interval   (** [intervalRef.current], while installed *)
}.

(** [String(v).padStart(2, '0')] and [formatHMS] *)
Fixpoint dec_digits (fuel : nat) (n : Z) (acc : string) : string :=
  match fuel with
  | O => acc
  | S f => let acc' := String (digit (n mod 10)) acc in
           if n <? 10 then acc' else dec_digits f (n / 10) acc'
  end.

Definition js_string_of_Z (n : Z) : string :=
  if n <? 0 then ("-" ++ dec_digits (S (Z.to_nat (- n))) (- n) "")%string
  else dec_digits (S (Z.to_nat n)) n "".

Definition padStart2 (s : string) : string :=
  match String.length s with
  | O => "00"
  | 1%nat => String "0" s
  | _ => s
  end.

Definition formatHMS (s : Z) : string :=
  let h := s / 3600 in
  let m := Z.rem s 3600 / 60 in
  let sec := Z.rem s 60 in
  (padStart2 (js_string_of_Z h) ++ ":" ++ padStart2 (js_string_of_Z m) ++ ":" ++
   padStart2 (js_string_of_Z sec))%string.

(** [Math.ceil(x / 1000)] on an integer [x]. *)
Definition ceil_div1000 (x : Z) : Z := - ((- x) / 1000).

(** [parseInt(s, 10)] *)
Fixpoint digits_value (l : list ascii) (acc : Z) (seen : bool) : option Z :=
  match l with
  | c :: l' =>
      let n := Z.of_nat (nat_of_ascii c) in
      if (48 <=? n) && (n <=? 57) then digits_value l' (acc * 10 + (n - 48)) true
      else if seen then Some acc else None
  | [] => if seen then Some acc else None
  end.

Definition parseInt (s : string) : option Z :=
  match drop_ws (list_ascii_of_string s) with
  | "-"%char :: l => option_map Z.opp (digits_value l 0 false)
  | "+"%char :: l => digits_value l 0 false
  | l => digits_value l 0 false
  end.

Definition msg_enter_minutes : string := "הזן דקות לטיימר".
Definition msg_timer_done : string := "הטיימר הושלם!".

(** The interval the effect installs at [now], or none when stopped. *)
Definition effect_interval (now : Z) (st : TimerState) : option Interval :=
  if isRunning st then
    Some (mkInterval (timerMode st)
            (now - (if timerMode st is Stopwatch then elapsed st * 1000 else 0))
            (now + elapsed st * 1000))
  else None.

(** A render after a state change: when a dependency of the effect
    changed, the old interval is cleared and the effect runs again. *)
Definition commit (now : Z) (old new : TimerState) : TimerState :=
  if bool_decide (isRunning old = isRunning new /\ timerMode old = timerMode new /\
                  elapsed old = elapsed new)
  then new
  else mkTimer (elapsed new) (isRunning new) (timerMode new) (minutes new) (effect_interval now new).

Definition with_state (e : Z) (r : bool) (m : TimerMode) (st : TimerState) : TimerState :=
  mkTimer e r m (minutes st) (interval st).

(** The interval callback at [now]. *)
Definition tick (now : Z) (iv : Interval) (st : TimerState) : TimerState * list string :=
  match i_mode iv with
  | Stopwatch => (with_state ((now - startTime iv) / 1000) (isRunning st) (timerMode st) st, [])
  | Countdown =>
      let remaining := Z.max 0 (ceil_div1000 (targetTime iv - now)) in
      if remaining <=? 0 then (with_state 0 false (timerMode st) st, [msg_timer_done])
      else (with_state remaining (isRunning st) (timerMode st) st, [])
  end.

Inductive TimerEvent :=
| Tick (now : Z)
| StartStopwatch (now : Z)          (** [handleStart] *)
| PauseTimer (now : Z)              (** [handlePause] *)
| ResetTimer (now : Z)              (** [handleReset] *)
| StartCountdown (now : Z)          (** [handleStartCountdown] *)
| SetMinutes (s : string).

Definition timer_step (st : TimerState) (ev : TimerEvent) : TimerState * list string :=
  match ev with
  | Tick now =>
      match interval st with
      | None => (st, [])
      | Some iv => let '(st', out) := tick now iv st in (commit now st st', out)
      end
  | StartStopwatch now => (commit now st (with_state (elapsed st) true Stopwatch st), [])
  | PauseTimer now => (commit now st (with_state (elapsed st) false (timerMode st) st), [])
  | ResetTimer now => (commit now st (with_state 0 false (timerMode st) st), [])
  | StartCountdown now =>
      match parseInt (minutes st) with
      | Some mins =>
          if mins <=? 0 then (st, [msg_enter_minutes])
          else (commit now st (with_state (mins * 60) true Countdown st), [])
      | None => (st, [msg_enter_minutes])
      end
  | SetMinutes s => (mkTimer (elapsed st) (isRunning st) (timerMode st) s (interval st), [])
  end.

(** The time an event happens at, for the alerts of a run. *)
Definition event_time (ev : TimerEvent) : Z :=
  match ev with
  | Tick t | StartStopwatch t | PauseTimer t | ResetTimer t | StartCountdown t => t
  | SetMinutes _ => 0
  end.

(** A run of events: the final state and each alert with its time. *)
Fixpoint timer_run (st : TimerState) (evs : list TimerEvent) : TimerState * list (Z * string) :=
  match evs with
  | [] => (st, [])
  | ev :: evs' =>
      let '(st1, out) := timer_step st ev in
      let '(st2, outs) := timer_run st1 evs' in
      (st2, map (fun m => (event_time ev, m)) out ++ outs)
  end.

(** ** Quick translate *)

Inductive TranslateEffect :=
| TranslateAlert (msg : string)       (** [alert('הכנס טקסט')] *)
| OpenTab (url : string).             (** [window.open(url, '_blank')] *)

(** [handleTranslate] *)
Definition handleTranslate (textToTranslate lang : string) : TranslateEffect :=
  if String.eqb (trim textToTranslate) "" then TranslateAlert "הכנס טקסט"
  else OpenTab ("https://translate.google.com/?sl=auto&tl=" ++ encodeURIComponent lang ++
                "&text=" ++ encodeURIComponent textToTranslate ++ "&op=translate")%string.

(** ** Calculator lemmas *)

(** The characters the evaluator may see: the class without [%]. *)
Definition eval_char (c : ascii) : Prop := is_calc_char c = true /\ c <> "%"%char.

Lemma replace_percent_chars e :
  forallb is_calc_char (list_ascii_of_string e) = true ->
  forall c, In c (list_ascii_of_string (replace_percent e)) -> eval_char c.
Proof.
  induction e as [|c e IH]; simpl; [done|]. rewrite andb_true_iff. intros [Hc He].
  destruct (Ascii.eqb_spec c "%") as [->|Hne].
  - intros x Hx. simpl in Hx.
    destruct Hx as [<-|[<-|[<-|[<-|Hx]]]]; try (split; [reflexivity | discriminate]). auto.
  - intros x [<-|Hx]; [by split|]. auto.
Qed.

Lemma prefix_sep_false c r :
  (c <> " "%char \/ exists d r', r = String d r' /\ d <> "="%char) ->
  String.prefix " = " (String c r) = false.
Proof.
  intros [Hc | (d & r' & -> & Hd)].
  - unfold String.prefix. destruct (ascii_dec " " c) as [<-|]; [done | reflexivity].
  - unfold String.prefix. destruct (ascii_dec " " c); [|reflexivity].
    fold String.prefix. destruct (ascii_dec "=" d) as [<-|]; [done | reflexivity].
Qed.

(** An expression of the class has no [=], so [" = "] first occurs
    where the entry was joined. *)
Lemma split_first_entry e v :
  forallb is_calc_char (list_ascii_of_string e) = true ->
  split_first (e ++ " = " ++ v) = e.
Proof.
  induction e as [|c e IH]; [by destruct v|].
  cbn [list_ascii_of_string forallb]. rewrite andb_true_iff. intros [Hc He].
  change (String c e ++ " = " ++ v)%string with (String c (e ++ " = " ++ v)).
  cbn [split_first]. rewrite IH by done. rewrite prefix_sep_false; [done|].
  destruct e as [|c' e']; [right; by exists " "%char, ("= " ++ v)%string|].
  right. exists c', (e' ++ " = " ++ v)%string. split; [done|].
  cbn in He. rewrite andb_true_iff in He. destruct He as [Hc' _]. intros ->. discriminate.
Qed.

Lemma calc_valid_chars e :
  calc_valid e = true -> forallb is_calc_char (list_ascii_of_string e) = true.
Proof. unfold calc_valid. rewrite andb_true_iff. tauto. Qed.

(** C37.  The evaluator is reached only with strings of digits,
    operators, parentheses, points and spaces: two evaluators that agree
    on every such string give the calculator the same result and
    history.  A letter, a quote or any other character is rejected
    before [Function] is built, and [%] is rewritten to [/100] first. *)
Theorem calculate_eval_safe (ev ev' : string -> option string) st :
  (forall s, (forall c, In c (list_ascii_of_string s) -> eval_char c) -> ev s = ev' s) ->
  calculate ev st = calculate ev' st.
Proof.
  intros Hag. unfold calculate. destruct (String.eqb _ "") ; [done|].
  destruct (calc_valid (expression st)) eqn:Hv; [|done]. simpl.
  rewrite Hag; [done|]. by apply replace_percent_chars, calc_valid_chars.
Qed.

(** C38.  A successful calculation shows [תוצאה: v], puts the entry
    [expression = v] first in the history and keeps at most 49 older
    entries; clicking that entry puts the same expression back in the
    input. *)
Theorem calculate_history_roundtrip (ev : string -> option string) st v :
  calc_valid (expression st) = true -> ev (replace_percent (expression st)) = Some v ->
  let st' := calculate ev st in
  result st' = (result_prefix ++ v)%string /\
  history st' = (expression st ++ " = " ++ v)%string :: firstn 49 (history st) /\
  (length (history st') <= 50)%nat /\
  expression (reuse_entry (expression st ++ " = " ++ v) st') = expression st.
Proof.
  intros Hv He. unfold calculate. pose proof Hv as Hv'. unfold calc_valid in Hv'.
  rewrite andb_true_iff, negb_true_iff in Hv'. destruct Hv' as [Hne _].
  rewrite Hne, Hv, He. simpl. split; [done|]. split; [done|]. split.
  - rewrite length_firstn. lia.
  - apply split_first_entry, calc_valid_chars, Hv.
Qed.

(** ** Timer lemmas *)

(** The stored history as the calculator writes it: at most 50 entries,
    each of which, re-used, gives an expression that passes the filter. *)
Definition calc_ok (st : CalcState) : Prop :=
  (length (history st) <= 50)%nat /\
  Forall (fun item => calc_valid (split_first item) = true) (history st).

Lemma calculate_ok ev st : calc_ok st -> calc_ok (calculate ev st).
Proof.
  intros [Hl Hf]. unfold calculate.
  destruct (String.eqb _ "") eqn:He; [by split|].
  destruct (calc_valid (expression st)) eqn:Hv; [|by split]. cbn [negb].
  destruct (ev _) as [v|]; [|by split]. unfold calc_ok. cbn [history length firstn].
  rewrite length_take. split; [lia|]. constructor; [|by apply Forall_take].
  by rewrite split_first_entry by (by apply calc_valid_chars).
Qed.

Lemma reuse_index_ok i st : calc_ok st -> calc_ok (reuse_index i st).
Proof. unfold reuse_index. by destruct (nth_error _ _). Qed.

Lemma reuse_index_valid i st :
  calc_ok st -> (i < length (history st))%nat -> calc_valid (expression (reuse_index i st)) = true.
Proof.
  intros [_ Hf] Hi. unfold reuse_index.
  destruct (nth_error (history st) i) as [item|] eqn:E; [|by apply nth_error_None in E; lia].
  eapply Forall_forall in Hf; [exact Hf | by eapply nth_error_In].
Qed.

Lemma result_prefix_not_invalid v : (result_prefix ++ v)%string <> msg_invalid.
Proof. discriminate. Qed.

(** C26.  Every handler of the calculator (typing, Enter, the two
    buttons, clearing the history with or without confirmation, a click
    or a key on a history item) keeps the stored history at most 50
    entries long, each entry of which, clicked, puts back an expression
    that passes the input filter: calculating it again never shows the
    invalid-expression message. *)
Theorem calc_step_ok ev st a :
  calc_ok st ->
  calc_ok (calc_step ev st a) /\
  (forall i, (i < length (history st))%nat ->
     calc_valid (expression (calc_step ev st (EntryClick i))) = true /\
     result (calculate ev (calc_step ev st (EntryClick i))) <> msg_invalid).
Proof.
  intros Hok. split.
  - destruct a; cbn [calc_step];
      repeat match goal with |- context [if ?b then _ else _] => destruct b end;
      first [ by apply calculate_ok | by apply reuse_index_ok | exact Hok
            | split; cbn [history length]; [lia | constructor] ].
  - intros i Hi. pose proof (reuse_index_valid i st Hok Hi) as Hv. cbn [calc_step].
    split; [done|]. unfold calculate. rewrite Hv.
    destruct (String.eqb _ "") ; [discriminate|]. simpl.
    destruct (ev _); [apply result_prefix_not_invalid | discriminate].
Qed.

Lemma ceil_div1000_spec x : x <= ceil_div1000 x * 1000 < x + 1000.
Proof. unfold ceil_div1000. zdiv. Qed.

(** The installed interval matches the state, and a countdown's target
    is never before [goal]. *)
Definition cd_inv (goal : Z) (st : TimerState) : Prop :=
  match interval st with
  | None => isRunning st = false
  | Some iv => isRunning st = true /\ i_mode iv = timerMode st /\
               (i_mode iv = Countdown -> goal <= targetTime iv)
  end.

Lemma commit_inv goal now st new :
  cd_inv goal st -> interval new = interval st ->
  (bool_decide (isRunning st = isRunning new /\ timerMode st = timerMode new /\
                elapsed st = elapsed new) = true -> cd_inv goal new) ->
  (isRunning new = true -> timerMode new = Countdown -> goal <= now + elapsed new * 1000) ->
  cd_inv goal (commit now st new).
Proof.
  intros Hinv Hint Hsame Hnew. unfold commit.
  destruct (bool_decide _) eqn:E; [by apply Hsame|].
  unfold cd_inv, effect_interval. simpl. destruct (isRunning new) eqn:Hr; [|done].
  simpl. repeat split; auto.
Qed.

Lemma tick_inv goal now iv st :
  cd_inv goal st -> interval st = Some iv -> cd_inv goal (commit now st (tick now iv st).1).
Proof.
  intros Hinv Hiv. pose proof Hinv as Hinv'. unfold cd_inv in Hinv'. rewrite Hiv in Hinv'.
  destruct Hinv' as (Hr & Hm & Ht). unfold tick.
  pose proof (ceil_div1000_spec (targetTime iv - now)).
  destruct (i_mode iv) eqn:Hmode; [|specialize (Ht eq_refl); destruct (Z.max 0 _ <=? 0) eqn:Hz];
    apply commit_inv; try done; simpl;
    first [ intros E%bool_decide_eq_true; destruct E as [E _]; simpl in E; congruence
          | intros E%bool_decide_eq_true; unfold cd_inv; simpl; rewrite Hiv; intuition congruence
          | intros; apply Z.leb_gt in Hz; lia
          | intros; congruence ].
Qed.

(** A tick only raises the alert once the interval's target has passed. *)
Lemma tick_alert_late goal now iv st m :
  cd_inv goal st -> interval st = Some iv -> In m (tick now iv st).2 -> goal <= now.
Proof.
  intros Hinv Hiv Hm. unfold cd_inv in Hinv. rewrite Hiv in Hinv.
  destruct Hinv as (_ & _ & Ht). unfold tick in Hm.
  destruct (i_mode iv); [done|]. specialize (Ht eq_refl).
  pose proof (ceil_div1000_spec (targetTime iv - now)).
  destruct (Z.max 0 _ <=? 0) eqn:Hz; [|done]. apply Z.leb_le in Hz. lia.
Qed.

Lemma ticks_run_late goal st ts :
  cd_inv goal st -> forall t m, In (t, m) (timer_run st (map Tick ts)).2 -> goal <= t.
Proof.
  revert st. induction ts as [|t0 ts IH]; intros st Hinv t m Hin; [done|].
  simpl in Hin. destruct (interval st) as [iv|] eqn:Hiv.
  - destruct (tick t0 iv st) as [st1 out] eqn:Ht.
    destruct (timer_run (commit t0 st st1) (map Tick ts)) as [st2 outs] eqn:Hr.
    simpl in Hin. apply in_app_or in Hin as [Hin|Hin].
    + apply in_map_iff in Hin as (m' & [= <- _] & Hm').
      eapply tick_alert_late; [exact Hinv | exact Hiv | by rewrite Ht].
    + eapply (IH (commit t0 st st1)); [|by rewrite Hr].
      replace st1 with (tick t0 iv st).1 by (by rewrite Ht). by apply tick_inv.
  - destruct (timer_run st (map Tick ts)) as [st2 outs] eqn:Hr. simpl in Hin.
    eapply IH; [exact Hinv | by rewrite Hr].
Qed.

Lemma start_countdown_step st T0 mins :
  isRunning st = false -> parseInt (minutes st) = Some mins -> 0 < mins ->
  timer_step st (StartCountdown T0) =
    (mkTimer (mins * 60) true Countdown (minutes st)
             (Some (mkInterval Countdown T0 (T0 + mins * 60 * 1000))), []).
Proof.
  intros Hr Hp Hm. simpl. rewrite Hp. destruct (Z.leb_spec mins 0); [lia|].
  unfold commit. rewrite bool_decide_eq_false_2 by (simpl; rewrite Hr; intuition discriminate).
  unfold effect_interval. simpl. do 4 f_equal; lia.
Qed.

(** C39.  A countdown started from a stopped timer with [mins > 0]
    minutes never raises its alert before [mins] minutes have passed,
    however the interval's ticks fall, although every change of the
    seconds re-installs the interval with a target recomputed from the
    rounded-up remaining seconds; and a first tick at or after the
    target does raise it and stops the timer at 0. *)
Theorem countdown_never_early st T0 mins ts t1 :
  isRunning st = false -> parseInt (minutes st) = Some mins -> 0 < mins ->
  (forall t m, In (t, m) (timer_run st (StartCountdown T0 :: map Tick ts)).2 ->
               T0 + mins * 60 * 1000 <= t) /\
  (T0 + mins * 60 * 1000 <= t1 ->
   (timer_run st [StartCountdown T0; Tick t1]).2 = [(t1, msg_timer_done)] /\
   isRunning (timer_run st [StartCountdown T0; Tick t1]).1 = false /\
   elapsed (timer_run st [StartCountdown T0; Tick t1]).1 = 0).
Proof.
  intros Hr Hp Hm. split.
  - intros t m Hin. cbn [timer_run] in Hin. rewrite (start_countdown_step st T0 mins) in Hin by done.
    destruct (timer_run _ (map Tick ts)) as [st2 outs] eqn:Hrun. simpl in Hin.
    eapply (ticks_run_late _ _ ts); [|by rewrite Hrun].
    unfold cd_inv. simpl. repeat split. lia.
  - intros Ht1. cbn [timer_run]. rewrite (start_countdown_step st T0 mins) by done.
    cbn [timer_step interval]. unfold tick. cbn [i_mode targetTime].
    pose proof (ceil_div1000_spec (T0 + mins * 60 * 1000 - t1)).
    assert (E : (Z.max 0 (ceil_div1000 (T0 + mins * 60 * 1000 - t1)) <=? 0) = true)
      by (apply Z.leb_le; lia).
    rewrite E. simpl. repeat split.
Qed.

(** ** The clock display *)

Definition digit_val (c : ascii) : Z := Z.of_nat (nat_of_ascii c) - 48.

(** Reading an [HH:MM:SS] display back into seconds. *)
Definition parse_hms (s : string) : option Z :=
  match s with
  | String h1 (String h2 (String c1 (String m1 (String m2 (String c2
      (String s1 (String s2 EmptyString))))))) =>
      if Ascii.eqb c1 ":" && Ascii.eqb c2 ":" then
        Some ((10 * digit_val h1 + digit_val h2) * 3600 +
              (10 * digit_val m1 + digit_val m2) * 60 + 10 * digit_val s1 + digit_val s2)
      else None
  | _ => None
  end.

Lemma digit_val_digit k : 0 <= k < 10 -> digit_val (digit k) = k.
Proof.
  intros Hk. unfold digit_val, digit. rewrite nat_ascii_embedding by lia. lia.
Qed.

(** Two-digit fields: [String(v).padStart(2, '0')] is the two digits of [v]. *)
Lemma padStart2_small n :
  0 <= n < 100 -> padStart2 (js_string_of_Z n) = String (digit (n / 10)) (String (digit (n mod 10)) "").
Proof.
  intros Hn.
  apply (forallb_zrange
           (fun n => padStart2 (js_string_of_Z n) = String (digit (n / 10)) (String (digit (n mod 10)) ""))
           (fun n => String.eqb (padStart2 (js_string_of_Z n))
                       (String (digit (n / 10)) (String (digit (n mod 10)) "")))
           0 100); [intros x Hx; by apply String.eqb_eq | vm_compute; reflexivity | lia].
Qed.

(** C40.  Below 100 hours the clock shows exactly eight characters
    [HH:MM:SS], and reading the fields back gives the elapsed seconds:
    [formatHMS] loses nothing (hours, minutes and seconds by floor
    division and remainder, each padded to two digits). *)
Theorem formatHMS_roundtrip s :
  0 <= s < 360000 ->
  String.length (formatHMS s) = 8%nat /\ parse_hms (formatHMS s) = Some s.
Proof.
  intros Hs. unfold formatHMS.
  rewrite !Z.rem_mod_nonneg by lia.
  rewrite !padStart2_small by zdiv.
  split; [reflexivity|]. cbn - [digit digit_val Z.div Z.modulo].
  rewrite !digit_val_digit by zdiv. f_equal. zdiv.
Qed.

(** ** Witnesses *)

#[local] Open Scope string_scope.

Definition w_eval (s : string) : option string :=
  if String.eqb s "12+5*3" then Some "27" else if String.eqb s "50/100" then Some "0.5" else None.

(** An evaluator that differs from [w_eval] on strings with a letter. *)
Definition w_eval_letters (s : string) : option string :=
  if existsb (Ascii.eqb "a") (list_ascii_of_string s) then Some "alert(1)" else w_eval s.

Definition w_calc : CalcState := mkCalc "12+5*3" "" ["50% = 0.5"].

Lemma calculate_eval_safe_witness :
  calculate w_eval w_calc = calculate w_eval_letters w_calc /\
  result (calculate w_eval w_calc) = "תוצאה: 27".
Proof.
  split; [|vm_compute; reflexivity].
  apply calculate_eval_safe. intros s Hs. unfold w_eval_letters.
  destruct (existsb _ _) eqn:E; [|reflexivity].
  apply existsb_exists in E as (c & Hc & Ec%Ascii.eqb_eq). subst c.
  destruct (Hs _ Hc) as [Hcalc _]. discriminate Hcalc.
Defined.

Lemma calculate_history_roundtrip_witness :
  calc_valid (expression w_calc) = true /\
  w_eval (replace_percent (expression w_calc)) = Some "27" /\
  history (calculate w_eval w_calc) = ["12+5*3 = 27"; "50% = 0.5"] /\
  expression (reuse_entry "12+5*3 = 27" (calculate w_eval w_calc)) = "12+5*3".
Proof.
  assert (Hv : calc_valid (expression w_calc) = true) by reflexivity.
  assert (He : w_eval (replace_percent (expression w_calc)) = Some "27") by reflexivity.
  split; [exact Hv|]. split; [exact He|].
  destruct (calculate_history_roundtrip w_eval w_calc "27" Hv He) as (_ & Hh & _ & Hr).
  split; [exact Hh | exact Hr].
Defined.

Lemma calc_step_ok_witness :
  calc_ok w_calc /\
  history (calc_step w_eval w_calc CalcButton) = ["12+5*3 = 27"; "50% = 0.5"]%string /\
  calc_ok (calc_step w_eval w_calc CalcButton) /\
  expression (calc_step w_eval w_calc (EntryClick 0)) = "50%"%string /\
  calc_valid (expression (calc_step w_eval w_calc (EntryClick 0))) = true.
Proof.
  assert (H0 : calc_ok w_calc) by (split; [simpl; lia | repeat constructor]).
  split; [exact H0|]. split; [vm_compute; reflexivity|].
  split; [apply (calc_step_ok w_eval w_calc CalcButton H0)|].
  split; [vm_compute; reflexivity|].
  apply (proj2 (calc_step_ok w_eval w_calc CalcButton H0) 0%nat). simpl. lia.
Defined.

Definition w_timer : TimerState := mkTimer 0 false Stopwatch " 5" None.

Lemma countdown_never_early_witness :
  isRunning w_timer = false /\ parseInt (minutes w_timer) = Some 5 /\
  (timer_run w_timer (StartCountdown 1000 :: map Tick [1250; 2000; 150600; 300999])).2 = [] /\
  (timer_run w_timer [StartCountdown 1000; Tick 301000]).2 = [(301000, msg_timer_done)].
Proof.
  assert (Hr : isRunning w_timer = false) by reflexivity.
  assert (Hp : parseInt (minutes w_timer) = Some 5) by reflexivity.
  split; [exact Hr|]. split; [exact Hp|]. split; [vm_compute; reflexivity|].
  destruct (countdown_never_early w_timer 1000 5 [] 301000 Hr Hp ltac:(lia)) as [_ Hlive].
  apply Hlive. lia.
Defined.

Lemma formatHMS_roundtrip_witness :
  formatHMS 3725 = "01:02:05" /\ parse_hms (formatHMS 3725) = Some 3725%Z.
Proof.
  split; [vm_compute; reflexivity|].
  apply (formatHMS_roundtrip 3725). lia.
Defined.

(** The countdown drifts late: a tick 600 ms after a whole second
    re-installs the interval with the remaining seconds rounded up, and
    the 5-minute countdown started at 1000 now ends at 301600. *)
Example countdown_drift :
  option_map targetTime (interval (timer_run w_timer (StartCountdown 1000 :: map Tick [2000; 150600])).1)
  = Some 301600%Z.
Proof. vm_compute. reflexivity. Qed.
