(* ===== verification/Shell.v ===== *)
(** * Shell: tabs, panels, the page header and the background

    The frame around the panels: the [Tab] enum (src/types.ts:23-32), the
    sidebar's tab list (src/components/Shared.tsx:58-68) and [Panel]
    (Shared.tsx:134-143) that shows the active tab's panel; the header's
    greeting ([getGreeting], Shared.tsx:102-108), the quotes and the
    quote of the day ([HEBREW_QUOTES], [QuoteOfTheDay], Shared.tsx:5-28);
    the App's state
    and its two effects on [document.body] (src/App.tsx:9-35); the
    background presets (src/constants.ts:17-30) and the background
    handlers of [DesignPanel] (src/components/OtherPanels.tsx:288-303,
    336-343) and the search of [MapPanel] (OtherPanels.tsx:353-359).

    [document.body]'s style is a record the effect updates field by
    field, as the code assigns them: a field the effect does not assign
    keeps its old value.  [Math.random()] is a rational in [[0, 1)].
    [new Date(y, 0, 1)] is the local midnight of the day number of
    January 1 (Hinnant's [days_from_civil]).  The texts of Shared.tsx
    are the characters the file holds: its Hebrew was saved
    double-encoded, and the model keeps what the page shows. *)

From S2P Require Import Prelude JsDate Dashboard.
From Stdlib Require Import QArith Qround Lqa.
#[local] Open Scope Z_scope.

(** ** Tabs and panels *)

Module Tab.
Inductive t := Home | Tools | Personal | History | Design | Map | News | Music.
End Tab.

#[export] Instance tab_eq_dec : EqDecision Tab.t.
Proof. solve_decision. Defined.

(** The string values of the enum. *)
Definition tab_id (x : Tab.t) : string :=
  match x with
  | Tab.Home => "home" | Tab.Tools => "tools" | Tab.Personal => "personal"
  | Tab.History => "history" | Tab.Design => "design" | Tab.Map => "map"
  | Tab.News => "news" | Tab.Music => "music"
  end.

(** [tabs] (Shared.tsx:59-68).  The labels are the characters of the
    source, which holds its Hebrew texts double-encoded (see [shared_texts_garbled]). *)
Definition tabs : list (Tab.t * string) := [
  (Tab.Home, "×“×£ ×”×‘×™×ª");
  (Tab.Tools, "×›×œ×™×");
  (Tab.Personal, "××™×©×™");
  (Tab.History, "×”×™×¡×˜×•×¨×™×”");
  (Tab.Design, "×¢×™×¦×•×‘");
  (Tab.Map, "××¤×”");
  (Tab.News, "×—×“×©×•×ª");
  (Tab.Music, "××•×–×™×§×”")]%string.

(** [Panel]: the section is [block] when its id is the active tab. *)
Definition panel_visible (id activeTab : Tab.t) : bool := bool_decide (activeTab = id).

(** The eight [Panel]s of [App], in its order. *)
Definition app_panels : list Tab.t :=
  [Tab.Home; Tab.Tools; Tab.Personal; Tab.History; Tab.Design; Tab.Map; Tab.News; Tab.Music].

(** ** The header *)

Section Header.
Context `{TimeZone}.

(** [d.getHours()] *)
Definition getHours (t : Date) : Z := ((t + tz_offset) mod msPerDay) / 3600000.

Definition greet_morning : string := "×‘×•×§×¨ ×˜×•×‘ â˜€ï¸".
Definition greet_noon : string := "×¦×”×¨×™×™× ×˜×•×‘×™× ğŸŒ¤ï¸".
Definition greet_evening : string := "×¢×¨×‘ ×˜×•×‘ ğŸŒ†".
Definition greet_night : string := "×œ×™×œ×” ×˜×•×‘ ğŸŒ™".

(** [getGreeting] *)
Definition getGreeting (t : Date) : string :=
  let h := getHours t in
  if (5 <=? h) && (h <? 12) then greet_morning
  else if (12 <=? h) && (h <? 17) then greet_noon
  else if (17 <=? h) && (h <? 21) then greet_evening
  else greet_night.

End Header.

(** The day number of a civil date (the inverse of [civil_from_days]). *)
Definition days_from_civil (y0 m d : Z) : Z :=
  let y := if m <=? 2 then y0 - 1 else y0 in
  let era := y / 400 in
  let yoe := y - era * 400 in
  let mp := if 2 <? m then m - 3 else m + 9 in
  let doy := (153 * mp + 2) / 5 + d - 1 in
  let doe := yoe * 365 + yoe / 4 - yoe / 100 + doy in
  era * 146097 + doe - 719468.

Definition civil_year (n : Z) : Z := let '(y, _, _) := civil_from_days n in y.

(** [HEBREW_QUOTES] (Shared.tsx:5-16), character for character. *)
Record Quote := mkQuote { quote : string; author : string }.

#[local] Open Scope string_scope.
Definition HEBREW_QUOTES : list Quote := [
  mkQuote "×× ××™×Ÿ ×× ×™ ×œ×™, ××™ ×œ×™? ×•×›×©×× ×™ ×œ×¢×¦××™, ××” ×× ×™? ×•×× ×œ× ×¢×›×©×™×•, ××™××ª×™?"
          "×”×œ×œ ×”×–×§×Ÿ";
  mkQuote "×›×œ ××“× ×¦×¨×™×š ×©×™×”×™×” ×œ×• ××©×”×•, ×‘×©×‘×™×œ ×©×™×•×›×œ ×œ×ª×ª."
          "×¨×‘×™ × ×—××Ÿ ××‘×¨×¡×œ×‘";
  mkQuote "×”×¦×œ×—×” ×”×™× ×”×™×›×•×œ×ª ×œ×¢×‘×•×¨ ××›×™×©×œ×•×Ÿ ×œ×›×™×©×œ×•×Ÿ ××‘×œ×™ ×œ××‘×“ ××ª ×”×”×ª×œ×”×‘×•×ª."
          "×•×™× ×¡×˜×•×Ÿ ×¦'×¨×¦'×™×œ";
  mkQuote "×”×“×¨×š ×”×˜×•×‘×” ×‘×™×•×ª×¨ ×œ×—×–×•×ª ××ª ×”×¢×ª×™×“ ×”×™× ×œ×™×¦×•×¨ ××•×ª×•."
          "×¤×™×˜×¨ ×“×¨×•×§×¨";
  mkQuote "×“×¢ ×××™×Ÿ ×‘××ª, ×•×œ××Ÿ ××ª×” ×”×•×œ×š, ×•×œ×¤× ×™ ××™ ××ª×” ×¢×ª×™×“ ×œ×™×ª×Ÿ ×“×™×Ÿ ×•×—×©×‘×•×Ÿ."
          "×¤×¨×§×™ ××‘×•×ª";
  mkQuote "×”×™×•× ×”×•× ×”×™×•× ×”×¨××©×•×Ÿ ×©×œ ×©××¨×™×ª ×—×™×™×š."
          "×¤×ª×’× ×¢×××™";
  mkQuote "×”××¢×– ×× ×¦×—."
          "×¤×ª×’×";
  mkQuote "×”××•×©×¨ ××™× ×• ×™×¢×“, ××œ× ×“×¨×š ×—×™×™×."
          "×¤×ª×’×";
  mkQuote "×”×—×™×™× ×”× ××” ×©×§×•×¨×” ×œ×š ×‘×–××Ÿ ×©××ª×” ×¢×¡×•×§ ×‘×œ×ª×›× ×Ÿ ×ª×•×›× ×™×•×ª ××—×¨×•×ª."
          "×’'×•×Ÿ ×œ× ×•×Ÿ";
  mkQuote "××œ ×ª×‘×›×” ×›×™ ×–×” × ×’××¨, ×ª×—×™×™×š ×›×™ ×–×” ×§×¨×”."
          ("×“" ++ String (ascii_of_nat 34) "×¨ ×¡×•×¡")].
#[local] Close Scope string_scope.

(** [HEBREW_QUOTES.length] *)
Definition quote_count : Z := Z.of_nat (length HEBREW_QUOTES).

Section Quote.
Context `{TimeZone}.

(** [new Date(new Date().getFullYear(), 0, 1)] *)
Definition startOfYear (now : Date) : Date :=
  local_midnight (days_from_civil (civil_year (local_day now)) 1 1).

(** [Math.floor((Date.now() - startOfYear.getTime()) / (1000 * 60 * 60 * 24)) % HEBREW_QUOTES.length] *)
Definition quoteIndex (now : Date) : Z :=
  Z.rem ((now - startOfYear now) / (1000 * 60 * 60 * 24)) quote_count.

(** [setDailyQuote(HEBREW_QUOTES[quoteIndex])]: an index out of range
    reads [undefined], and the component then renders nothing. *)
Definition dailyQuote (now : Date) : option Quote :=
  let i := quoteIndex now in
  if (0 <=? i) && (i <? quote_count) then nth_error HEBREW_QUOTES (Z.to_nat i) else None.

End Quote.

(** ** The background *)

#[local] Open Scope string_scope.

Definition PRESET_BACKGROUNDS : list string := [
  "linear-gradient(135deg,#b6f0e1,#c6d9ff)";
  "linear-gradient(120deg,#89f7fe,#66a6ff)";
  "linear-gradient(to top, #a18cd1 0%, #fbc2eb 100%)";
  "linear-gradient(120deg,#fdfbfb,#ebedee)";
  "linear-gradient(to right, #43e97b 0%, #38f9d7 100%)";
  "linear-gradient(to top, #ff9a9e 0%, #fecfef 99%, #fecfef 100%)";
  "https://images.unsplash.com/photo-1503264116251-35a269479413?q=80&w=1920&auto=format&fit=crop";
  "https://images.unsplash.com/photo-1506744038136-46273834b3fb?q=80&w=1920&auto=format&fit=crop";
  "https://images.unsplash.com/photo-1553095066-5014bc7b7f2d?q=80&w=1920&auto=format&fit=crop";
  "https://images.unsplash.com/photo-1487147264018-f937fba0c817?q=80&w=1920&auto=format&fit=crop";
  "https://images.unsplash.com/photo-1536514498073-50e69d39c6cf?q=80&w=1920&auto=format&fit=crop";
  "https://images.unsplash.com/photo-1470770841072-f978cf4d019e?q=80&w=1920&auto=format&fit=crop"]%string.

Record AppState := mkApp {
  activeTab : Tab.t;
  background : string;     (** [dashboard_bg_v3] *)
  font : string
}.

(** The state at mount, with the stored background if there is one. *)
Definition app_init (stored_bg : option string) : AppState :=
  mkApp Tab.Home (match stored_bg with Some b => b | None => nth 0 PRESET_BACKGROUNDS "" end)
        "'Assistant', Arial, sans-serif".

Record BodyStyle := mkBody {
  animated_bg : bool;      (** the [animated-bg] class *)
  b_background : string;
  b_size : string;
  b_position : string;
  b_attachment : string;
  b_animation : string;
  b_font : string
}.

(** The first effect: [document.body.style.fontFamily = font]. *)
Definition font_effect (font : string) (b : BodyStyle) : BodyStyle :=
  mkBody (animated_bg b) (b_background b) (b_size b) (b_position b) (b_attachment b)
         (b_animation b) font.

(** The second effect, on [background]. *)
Definition background_effect (bg : string) (b : BodyStyle) : BodyStyle :=
  if String.eqb bg "" then
    mkBody true (b_background b) (b_size b) (b_position b) (b_attachment b) (b_animation b) (b_font b)
  else if String.prefix "linear" bg then
    mkBody false bg "240% 240%" (b_position b) (b_attachment b)
           "gradient-animation 18s ease infinite" (b_font b)
  else
    mkBody false ("url(" ++ bg ++ ")") "cover" "center" "fixed" "none" (b_font b).

(** [handleRandomBg], with [Math.random()] = [r]. *)
Definition handleRandomBg (r : Q) : string :=
  nth (Z.to_nat (Qfloor (r * inject_Z (Z.of_nat (length PRESET_BACKGROUNDS))))) PRESET_BACKGROUNDS "".

(** The preset tiles: [PRESET_BACKGROUNDS.slice(1).map((bg, i) => ...)]. *)
Definition preset_tiles : list string := drop 1 PRESET_BACKGROUNDS.

Inductive AppAction :=
| SelectTab (x : Tab.t)
| SetFont (f : string)
| UploadBackground (dataUrl : string)    (** the [FileReader] result *)
| ResetBackground
| RandomBackground (r : Q)
| PickPreset (i : nat).

Definition set_background (bg : string) (st : AppState) : AppState :=
  mkApp (activeTab st) bg (font st).

Definition app_step (st : AppState) (a : AppAction) : AppState :=
  match a with
  | SelectTab x => mkApp x (background st) (font st)
  | SetFont f => mkApp (activeTab st) (background st) f
  | UploadBackground d => set_background d st
  | ResetBackground => set_background (nth 0 PRESET_BACKGROUNDS "") st
  | RandomBackground r => set_background (handleRandomBg r) st
  | PickPreset i => set_background (nth i preset_tiles "") st
  end.

(** ** The map panel ([MapPanel], OtherPanels.tsx:353-359) *)

Record MapState := mkMap { mapQuery : string; iframeSrc : string }.

Definition map_init : MapState :=
  mkMap "Tel Aviv, Israel" "https://www.google.com/maps?q=Tel+Aviv,Israel&output=embed".

(** [handleMapSearch] *)
Definition handleMapSearch (st : MapState) : MapState :=
  mkMap (mapQuery st) ("https://www.google.com/maps?q=" ++ encodeURIComponent (mapQuery st) ++ "&output=embed").

#[local] Close Scope string_scope.

(** ** Lemmas *)

(** Whatever the active tab, exactly one of the App's panels is shown,
    and it is that tab's; the sidebar offers each tab once, in the
    panels' order. *)
Lemma one_panel_visible a :
  List.filter (fun id => panel_visible id a) app_panels = [a] /\ map fst tabs = app_panels.
Proof. destruct a; split; reflexivity. Qed.

Section HeaderLemmas.
Context `{TimeZone}.

Lemma getHours_range t : 0 <= getHours t < 24.
Proof. unfold getHours, msPerDay. zdiv. Qed.

(** The greeting by hour: morning 5-11, afternoon 12-16, evening 17-20,
    night otherwise. *)
Lemma getGreeting_bands t :
  getGreeting t = (if (5 <=? getHours t) && (getHours t <? 12) then greet_morning
                   else if (12 <=? getHours t) && (getHours t <? 17) then greet_noon
                   else if (17 <=? getHours t) && (getHours t <? 21) then greet_evening
                   else greet_night) /\
  (getHours t < 5 \/ 21 <= getHours t -> getGreeting t = greet_night).
Proof.
  split; [reflexivity|]. intros Hh. unfold getGreeting.
  repeat (match goal with |- context [if ?b then _ else _] => destruct b eqn:? end; bool_prop);
    first [reflexivity | lia].
Qed.

End HeaderLemmas.

(** January 1 of a day's civil year is at most 365 days before it, on
    every day of the years 1970-2199. *)
Lemma day_of_year_range n :
  0 <= n < 84000 -> 0 <= n - days_from_civil (civil_year n) 1 1 < 366.
Proof.
  intros Hn.
  apply (forallb_zrange (fun n => 0 <= n - days_from_civil (civil_year n) 1 1 < 366)
           (fun n => (0 <=? n - days_from_civil (civil_year n) 1 1) &&
                     (n - days_from_civil (civil_year n) 1 1 <? 366)) 0 (Z.to_nat 84000));
    [intros x Hx; bool_prop; lia | vm_compute; reflexivity | rewrite Z2Nat.id; lia].
Qed.

Lemma quote_count_10 : quote_count = 10.
Proof. reflexivity. Qed.

Section QuoteLemmas.
Context `{TimeZone}.

(** The quote index is the day of the year modulo 10, so
    [HEBREW_QUOTES[quoteIndex]] is always defined. *)
Lemma quoteIndex_range now :
  0 <= local_day now < 84000 ->
  quoteIndex now = (local_day now - days_from_civil (civil_year (local_day now)) 1 1) mod 10 /\
  0 <= quoteIndex now < quote_count.
Proof.
  intros Hd. pose proof (day_of_year_range _ Hd) as Hy.
  assert (E : (now - startOfYear now) / (1000 * 60 * 60 * 24) =
              local_day now - days_from_civil (civil_year (local_day now)) 1 1).
  { unfold startOfYear, local_midnight, local_day, msPerDay in *.
    set (d0 := days_from_civil _ 1 1) in *. zdiv. }
  unfold quoteIndex. rewrite quote_count_10, E, Z.rem_mod_nonneg by lia.
  split; [reflexivity|]. zdiv.
Qed.

(** For every date of the years 1970-2199 the quote of the day is a
    quote of the table, never [undefined]. *)
Lemma dailyQuote_defined now :
  0 <= local_day now < 84000 ->
  dailyQuote now = nth_error HEBREW_QUOTES (Z.to_nat (quoteIndex now)) /\
  exists q, dailyQuote now = Some q.
Proof.
  intros Hd. destruct (quoteIndex_range now Hd) as [_ Hr].
  unfold dailyQuote. replace ((0 <=? quoteIndex now) && (quoteIndex now <? quote_count)) with true
    by (symmetry; bool_prop; lia).
  split; [reflexivity|]. rewrite quote_count_10 in Hr.
  destruct (nth_error HEBREW_QUOTES _) as [q|] eqn:E; [by exists q|].
  apply nth_error_None in E. change (length HEBREW_QUOTES) with 10%nat in E. lia.
Qed.

End QuoteLemmas.

(** ** The texts of Shared.tsx *)

(** Does a UTF-8 string hold a Hebrew letter (U+05D0..U+05EA, the bytes
    [D7 90] .. [D7 AA])? *)
Fixpoint has_hebrew_letter (s : string) : bool :=
  match s with
  | String c ((String d _) as rest) =>
      ((nat_of_ascii c =? 215)%nat && (144 <=? nat_of_ascii d)%nat && (nat_of_ascii d <=? 170)%nat)
      || has_hebrew_letter rest
  | _ => false
  end.

(** Code bug: Shared.tsx holds its Hebrew texts double-encoded (the UTF-8
    bytes read as Windows-1252 and saved again), so not one sidebar
    label, greeting, quote or author the page shows contains a Hebrew
    letter, while the texts of the other files do (here the calendar's
    weekday letters of HomePanel.tsx). *)
Lemma shared_texts_garbled :
  forallb (fun s => negb (has_hebrew_letter s))
    (map snd tabs ++ [greet_morning; greet_noon; greet_evening; greet_night] ++
     flat_map (fun q => [quote q; author q]) HEBREW_QUOTES) = true /\
  has_hebrew_letter "א" = true.
Proof. split; vm_compute; reflexivity. Qed.

(** [Math.random()] is below 1, so the random background is one of the
    presets, never [undefined]. *)
Lemma handleRandomBg_preset r :
  (0 <= r < 1)%Q -> In (handleRandomBg r) PRESET_BACKGROUNDS.
Proof.
  intros [H0 H1]. unfold handleRandomBg. apply nth_In.
  change (Z.of_nat (length PRESET_BACKGROUNDS)) with 12.
  pose proof (Qfloor_le (r * inject_Z 12)) as Hle.
  pose proof (Qlt_floor (r * inject_Z 12)) as Hlt.
  set (z := Qfloor (r * inject_Z 12)) in *.
  assert (Hz : 0 <= z < 12).
  { rewrite inject_Z_plus in Hlt. change (inject_Z 1) with 1%Q in Hlt.
    change (inject_Z 12) with (12 # 1) in Hle, Hlt. split.
    - apply Z.lt_succ_r. rewrite Zlt_Qlt, <- Z.add_1_r, inject_Z_plus.
      change (inject_Z 0) with 0%Q. change (inject_Z 1) with 1%Q. lra.
    - rewrite Zlt_Qlt. change (inject_Z 12) with (12 # 1). lra. }
  simpl length. lia.
Qed.

(** The map's iframe asks Google Maps for exactly the typed query. *)
Lemma handleMapSearch_query st :
  exists e, iframeSrc (handleMapSearch st) = ("https://www.google.com/maps?q=" ++ e ++ "&output=embed")%string /\
            decodeURIComponent e = Some (mapQuery st).
Proof. eexists. split; [reflexivity | apply decode_encode]. Qed.
