(* ===== verification/Panels.v ===== *)
(** * Panels: the news and music panels and their refresh buttons

    [IFrameCard], [NewsPanel] and [MusicPanel] of
    src/components/OtherPanels.tsx (lines 374-410).  Each card renders
    an [<iframe id={iframeId} src={siteUrl}>] and a refresh button whose
    handler looks the frame up with [document.getElementById(iframeId)]
    and re-assigns its [src], which starts a new navigation of that
    frame to the same address.

    [App] mounts every panel, the inactive ones hidden but not unmounted
    (src/App.tsx:43-50), so the document holds the frames of both panels
    at once, the news frames first.  A frame is its id, its [src] and
    the number of navigations it has started; [getElementById] returns
    the first frame of the document with the id.  The other ids of the
    document (the search box's [datalist], HomePanel.tsx:385) are not
    frame ids and are left out. *)

From S2P Require Import Prelude.

(** The props of [IFrameCard]. *)
Record IFrameCard := mkIFrameCard { title : string; siteUrl : string; iframeId : string }.

#[local] Open Scope string_scope.

Definition NewsPanel : list IFrameCard :=
  [mkIFrameCard "הגיזרה" "https://hagizra.news/" "news-hagizra";
   mkIFrameCard "אמ'ס אונליין" "https://www.emess.co.il/online?native" "news-emess";
   mkIFrameCard "Kore M+" "https://www.kore.co.il/mplus" "news-kore"].

Definition MusicPanel : list IFrameCard :=
  [mkIFrameCard "KCM.fm" "https://kcm.fm/" "music-kcm";
   mkIFrameCard "KCM.fm Live" "https://kcm.fm/Live/" "music-kcm-live";
   mkIFrameCard "Kol-Play" "https://kol-play.co.il/" "music-kolplay";
   mkIFrameCard "HNGN" "https://www.hngn.co.il/" "music-hngn";
   mkIFrameCard "Toker.fm" "https://www.toker.fm/" "music-toker"].

#[local] Close Scope string_scope.

(** The cards of the document, in document order. *)
Definition app_cards : list IFrameCard := NewsPanel ++ MusicPanel.

(** An [<iframe>] of the document. *)
Record Frame := mkFrame { frame_id : string; frame_src : string; navigations : nat }.

(** Mounting a card creates its frame, which loads [siteUrl] once. *)
Definition mount_card (c : IFrameCard) : Frame := mkFrame (iframeId c) (siteUrl c) 1.

Definition app_frames : list Frame := mount_card <$> app_cards.

(** [document.getElementById(id)]: the position of the first frame with
    that id. *)
Fixpoint getElementById (id : string) (fs : list Frame) : option nat :=
  match fs with
  | [] => None
  | f :: fs' => if String.eqb (frame_id f) id then Some 0%nat else S <$> getElementById id fs'
  end.

(** [iframe.src = iframe.src] *)
Definition reassign_src (f : Frame) : Frame := mkFrame (frame_id f) (frame_src f) (S (navigations f)).

(** [refreshIframe] of the card whose [iframeId] is [id]; [if (iframe)]
    skips a missing frame. *)
Definition refreshIframe (id : string) (fs : list Frame) : list Frame :=
  match getElementById id fs with
  | Some i => alter reassign_src i fs
  | None => fs
  end.

(** Clicks on the refresh buttons of cards [k1, k2, ...], in order. *)
Definition refresh_clicks (cards : list IFrameCard) (clicks : list nat) (fs : list Frame) : list Frame :=
  fold_left (fun fs k => match cards !! k with
                         | Some c => refreshIframe (iframeId c) fs
                         | None => fs
                         end) clicks fs.

(** ** Every refresh button reloads its own frame *)

Lemma getElementById_nodup fs k f :
  NoDup (frame_id <$> fs) -> fs !! k = Some f -> getElementById (frame_id f) fs = Some k.
Proof.
  revert k. induction fs as [|f0 fs IH]; intros k Hnd Hk; [done|].
  rewrite fmap_cons in Hnd. inversion Hnd as [|? ? Hnin Hnd']; subst.
  destruct k as [|k]; simpl in Hk |- *.
  - injection Hk as ->. by rewrite String.eqb_refl.
  - destruct (String.eqb_spec (frame_id f0) (frame_id f)) as [E|_].
    + exfalso. apply Hnin. rewrite E. apply list_elem_of_fmap_2, (list_elem_of_lookup_2 _ k), Hk.
    + by rewrite (IH k Hnd' Hk).
Qed.

Lemma fmap_alter_keep {B} (g : Frame -> B) (i : nat) (fs : list Frame) :
  (forall f, g (reassign_src f) = g f) -> g <$> alter reassign_src i fs = g <$> fs.
Proof.
  intros Hg. apply list_eq. intros j. rewrite !list_lookup_fmap, list_lookup_alter.
  case_decide; [subst; destruct (fs !! _); simpl; [by rewrite Hg | done] | done].
Qed.

Section Refresh.
Variable cards : list IFrameCard.
Hypothesis Hnd : NoDup (iframeId <$> cards).

Lemma refresh_card fs j c :
  frame_id <$> fs = iframeId <$> cards -> cards !! j = Some c ->
  refreshIframe (iframeId c) fs = alter reassign_src j fs.
Proof.
  intros Hid Hc. unfold refreshIframe.
  assert (Hj : frame_id <$> fs !! j = Some (iframeId c)).
  { rewrite <- list_lookup_fmap, Hid, list_lookup_fmap, Hc. done. }
  destruct (fs !! j) as [f|] eqn:Hf; [|done]. injection Hj as <-.
  rewrite (getElementById_nodup fs j f); [done | by rewrite Hid | exact Hf].
Qed.

(** Whatever the clicks, the frames keep their ids and addresses, and
    frame [k] has loaded once more per click on the button of card [k]. *)
Lemma refresh_clicks_spec (clicks : list nat) (fs : list Frame) :
  frame_id <$> fs = iframeId <$> cards ->
  frame_id <$> refresh_clicks cards clicks fs = frame_id <$> fs /\
  frame_src <$> refresh_clicks cards clicks fs = frame_src <$> fs /\
  (forall k, (navigations <$> refresh_clicks cards clicks fs) !! k =
             (fun n => n + count_occ Nat.eq_dec clicks k)%nat <$> ((navigations <$> fs) !! k)).
Proof.
  revert fs. induction clicks as [|c cs IH]; intros fs Hid.
  - split; [done|]. split; [done|]. intros k. change (refresh_clicks cards [] fs) with fs. rewrite !list_lookup_fmap.
    destruct (fs !! k); cbn; [f_equal; lia | done].
  - change (refresh_clicks cards (c :: cs) fs) with
      (refresh_clicks cards cs (match cards !! c with
                                | Some card => refreshIframe (iframeId card) fs
                                | None => fs end)).
    destruct (cards !! c) as [card|] eqn:Hc.
    + rewrite (refresh_card fs c card Hid Hc).
      assert (Hid' : frame_id <$> alter reassign_src c fs = frame_id <$> fs) by (by apply fmap_alter_keep).
      destruct (IH (alter reassign_src c fs)) as (H1 & H2 & H3); [by rewrite Hid'|].
      split; [by rewrite H1|]. split; [rewrite H2; by apply fmap_alter_keep|].
      intros k. rewrite H3, !list_lookup_fmap, list_lookup_alter. cbn [count_occ].
      destruct (Nat.eq_dec c k) as [->|Hne];
        [rewrite decide_True by done | rewrite decide_False by done];
        destruct (fs !! _); cbn; try done; f_equal; lia.
    + destruct (IH fs Hid) as (H1 & H2 & H3). split; [done|]. split; [done|].
      intros k. rewrite H3. cbn [count_occ].
      destruct (Nat.eq_dec c k) as [->|]; [|done].
      assert (Hl : (length fs <= k)%nat).
      { apply lookup_ge_None_1 in Hc. rewrite <- (length_fmap frame_id fs), Hid, length_fmap. lia. }
      by rewrite list_lookup_fmap, lookup_ge_None_2.
Qed.

End Refresh.

#[local] Instance string_eq_dec : EqDecision string := string_dec.

Lemma app_frames_ids : frame_id <$> app_frames = iframeId <$> app_cards.
Proof. reflexivity. Qed.

(** C17.  The refresh buttons of the news and music panels work
    independently although both panels stay mounted: the eight frame
    ids are distinct, so after any sequence of clicks every frame keeps
    its address and frame [k] has loaded once at mount and once more per
    click on the button of card [k], and on no other button. *)
Theorem refresh_buttons_independent clicks :
  NoDup (iframeId <$> app_cards) /\
  frame_src <$> refresh_clicks app_cards clicks app_frames = siteUrl <$> app_cards /\
  (forall k, (k < length app_cards)%nat ->
     (navigations <$> refresh_clicks app_cards clicks app_frames) !! k =
     Some (S (count_occ Nat.eq_dec clicks k))).
Proof.
  assert (Hnd : NoDup (iframeId <$> app_cards)) by (apply (bool_decide_unpack (NoDup (iframeId <$> app_cards))); vm_compute; reflexivity).
  destruct (refresh_clicks_spec app_cards Hnd clicks app_frames app_frames_ids) as (_ & Hs & Hn).
  split; [exact Hnd|]. split; [rewrite Hs; reflexivity|].
  intros k Hk. rewrite Hn, !list_lookup_fmap.
  destruct (lookup_lt_is_Some_2 app_cards k Hk) as [c Hc].
  unfold app_frames. rewrite list_lookup_fmap, Hc. reflexivity.
Qed.

Lemma refresh_buttons_independent_witness :
  (navigations <$> refresh_clicks app_cards [0; 7; 0]%nat app_frames) !! 0%nat = Some 3%nat /\
  (navigations <$> refresh_clicks app_cards [0; 7; 0]%nat app_frames) !! 7%nat = Some 2%nat /\
  (navigations <$> refresh_clicks app_cards [0; 7; 0]%nat app_frames) !! 4%nat = Some 1%nat.
Proof.
  destruct (refresh_buttons_independent [0; 7; 0]%nat) as (_ & _ & Hn).
  split; [apply Hn; simpl; lia|]. split; [apply Hn; simpl; lia|]. apply Hn. simpl. lia.
Defined.
