(* ===== verification/Views.v ===== *)
(** * Views: the frame of the page and the rendered lists, as data

    What the components render, with the handler each button runs:
    - the App frame (src/App.tsx:37-57): the sidebar
      (src/components/Shared.tsx:70-91), the page header with its clock
      and the quote of the day (Shared.tsx:94-124), the eight panels with
      their visibility, and the footer;
    - the search box with its suggestion list (HomePanel.tsx:371-416) and
      the shortcut grid (HomePanel.tsx:20-35);
    - the history panel (OtherPanels.tsx:430-476), the shortcut manager
      (OtherPanels.tsx:245-260) and the to-do list (OtherPanels.tsx:219-236).

    A button is kept as the action it dispatches to the component's step
    function ([app_step], [home_step], [personal_step]), so the theorems
    relate what a click on a rendered row does to the row it sits in.
    CSS classes, icons and the host's date and time formatting of the
    header are not modelled; the favicon of a grid card
    ([new URL(url).hostname]) is left out. *)

From S2P Require Import Prelude JsDate Dashboard Personal Tools Shell.
Import Shortcuts.

(** A double quote, as the templates [`"${item}"`] write it. *)
Definition dq : string := String (ascii_of_nat 34) EmptyString.

(** ** The App frame *)

(** A [<button role="tab">] of the sidebar. *)
Record TabButton := mkTabButton { tb_id : Tab.t; tb_label : string; aria_selected : bool }.

(** The sidebar's heading (Shared.tsx:72), as the file holds it. *)
Definition sidebar_title : string := "×”×“×©×‘×•×¨×“ ×©×œ×™".

(** [tabs.map(tab => <button aria-selected={activeTab === tab.id} ...>)] *)
Definition Sidebar (activeTab : Tab.t) : list TabButton :=
  map (fun '(id, label) => mkTabButton id label (bool_decide (activeTab = id))) tabs.

(** [onClick={() => setActiveTab(tab.id)}] *)
Definition tab_click (b : TabButton) : AppAction := SelectTab (tb_id b).

Record HeaderView := mkHeaderView {
  greeting : string;              (** [getGreeting()] *)
  daily_quote : option Quote      (** [QuoteOfTheDay]; [None] renders nothing *)
}.

Record AppView := mkAppView {
  sidebar : list TabButton;
  header : HeaderView;
  shown : list (Tab.t * bool);    (** each [Panel] and whether it is [block] *)
  footer : string
}.

Definition app_footer : string := "דשבורד מקומי — כל הנתונים נשמרים בדפדפן שלך".

Section Frame.
Context `{TimeZone}.

(** [setInterval(() => setDateTime(new Date()), 1000)] from the mount at
    [mounted]: at time [t] the header shows the time of the last tick. *)
Definition clock_at (mounted t : Date) : Date := mounted + 1000 * ((t - mounted) / 1000).

(** [PageHeader] at time [t]: the greeting reads the ticking clock, while
    [QuoteOfTheDay]'s effect ran once, at the mount ([[]] dependencies). *)
Definition PageHeader (mounted t : Date) : HeaderView :=
  mkHeaderView (getGreeting (clock_at mounted t)) (dailyQuote mounted).

(** The App's render. *)
Definition App_view (st : AppState) (mounted t : Date) : AppView :=
  mkAppView (Sidebar (activeTab st)) (PageHeader mounted t)
            (map (fun id => (id, panel_visible id (activeTab st))) app_panels) app_footer.

End Frame.

(** ** The sidebar and the panels agree *)

Lemma In_Sidebar a b :
  In b (Sidebar a) -> exists label, In (tb_id b, label) tabs /\ b = mkTabButton (tb_id b) label (bool_decide (a = tb_id b)).
Proof.
  unfold Sidebar. intros ([id label] & <- & Hin)%in_map_iff. by exists label.
Qed.

Section FrameLemmas.
Context `{TimeZone}.

(** C7.  The sidebar and the panels stay in step: a click on any button
    of the rendered sidebar makes that button the only one marked
    [aria-selected] and that tab's panel the only one shown, and leaves
    the background and the font as they were. *)
Theorem sidebar_panel_sync st b mounted t :
  In b (sidebar (App_view st mounted t)) ->
  List.filter aria_selected (sidebar (App_view (app_step st (tab_click b)) mounted t)) =
    [mkTabButton (tb_id b) (tb_label b) true] /\
  List.filter snd (shown (App_view (app_step st (tab_click b)) mounted t)) = [(tb_id b, true)] /\
  background (app_step st (tab_click b)) = background st /\
  font (app_step st (tab_click b)) = font st.
Proof.
  destruct b as [id lbl sel]. intros (label & Hin & E)%In_Sidebar.
  injection E as <- _. cbn [tb_id tb_label] in *. cbn in Hin.
  repeat destruct Hin as [Hin|Hin]; try (injection Hin as <- <-); try contradiction;
    repeat split; reflexivity.
Qed.

(** The clock the header reads is at most one second behind, and the
    quote is the one chosen at mount, whatever the time. *)
Lemma PageHeader_clock mounted t :
  mounted <= t ->
  t - 1000 < clock_at mounted t <= t /\
  greeting (PageHeader mounted t) = getGreeting (clock_at mounted t) /\
  daily_quote (PageHeader mounted t) = dailyQuote mounted.
Proof. intros Ht. unfold clock_at. split; [zdiv | split; reflexivity]. Qed.

End FrameLemmas.

(** ** The home page, the history panel and the shortcut manager *)

(** A card of [ShortcutGrid]: its title and the navigation of its click
    ([window.location.href = s.url]; the inner link's own navigation is
    prevented and the click reaches the card). *)
Record GridCard := mkGridCard { card_title : string; card_click : Effect }.

Definition ShortcutGrid (user : list Shortcut) : list GridCard :=
  map (fun s => mkGridCard (title s) (Navigate (url s))) (allShortcuts user).

(** The home panel's own controls (HomePanel.tsx:371-394): the search box,
    its [datalist] of suggestions (one [<option key={item}>] per history
    entry), and the two fields of the new shortcut. *)
Record HomeView := mkHomeView {
  search_value : string;
  suggestions : list string;
  shortcut_title_value : string;
  shortcut_url_value : string;
  grid : list GridCard
}.

Definition HomePanel_view (st : HomeState) : HomeView :=
  mkHomeView (searchTerm st) (searchHistory st) (newShortcutTitle st) (newShortcutUrl st)
             (ShortcutGrid (shortcuts st)).

(** A row of the history panel (OtherPanels.tsx:446-467). *)
Record HistoryRow := mkHistoryRow {
  hr_text : string;
  hr_again : HomeAction;          (** [חפש שוב] *)
  hr_again_title : string;
  hr_delete : HomeAction;         (** [מחק] *)
  hr_delete_title : string
}.

Definition history_row (item : string) : HistoryRow :=
  mkHistoryRow item (HistorySearch item) ("חפש שוב: " ++ dq ++ item ++ dq)
               (DeleteHistoryItem item) ("מחק מההיסטוריה: " ++ dq ++ item ++ dq).

Definition msg_history_empty : string := "היסטוריית החיפושים שלך ריקה.".

(** [searchHistory.length > 0 ? (clear button and rows) : (message)] *)
Inductive HistoryView :=
| HistoryEmpty (msg : string)
| HistoryList (rows : list HistoryRow).

Definition HistoryPanel_view (h : list string) : HistoryView :=
  match h with
  | [] => HistoryEmpty msg_history_empty
  | _ => HistoryList (map history_row h)
  end.

Definition rows_of (v : HistoryView) : list HistoryRow :=
  match v with HistoryEmpty _ => [] | HistoryList rs => rs end.

(** A row of [AdvancedShortcuts] (OtherPanels.tsx:251-255): the link and
    the delete button of index [i]. *)
Record ShortcutRow := mkShortcutRow { sr_title : string; sr_href : string; sr_delete : HomeAction }.

Definition AdvancedShortcuts_view (l : list Shortcut) : list ShortcutRow :=
  mapi (fun i s => mkShortcutRow (title s) (url s) (DeleteShortcut i)) l.

(** *** What a click on a rendered row does *)

Lemma rows_of_view h : rows_of (HistoryPanel_view h) = map history_row h.
Proof. by destruct h. Qed.

(** Removing every copy of an entry of a duplicate-free list is deleting
    its index. *)
Lemma filter_neq_delete (h : list string) k x :
  NoDup h -> h !! k = Some x -> List.filter (fun item => negb (String.eqb item x)) h = delete k h.
Proof.
  revert k. induction h as [|y h IH]; intros k Hnd Hk; [done|].
  inversion Hnd as [|? ? Hy Hnd']; subst. destruct k as [|k]; cbn in Hk |- *.
  - injection Hk as ->. rewrite String.eqb_refl. cbn. apply filter_all, Forall_forall.
    intros z Hz. apply negb_true_iff, String.eqb_neq. intros ->. by apply Hy, list_elem_of_In.
  - assert (Hne : String.eqb y x = false).
    { apply String.eqb_neq. intros ->. by apply Hy, (list_elem_of_lookup_2 _ k). }
    rewrite Hne. cbn. by rewrite (IH k Hnd' Hk).
Qed.

Lemma history_row_lookup h k r :
  rows_of (HistoryPanel_view h) !! k = Some r -> exists x, h !! k = Some x /\ r = history_row x.
Proof.
  rewrite rows_of_view, map_fmap, list_lookup_fmap. destruct (h !! k) as [x|]; [|done].
  intros [= <-]. by exists x.
Qed.

(** C22.  The rows of the history panel act on their own entry: the
    "search again" button of a row navigates to the Google search of
    that row's text and changes nothing; its delete button removes that
    row and no other (the history has no duplicates), and deleting the
    only row shows the empty-history message. *)
Theorem history_rows_act st k r :
  history_ok (searchHistory st) ->
  rows_of (HistoryPanel_view (searchHistory st)) !! k = Some r ->
  home_step st (hr_again r) = (st, [Navigate (search_url (hr_text r))]) /\
  rows_of (HistoryPanel_view (searchHistory (home_step st (hr_delete r)).1)) =
    delete k (rows_of (HistoryPanel_view (searchHistory st))) /\
  (length (searchHistory st) = 1%nat ->
   HistoryPanel_view (searchHistory (home_step st (hr_delete r)).1) = HistoryEmpty msg_history_empty).
Proof.
  intros [Hnd _] Hr. destruct (history_row_lookup _ _ _ Hr) as (x & Hx & ->).
  assert (Hd : searchHistory (home_step st (hr_delete (history_row x))).1 = delete k (searchHistory st)).
  { exact (filter_neq_delete _ k x Hnd Hx). }
  split; [reflexivity|]. rewrite Hd, !rows_of_view. split; [apply map_delete|].
  intros Hl. destruct (searchHistory st) as [|y [|z l]]; try discriminate.
  destruct k as [|k]; [done|]. discriminate.
Qed.

(** A map that forgets the index of [mapi] is a plain [map]. *)
Lemma map_mapi_from {A B C} (g : B -> C) (f : nat -> A -> B) (h : A -> C) i l :
  (forall j x, g (f j x) = h x) -> map g (mapi_from f i l) = map h l.
Proof. intros Hf. revert i. induction l as [|x l IH]; intros i; [done|]. cbn. by rewrite Hf, IH. Qed.

Definition row_link (r : ShortcutRow) : string * string := (sr_title r, sr_href r).
Definition shortcut_link (s : Shortcut) : string * string := (title s, url s).

(** The delete button of row [i] of the shortcut manager removes that
    row's link from the manager and the card [11 + i] from the home grid,
    the same shortcut in the shared store [dashboard_shortcuts_v3]. *)
Lemma shortcut_delete_views st i :
  map row_link (AdvancedShortcuts_view (shortcuts (home_step st (DeleteShortcut i)).1)) =
    delete i (map row_link (AdvancedShortcuts_view (shortcuts st))) /\
  grid (HomePanel_view (home_step st (DeleteShortcut i)).1) =
    delete (length DEFAULT_SHORTCUTS + i)%nat (grid (HomePanel_view st)).
Proof.
  unfold AdvancedShortcuts_view, mapi. rewrite !(map_mapi_from _ _ shortcut_link) by done.
  split.
  - cbn. unfold deleteShortcut. by rewrite filteri_delete, map_delete.
  - cbn [HomePanel_view grid home_step set_shortcuts shortcuts fst].
    unfold ShortcutGrid. by rewrite deleteShortcut_grid, map_delete.
Qed.

(** The suggestion list's React keys ([key={item}]) are distinct whenever
    the stored history keeps its invariant ([history_ok]). *)
Lemma suggestions_keys_unique st :
  history_ok (searchHistory st) -> NoDup (suggestions (HomePanel_view st)).
Proof. by intros [Hnd _]. Qed.

(** ** The personal panel *)

(** A row of [TodoList] (OtherPanels.tsx:223-227). *)
Record TodoRow := mkTodoRow {
  checked : bool;                 (** the checkbox *)
  row_text : string;
  struck : bool;                  (** [line-through] when done *)
  on_toggle : PersonalAction;     (** [onChange={() => toggleTodo(i)}] *)
  on_delete : PersonalAction      (** the [✖] button *)
}.

Definition todo_row (i : nat) (t : TodoItem) : TodoRow :=
  mkTodoRow (done t) (txt t) (done t) (ToggleTodo i) (DeleteTodo i).

(** [Notes] (OtherPanels.tsx:178-192) and [TodoList] (OtherPanels.tsx:219-236):
    the notes' textarea shows the draft; the clear buttons under the list
    are there only when it is not empty. *)
Record PersonalView := mkPersonalView {
  notes_textarea : string;
  todo_input : string;
  todo_rows : list TodoRow;
  clear_buttons : bool
}.

Definition PersonalPanel_view (st : PersonalState) : PersonalView :=
  mkPersonalView (tempNotes st) (newTodo st) (mapi todo_row (todos st))
                 (0 <? length (todos st))%nat.

(** ** The tools panel: the timer's face and the translate box *)

(** [Timer]'s render (OtherPanels.tsx:120-134): the clock text and the
    [minutes] field; its buttons send [StartStopwatch], [PauseTimer],
    [ResetTimer] and [StartCountdown]. *)
Record TimerView := mkTimerView { timer_face : string; minutes_value : string }.

Definition Timer_view (st : TimerState) : TimerView := mkTimerView (formatHMS (elapsed st)) (minutes st).

(** The state of [ToolsPanel] (OtherPanels.tsx:139-140). *)
Record TranslateState := mkTranslate { textToTranslate : string; lang : string }.

Definition translate_init : TranslateState := mkTranslate "" "he".

(** The [<select>]'s options (OtherPanels.tsx:158-163): value and label. *)
Definition lang_options : list (string * string) :=
  [("he", "עברית"); ("en", "אנגלית"); ("es", "ספרדית"); ("fr", "צרפתית")]%string.

Inductive TranslateAction :=
| SetText (s : string)                (** the textarea *)
| SelectLang (i : nat)                (** choosing option [i] of the select *)
| Translate.                          (** [תרגם (Google)] *)

Definition translate_step (st : TranslateState) (a : TranslateAction) :
    TranslateState * list TranslateEffect :=
  match a with
  | SetText s => (mkTranslate s (lang st), [])
  | SelectLang i =>
      match lang_options !! i with
      | Some (v, _) => (mkTranslate (textToTranslate st) v, [])
      | None => (st, [])
      end
  | Translate => (st, [handleTranslate (textToTranslate st) (lang st)])
  end.

(** *** Lemmas on the personal and tools views *)

Definition flip_row (r : TodoRow) : TodoRow :=
  mkTodoRow (negb (checked r)) (row_text r) (negb (struck r)) (on_toggle r) (on_delete r).

Lemma mapi_todo_row_alter i l :
  mapi todo_row (alter flip_done i l) = alter flip_row i (mapi todo_row l).
Proof.
  apply list_eq. intros j. unfold mapi.
  rewrite lookup_mapi_from, !list_lookup_alter, !lookup_mapi_from.
  case_decide; [subst|]; by destruct (l !! _).
Qed.

(** The checkbox of row [i] flips that row's tick and strike-through and
    nothing else; its [✖] removes that row's text from the list. *)
Lemma todo_rows_act st i :
  todo_rows (PersonalPanel_view (personal_step st (ToggleTodo i)).1) =
    alter flip_row i (todo_rows (PersonalPanel_view st)) /\
  map row_text (todo_rows (PersonalPanel_view (personal_step st (DeleteTodo i)).1)) =
    delete i (map row_text (todo_rows (PersonalPanel_view st))).
Proof.
  cbn [personal_step set_todos fst PersonalPanel_view todo_rows todos]. split.
  - unfold toggleTodo. rewrite (mapi_alter flip_done). apply mapi_todo_row_alter.
  - unfold mapi. rewrite !(map_mapi_from row_text _ txt) by done.
    unfold deleteTodo. by rewrite filteri_delete, map_delete.
Qed.

Definition lang_ok (st : TranslateState) : Prop := In (lang st) (map fst lang_options).

(** The language of the translate box is always one of the select's four
    options: the initial ['he'] and whatever option is chosen. *)
Lemma translate_step_lang st a :
  lang_ok translate_init /\ (lang_ok st -> lang_ok (translate_step st a).1).
Proof.
  split; [by left|]. intros Hok. destruct a as [s|i|]; [done| |done].
  destruct i as [|[|[|[|i]]]]; cbn; try done;
    unfold lang_ok; cbn; repeat (first [left; reflexivity | right]).
Qed.

(** ** Witnesses *)

#[local] Existing Instance jerusalem_winter.
#[local] Open Scope string_scope.

(** The History button of the sidebar at mount (2025-03-10, 09:30 in Israel). *)
Definition history_button : TabButton := mkTabButton Tab.History (nth 3 (map snd tabs) ""%string) false.

Lemma sidebar_panel_sync_witness :
  In history_button (sidebar (App_view (app_init None) 1741591800000 1741591800000)) /\
  List.filter aria_selected
    (sidebar (App_view (app_step (app_init None) (tab_click history_button)) 1741591800000 1741591800000)) =
    [mkTabButton Tab.History (tb_label history_button) true] /\
  List.filter snd (shown (App_view (app_step (app_init None) (tab_click history_button)) 1741591800000 1741591800000)) =
    [(Tab.History, true)].
Proof.
  assert (Hin : In history_button (sidebar (App_view (app_init None) 1741591800000 1741591800000)))
    by (cbn; repeat (first [left; reflexivity | right])).
  destruct (sidebar_panel_sync (app_init None) history_button 1741591800000 1741591800000 Hin)
    as (H1 & H2 & _).
  split; [exact Hin|]. split; [exact H1 | exact H2].
Defined.

Definition two_searches : HomeState := mkHome "" ["rocq"; "news"] "" "" []%string.

Lemma history_rows_act_witness :
  history_ok (searchHistory two_searches) /\
  rows_of (HistoryPanel_view (searchHistory two_searches)) !! 1%nat = Some (history_row "news"%string) /\
  home_step two_searches (DeleteHistoryItem "news"%string) = (mkHome "" ["rocq"] "" "" [], [])%string /\
  rows_of (HistoryPanel_view (searchHistory (home_step two_searches (DeleteHistoryItem "news"%string)).1)) =
    delete 1%nat (rows_of (HistoryPanel_view (searchHistory two_searches))).
Proof.
  assert (Hok : history_ok (searchHistory two_searches)).
  { split; [|cbn; lia]. cbn. apply NoDup_cons_2.
    - intros Hin%list_elem_of_In. destruct Hin as [E|[]]. discriminate.
    - apply NoDup_cons_2; [intros Hin%list_elem_of_In; destruct Hin | apply NoDup_nil_2]. }
  assert (Hr : rows_of (HistoryPanel_view (searchHistory two_searches)) !! 1%nat = Some (history_row "news"%string))
    by reflexivity.
  split; [exact Hok|]. split; [exact Hr|]. split; [vm_compute; reflexivity|].
  exact (proj1 (proj2 (history_rows_act two_searches 1 _ Hok Hr))).
Defined.
